(** * Video-interview proctoring: the attention-and-violation state machine

    A shallow embedding of the browser script [frontend/script.js] (gaze
    classifier, temporal debouncer, attention tracker, object-violation
    tracker, integrity scorer, report export) and of the report endpoint of
    the backend server, followed by the properties proved about them.

    Conventions of the embedding.
    - A JavaScript number that holds a sensor reading (pixel coordinates,
      detection confidence) is a binary64 value: Rocq's primitive [float],
      with JavaScript's own arithmetic ([x / 0] is an infinity or NaN, no
      exception is raised).
    - A JavaScript number that holds a count or a [Date] (milliseconds since
      the epoch) is an integer of [Z]; a quotient of such integers that is
      only compared with a constant ([(now - start) / 1000 > 2],
      [frames > 8 * 0.6]) is an exact rational of [Q].  On integers below
      2^53 the binary64 comparison and the exact one agree.
    - The global variables of the script are the fields of one record [State]
      that every function takes and returns.
    - Canvas drawing and notification toasts leave no trace in the state and
      are not modelled. *)

From Stdlib Require Import ZArith List Bool String Ascii Lia QArith Floats DecimalString.
Import ListNotations.
Set Warnings "-inexact-float".

(** ** JavaScript built-ins used by the script *)

Module JS.

(** [a[i]] on an array of numbers, read inside an arithmetic expression: an
    index out of range gives [undefined], which arithmetic turns into NaN. *)
Definition idx (a : list float) (i : nat) : float := nth i a nan.

Definition Math_abs (x : float) : float := abs x.

(** [Math.min]: NaN if an argument is NaN; [-0] is below [+0]. *)
Definition Math_min (x y : float) : float :=
  match (x ?= y)%float with
  | FNotComparable => nan
  | FLt => x
  | FGt => y
  | FEq => match classify x with NZero => x | _ => y end
  end.

(** [Math.max]: NaN if an argument is NaN; [+0] is above [-0]. *)
Definition Math_max (x y : float) : float :=
  match (x ?= y)%float with
  | FNotComparable => nan
  | FLt => y
  | FGt => x
  | FEq => match classify x with NZero => y | _ => x end
  end.

(** [x > y] on binary64 values (false when an argument is NaN). *)
Definition gt (x y : float) : bool := (y <? x)%float.

(** [x < y] on binary64 values (false when an argument is NaN). *)
Definition lt (x y : float) : bool := (x <? y)%float.

(** [x > y] on exact rationals. *)
Definition Qgt_bool (x y : Q) : bool := negb (Qle_bool x y).

(** An integer inside a template literal. *)
Definition Z_toString (z : Z) : string := NilZero.string_of_int (Z.to_int z).

(** [`${Math.round(x)}`]: the nearest integer, ties towards +Infinity
    (plain decimal digits; the exponent notation JavaScript switches to
    from 1e21 on is not reproduced). *)
Definition Math_round_toString (x : float) : string :=
  match Prim2SF x with
  | S754_nan => "NaN"
  | S754_infinity false => "Infinity"
  | S754_infinity true => "-Infinity"
  | S754_zero _ => "0"
  | S754_finite s m e =>
      let v := if s then Z.neg m else Z.pos m in
      Z_toString
        (if (0 <=? e)%Z then v * 2 ^ e
         else (2 * v + 2 ^ (- e)) / 2 ^ (1 - e))%Z
  end.

(** [String(n).padStart(width, '0')] *)
Definition padStart (width : nat) (n : Z) : string :=
  let digits := Z_toString n in
  (string_of_list_ascii (repeat "0"%char (width - String.length digits))
     ++ digits)%string.

(** [date.toTimeString().split(' ')[0]], that is [HH:MM:SS]; the local time
    zone is taken to be UTC. *)
Definition toTimeString (ms : Z) : string :=
  let secs := ((ms / 1000) mod 86400)%Z in
  (padStart 2 (secs / 3600) ++ ":" ++ padStart 2 ((secs / 60) mod 60) ++ ":"
     ++ padStart 2 (secs mod 60))%string.

(** Year, month and day of a day number counted from 1970-01-01
    (proleptic Gregorian calendar). *)
Definition civil_from_days (days : Z) : Z * Z * Z :=
  (let z := days + 719468 in
   let era := z / 146097 in
   let doe := z - era * 146097 in
   let yoe := (doe - doe / 1460 + doe / 36524 - doe / 146096) / 365 in
   let doy := doe - (365 * yoe + yoe / 4 - yoe / 100) in
   let mp := (5 * doy + 2) / 153 in
   let d := doy - (153 * mp + 2) / 5 + 1 in
   let m := if mp <? 10 then mp + 3 else mp - 9 in
   let y := yoe + era * 400 + (if m <=? 2 then 1 else 0) in
   (y, m, d))%Z.

(** [date.toISOString()] for a year of four digits. *)
Definition toISOString (ms : Z) : string :=
  let '(y, m, d) := civil_from_days (ms / 86400000)%Z in
  let t := (ms mod 86400000)%Z in
  (padStart 4 y ++ "-" ++ padStart 2 m ++ "-" ++ padStart 2 d ++ "T"
     ++ padStart 2 (t / 3600000) ++ ":" ++ padStart 2 ((t / 60000) mod 60)
     ++ ":" ++ padStart 2 ((t / 1000) mod 60) ++ "."
     ++ padStart 3 (t mod 1000) ++ "Z")%string.

(** [a || d] where [a] is a string or [undefined]: the empty string is
    falsy. *)
Definition or_string (a : option string) (d : string) : string :=
  match a with
  | Some s => if String.eqb s "" then d else s
  | None => d
  end.

(** [a || d] where [a] is an integer or [undefined]: zero is falsy. *)
Definition or_number (a : option Z) (d : Z) : Z :=
  match a with
  | Some n => if (n =? 0)%Z then d else n
  | None => d
  end.

(** [a || d] where [a] is an object, an array or [undefined]: every object
    (the empty array included) is truthy. *)
Definition or_object {A : Type} (a : option A) (d : A) : A :=
  match a with
  | Some o => o
  | None => d
  end.

End JS.

(** ** Gaze classifier: the geometry of [checkGazeDirection] *)

(** One face of [faceMesh.estimateFaces]: the bounding box corners and the
    landmarks [landmarks[0]] (right eye), [landmarks[1]] (left eye) and
    [landmarks[2]] (nose), each an array of numbers. *)
Record Face := mkFace {
  topLeft : list float;
  bottomRight : list float;
  rightEye : list float;
  leftEye : list float;
  nose : list float
}.

Module Gaze.
Import JS.
Local Open Scope float_scope.

Definition rightEyeCenter_x (face : Face) : float :=
  (idx (rightEye face) 0 + idx (rightEye face) 2 + idx (rightEye face) 4) / 3.
Definition rightEyeCenter_y (face : Face) : float :=
  (idx (rightEye face) 1 + idx (rightEye face) 3 + idx (rightEye face) 5) / 3.
Definition leftEyeCenter_x (face : Face) : float :=
  (idx (leftEye face) 0 + idx (leftEye face) 2 + idx (leftEye face) 4) / 3.
Definition leftEyeCenter_y (face : Face) : float :=
  (idx (leftEye face) 1 + idx (leftEye face) 3 + idx (leftEye face) 5) / 3.

Definition rightEyeDistance (face : Face) : float :=
  Math_abs (rightEyeCenter_x face - idx (nose face) 0).
Definition leftEyeDistance (face : Face) : float :=
  Math_abs (leftEyeCenter_x face - idx (nose face) 0).

Definition faceWidth (face : Face) : float :=
  Math_abs (idx (topLeft face) 0 - idx (bottomRight face) 0).

Definition normalizedRightDistance (face : Face) : float :=
  rightEyeDistance face / faceWidth face.
Definition normalizedLeftDistance (face : Face) : float :=
  leftEyeDistance face / faceWidth face.

Definition eyeDistanceRatio (face : Face) : float :=
  Math_min (normalizedRightDistance face) (normalizedLeftDistance face)
  / Math_max (normalizedRightDistance face) (normalizedLeftDistance face).

Definition lookingAwayThreshold : float := 0.12.
Definition ratioThreshold : float := 0.7.

(** The local [isLookingAway] of [checkGazeDirection]: the raw, single-frame
    classification. *)
Definition isLookingAway (face : Face) : bool :=
  (gt (normalizedRightDistance face) lookingAwayThreshold
   && gt (normalizedLeftDistance face) lookingAwayThreshold)
  || lt (eyeDistanceRatio face) ratioThreshold.

End Gaze.

(** ** Session state: the global variables of the script *)

Local Open Scope Z_scope.

Inductive Severity := info | success | warning | error.

(** One entry of [eventLog]. *)
Record LogEntry := mkLogEntry {
  timestamp : string;
  message : string;
  type : Severity
}.

(** What the focus indicator of the page shows. *)
Inductive FocusIndicator := NoFaceDetected | LookingAway | CandidateFocused.

Record State := mkState {
  isInterviewRunning : bool;
  startTime : option Z;
  lookAwayCount : Z;
  noFaceCount : Z;
  multipleFacesCount : Z;
  gazeDirectionHistory : list bool;
  phoneCount : Z;
  bookCount : Z;
  deviceCount : Z;
  lastFaceDetectedTime : option Z;
  lookingAwayStartTime : option Z;
  noFaceStartTime : option Z;
  eventLog : list LogEntry;
  (** the page: the [#score] text, the score label, the focus indicator *)
  scoreText : Z;
  scoreLabel : string;
  focusIndicator : FocusIndicator
}.

Definition GAZE_HISTORY_LENGTH : Z := 8.

Definition PROHIBITED_ITEMS : list string :=
  ["cell phone"; "book"; "laptop"; "keyboard"; "mouse"; "remote"]%string.

(** The state when the page has loaded and [initializeApp] has drawn the
    indicators (score 100, label of a full score). *)
Definition initialState : State :=
  {| isInterviewRunning := false; startTime := None;
     lookAwayCount := 0; noFaceCount := 0; multipleFacesCount := 0;
     gazeDirectionHistory := [];
     phoneCount := 0; bookCount := 0; deviceCount := 0;
     lastFaceDetectedTime := None; lookingAwayStartTime := None;
     noFaceStartTime := None; eventLog := [];
     scoreText := 100; scoreLabel := "Excellent";
     focusIndicator := CandidateFocused |}.

(** Assignments to one global variable. *)
Definition set_isInterviewRunning (v : bool) (s : State) : State :=
  mkState v (startTime s) (lookAwayCount s) (noFaceCount s)
    (multipleFacesCount s) (gazeDirectionHistory s) (phoneCount s)
    (bookCount s) (deviceCount s) (lastFaceDetectedTime s)
    (lookingAwayStartTime s) (noFaceStartTime s) (eventLog s) (scoreText s)
    (scoreLabel s) (focusIndicator s).

Definition set_startTime (v : option Z) (s : State) : State :=
  mkState (isInterviewRunning s) v (lookAwayCount s) (noFaceCount s)
    (multipleFacesCount s) (gazeDirectionHistory s) (phoneCount s)
    (bookCount s) (deviceCount s) (lastFaceDetectedTime s)
    (lookingAwayStartTime s) (noFaceStartTime s) (eventLog s) (scoreText s)
    (scoreLabel s) (focusIndicator s).

Definition set_lookAwayCount (v : Z) (s : State) : State :=
  mkState (isInterviewRunning s) (startTime s) v (noFaceCount s)
    (multipleFacesCount s) (gazeDirectionHistory s) (phoneCount s)
    (bookCount s) (deviceCount s) (lastFaceDetectedTime s)
    (lookingAwayStartTime s) (noFaceStartTime s) (eventLog s) (scoreText s)
    (scoreLabel s) (focusIndicator s).

Definition set_noFaceCount (v : Z) (s : State) : State :=
  mkState (isInterviewRunning s) (startTime s) (lookAwayCount s) v
    (multipleFacesCount s) (gazeDirectionHistory s) (phoneCount s)
    (bookCount s) (deviceCount s) (lastFaceDetectedTime s)
    (lookingAwayStartTime s) (noFaceStartTime s) (eventLog s) (scoreText s)
    (scoreLabel s) (focusIndicator s).

Definition set_multipleFacesCount (v : Z) (s : State) : State :=
  mkState (isInterviewRunning s) (startTime s) (lookAwayCount s)
    (noFaceCount s) v (gazeDirectionHistory s) (phoneCount s)
    (bookCount s) (deviceCount s) (lastFaceDetectedTime s)
    (lookingAwayStartTime s) (noFaceStartTime s) (eventLog s) (scoreText s)
    (scoreLabel s) (focusIndicator s).

Definition set_gazeDirectionHistory (v : list bool) (s : State) : State :=
  mkState (isInterviewRunning s) (startTime s) (lookAwayCount s)
    (noFaceCount s) (multipleFacesCount s) v (phoneCount s)
    (bookCount s) (deviceCount s) (lastFaceDetectedTime s)
    (lookingAwayStartTime s) (noFaceStartTime s) (eventLog s) (scoreText s)
    (scoreLabel s) (focusIndicator s).

Definition set_phoneCount (v : Z) (s : State) : State :=
  mkState (isInterviewRunning s) (startTime s) (lookAwayCount s)
    (noFaceCount s) (multipleFacesCount s) (gazeDirectionHistory s) v
    (bookCount s) (deviceCount s) (lastFaceDetectedTime s)
    (lookingAwayStartTime s) (noFaceStartTime s) (eventLog s) (scoreText s)
    (scoreLabel s) (focusIndicator s).

Definition set_bookCount (v : Z) (s : State) : State :=
  mkState (isInterviewRunning s) (startTime s) (lookAwayCount s)
    (noFaceCount s) (multipleFacesCount s) (gazeDirectionHistory s)
    (phoneCount s) v (deviceCount s) (lastFaceDetectedTime s)
    (lookingAwayStartTime s) (noFaceStartTime s) (eventLog s) (scoreText s)
    (scoreLabel s) (focusIndicator s).

Definition set_deviceCount (v : Z) (s : State) : State :=
  mkState (isInterviewRunning s) (startTime s) (lookAwayCount s)
    (noFaceCount s) (multipleFacesCount s) (gazeDirectionHistory s)
    (phoneCount s) (bookCount s) v (lastFaceDetectedTime s)
    (lookingAwayStartTime s) (noFaceStartTime s) (eventLog s) (scoreText s)
    (scoreLabel s) (focusIndicator s).

Definition set_lastFaceDetectedTime (v : option Z) (s : State) : State :=
  mkState (isInterviewRunning s) (startTime s) (lookAwayCount s)
    (noFaceCount s) (multipleFacesCount s) (gazeDirectionHistory s)
    (phoneCount s) (bookCount s) (deviceCount s) v
    (lookingAwayStartTime s) (noFaceStartTime s) (eventLog s) (scoreText s)
    (scoreLabel s) (focusIndicator s).

Definition set_lookingAwayStartTime (v : option Z) (s : State) : State :=
  mkState (isInterviewRunning s) (startTime s) (lookAwayCount s)
    (noFaceCount s) (multipleFacesCount s) (gazeDirectionHistory s)
    (phoneCount s) (bookCount s) (deviceCount s) (lastFaceDetectedTime s)
    v (noFaceStartTime s) (eventLog s) (scoreText s)
    (scoreLabel s) (focusIndicator s).

Definition set_noFaceStartTime (v : option Z) (s : State) : State :=
  mkState (isInterviewRunning s) (startTime s) (lookAwayCount s)
    (noFaceCount s) (multipleFacesCount s) (gazeDirectionHistory s)
    (phoneCount s) (bookCount s) (deviceCount s) (lastFaceDetectedTime s)
    (lookingAwayStartTime s) v (eventLog s) (scoreText s)
    (scoreLabel s) (focusIndicator s).

Definition set_eventLog (v : list LogEntry) (s : State) : State :=
  mkState (isInterviewRunning s) (startTime s) (lookAwayCount s)
    (noFaceCount s) (multipleFacesCount s) (gazeDirectionHistory s)
    (phoneCount s) (bookCount s) (deviceCount s) (lastFaceDetectedTime s)
    (lookingAwayStartTime s) (noFaceStartTime s) v (scoreText s)
    (scoreLabel s) (focusIndicator s).

Definition set_score (text : Z) (label : string) (s : State) : State :=
  mkState (isInterviewRunning s) (startTime s) (lookAwayCount s)
    (noFaceCount s) (multipleFacesCount s) (gazeDirectionHistory s)
    (phoneCount s) (bookCount s) (deviceCount s) (lastFaceDetectedTime s)
    (lookingAwayStartTime s) (noFaceStartTime s) (eventLog s) text
    label (focusIndicator s).

Definition set_focusIndicator (v : FocusIndicator) (s : State) : State :=
  mkState (isInterviewRunning s) (startTime s) (lookAwayCount s)
    (noFaceCount s) (multipleFacesCount s) (gazeDirectionHistory s)
    (phoneCount s) (bookCount s) (deviceCount s) (lastFaceDetectedTime s)
    (lookingAwayStartTime s) (noFaceStartTime s) (eventLog s) (scoreText s)
    (scoreLabel s) v.


(** ** Integrity scorer *)

(** The [deductions] of [updateStatusIndicators] (and of [downloadReport]). *)
Definition deductions (s : State) : Z :=
  (lookAwayCount s * 2) + (noFaceCount s * 5) + (multipleFacesCount s * 10)
  + (phoneCount s * 10) + (bookCount s * 8) + (deviceCount s * 7).

(** The [integrityScore] of [updateStatusIndicators] (and of
    [downloadReport]). *)
Definition integrityScore (s : State) : Z := Z.max 0 (100 - deductions s).

(** The label [updateScoreDisplay] writes next to the score. *)
Definition updateScoreDisplay_label (score : Z) : string :=
  if score >=? 90 then "Excellent"
  else if score >=? 70 then "Good"
  else if score >=? 50 then "Fair"
  else "Poor".

Definition getScoreDescription (score : Z) : string :=
  if score >=? 90 then "EXCELLENT - No significant issues detected"
  else if score >=? 70 then "GOOD - Minor focus issues observed"
  else if score >=? 50 then "FAIR - Several focus and integrity concerns"
  else "POOR - Significant integrity issues detected".

Definition getRecommendation (score : Z) : string :=
  if score >=? 80 then "RECOMMENDED - Candidate maintained good focus and integrity throughout the interview."
  else if score >=? 60 then "CONDITIONALLY RECOMMENDED - Some focus issues were observed but may not disqualify the candidate."
  else "NOT RECOMMENDED - Significant integrity issues suggest the interview may not reflect the candidate's authentic abilities.".

Definition updateStatusIndicators (s : State) : State :=
  set_score (integrityScore s) (updateScoreDisplay_label (integrityScore s)) s.

(** [logEvent(message, type)]; [clock] is the reading of its [new Date()],
    which every caller below takes to be its own [now]. *)
Definition logEvent (clock : Z) (message : string) (type : Severity)
    (s : State) : State :=
  set_eventLog
    (eventLog s ++ [mkLogEntry (JS.toTimeString clock) message type]) s.

(** ** Temporal debouncer: the history and the episode logic of
    [checkGazeDirection] *)

(** [gazeDirectionHistory.push(isLookingAway)], then [shift()] when the array
    has grown beyond [GAZE_HISTORY_LENGTH]. *)
Definition pushGazeSample (isLookingAway : bool) (history : list bool)
    : list bool :=
  let history := history ++ [isLookingAway] in
  if Z.of_nat (List.length history) >? GAZE_HISTORY_LENGTH then tl history
  else history.

(** [gazeDirectionHistory.filter(val => val).length] *)
Definition lookingAwayFrames (history : list bool) : Z :=
  Z.of_nat (List.length (filter (fun val => val) history)).

(** [lookingAwayFrames > GAZE_HISTORY_LENGTH * 0.6] *)
Definition isConsistentlyLookingAway (history : list bool) : bool :=
  JS.Qgt_bool (inject_Z (lookingAwayFrames history))
    (inject_Z GAZE_HISTORY_LENGTH * 0.6)%Q.

(** [(now - start) / 1000]: elapsed seconds between two dates. *)
Definition elapsedSeconds (now start : Z) : Q :=
  (inject_Z (now - start) / 1000)%Q.

(** [checkGazeDirection(face, now)]: the returned boolean and the state it
    leaves. *)
Definition checkGazeDirection (face : Face) (now : Z) (s : State)
    : bool * State :=
  let isLookingAway := Gaze.isLookingAway face in
  let s :=
    set_gazeDirectionHistory
      (pushGazeSample isLookingAway (gazeDirectionHistory s)) s in
  if isConsistentlyLookingAway (gazeDirectionHistory s) then
    match lookingAwayStartTime s with
    | None =>
        let s := set_lookingAwayStartTime (Some now) s in
        let s :=
          logEvent now "Candidate started looking away from screen." warning s in
        (false, s)
    | Some start =>
        let lookingAwayDuration := elapsedSeconds now start in
        if JS.Qgt_bool lookingAwayDuration 2 then
          let s := set_lookAwayCount (lookAwayCount s + 1) s in
          let s := updateStatusIndicators s in
          let s :=
            logEvent now
              ("Candidate looked away for more than 2 seconds! ("
                 ++ JS.Z_toString (lookAwayCount s) ++ " times)")%string
              warning s in
          let s := set_lookingAwayStartTime (Some now) s in
          (true, s)
        else (false, s)
    end
  else
    match lookingAwayStartTime s with
    | Some start =>
        let lookedAwayDuration := elapsedSeconds now start in
        let s :=
          if JS.Qgt_bool lookedAwayDuration 1
          then logEvent now "Candidate returned to looking at screen." success s
          else s in
        (false, set_lookingAwayStartTime None s)
    | None => (false, s)
    end.

(** ** Attention state tracker *)

(** [handleNoFaceDetected(now)] *)
Definition handleNoFaceDetected (now : Z) (s : State) : State :=
  match noFaceStartTime s with
  | None => set_noFaceStartTime (Some now) s
  | Some start =>
      let noFaceDuration := elapsedSeconds now start in
      if JS.Qgt_bool noFaceDuration 8 && (noFaceCount s =? 0) then
        let s := set_noFaceCount (noFaceCount s + 1) s in
        let s := updateStatusIndicators s in
        let s := logEvent now "No face detected for more than 10 seconds!" error s in
        set_noFaceStartTime (Some now) s
      else s
  end.

(** The [faces.forEach(face => { ... })] of [processFaceDetectionResults]:
    [isLookingAway] is the local variable the callback may set. *)
Fixpoint forEachFace (now : Z) (faces : list Face) (isLookingAway : bool)
    (s : State) : bool * State :=
  match faces with
  | [] => (isLookingAway, s)
  | face :: rest =>
      let r := checkGazeDirection face now s in
      forEachFace now rest (if fst r then true else isLookingAway) (snd r)
  end.

(** [processFaceDetectionResults(faces)]; [now] is its [new Date()]. *)
Definition processFaceDetectionResults (now : Z) (faces : list Face)
    (s : State) : State :=
  if (Z.of_nat (List.length faces) =? 0) then
    let s := set_gazeDirectionHistory [] s in
    let s := set_focusIndicator NoFaceDetected s in
    handleNoFaceDetected now s
  else
    let s := set_lastFaceDetectedTime (Some now) s in
    let s :=
      match noFaceStartTime s with
      | Some _ =>
          logEvent now "Face detected again." success
            (set_noFaceStartTime None s)
      | None => s
      end in
    let s :=
      if (Z.of_nat (List.length faces) >? 1) && (multipleFacesCount s =? 0) then
        let s := set_multipleFacesCount (multipleFacesCount s + 1) s in
        let s := updateStatusIndicators s in
        logEvent now
          ("Multiple faces detected ("
             ++ JS.Z_toString (Z.of_nat (List.length faces))
             ++ "). Possible cheating attempt!")%string
          error s
      else s in
    let r := forEachFace now faces false s in
    set_focusIndicator (if fst r then LookingAway else CandidateFocused)
      (snd r).

(** ** Object violation tracker *)

(** One prediction of [objectDetectionModel.detect]. *)
Record Prediction := mkPrediction {
  class : string;
  score : float;
  bbox : list float
}.

(** [array.includes(x)] on an array of strings. *)
Definition includes (array : list string) (x : string) : bool :=
  existsb (String.eqb x) array.

(** The filter of [processObjectDetectionResults]. *)
Definition isProhibitedItem (prediction : Prediction) : bool :=
  includes PROHIBITED_ITEMS (class prediction)
  && JS.gt (score prediction) 0.6%float.

(** [`${Math.round(confidence * 100)}% confidence`] *)
Definition confidenceText (confidence : float) : string :=
  (JS.Math_round_toString (confidence * 100)%float ++ "% confidence")%string.

(** [handleProhibitedItemDetection(item)] *)
Definition handleProhibitedItemDetection (now : Z) (item : Prediction)
    (s : State) : State :=
  let itemClass := class item in
  let confidence := score item in
  let s :=
    if String.eqb itemClass "cell phone" then
      let s := set_phoneCount (phoneCount s + 1) s in
      logEvent now
        ("Mobile phone detected! (" ++ confidenceText confidence ++ ")")%string
        error s
    else if String.eqb itemClass "book" then
      let s := set_bookCount (bookCount s + 1) s in
      logEvent now
        ("Book detected! (" ++ confidenceText confidence ++ ")")%string
        error s
    else if includes ["laptop"; "keyboard"; "mouse"; "remote"]%string itemClass then
      let s := set_deviceCount (deviceCount s + 1) s in
      logEvent now
        ("Electronic device (" ++ itemClass ++ ") detected! ("
           ++ confidenceText confidence ++ ")")%string
        error s
    else s in
  updateStatusIndicators s.

(** [processObjectDetectionResults(predictions)] *)
Definition processObjectDetectionResults (now : Z)
    (predictions : list Prediction) (s : State) : State :=
  let prohibitedItems := filter isProhibitedItem predictions in
  fold_left (fun s item => handleProhibitedItemDetection now item s)
    prohibitedItems s.

(** ** Session orchestrator *)

(** [startInterview()], on the path where the camera is granted and the
    recorder starts; the counters, the history and the log are left as they
    are.  The path of a recorder that fails is [startInterview_unrecorded],
    the path of a camera that is refused the sites [StartingInterview] and
    [CameraDenied] of [LogSite] below. *)
Definition startInterview (now : Z) (s : State) : State :=
  let s := logEvent now "Starting interview process..." info s in
  let s := set_isInterviewRunning true s in
  let s := set_startTime (Some now) s in
  let s := set_lastFaceDetectedTime (Some now) s in
  let s := logEvent now "Video recording started." info s in
  let s := logEvent now "Interview started. Camera access granted." success s in
  let s := logEvent now "Face detection initialized. Starting monitoring..." info s in
  logEvent now "Object detection initialized. Monitoring for prohibited items..." info s.

(** [stopInterview()]; the entries the recorder logs later, when it has
    stopped and when the recording is downloaded, are the sites
    [RecordingCompleted] and [RecordingDownloaded] of [LogSite] below. *)
Definition stopInterview (now : Z) (s : State) : State :=
  if negb (isInterviewRunning s) then s
  else
    let s := set_isInterviewRunning false s in
    logEvent now "Interview stopped. Ready to generate report." info s.

(** ** Report export: [downloadReport] and the report endpoint of the server *)

Record FocusIssues := mkFocusIssues {
  fi_lookAwayCount : Z;
  fi_noFaceCount : Z;
  fi_multipleFacesCount : Z
}.

Record ProhibitedItems := mkProhibitedItems {
  phonesDetected : Z;
  booksDetected : Z;
  devicesDetected : Z
}.

(** The [reportData] object of [downloadReport]. *)
Record ReportData := mkReportData {
  data_candidateName : string;
  data_interviewDuration : string;
  data_startTime : string;
  data_endTime : string;
  data_focusIssues : FocusIssues;
  data_prohibitedItems : ProhibitedItems;
  data_integrityScore : Z;
  data_events : list LogEntry
}.

(** [downloadReport()] up to the request it sends: the state it leaves (one
    more log entry) and the [reportData] it posts.  [duration] is the text of
    the [#duration] element.  With no start time recorded,
    [startTime.toISOString()] throws and nothing is posted.  What the
    function logs once the server has answered, and what [generatePDFReport]
    and [downloadLocalReport] log after it, are the sites [ReportSaved],
    [ReportSaveFailed], [PdfDownloaded], [PdfFailed] and
    [LocalReportDownloaded] of [LogSite] below. *)
Definition downloadReport (now : Z) (duration : string) (s : State)
    : State * option ReportData :=
  let s := logEvent now "Generating and saving proctoring report..." info s in
  let deductions :=
    (lookAwayCount s * 2) + (noFaceCount s * 5) + (multipleFacesCount s * 10)
    + (phoneCount s * 10) + (bookCount s * 8) + (deviceCount s * 7) in
  let integrityScore := Z.max 0 (100 - deductions) in
  match startTime s with
  | None => (s, None)
  | Some start =>
      (s,
       Some
         {| data_candidateName := "Test Candidate";
            data_interviewDuration := duration;
            data_startTime := JS.toISOString start;
            data_endTime := JS.toISOString now;
            data_focusIssues :=
              {| fi_lookAwayCount := lookAwayCount s;
                 fi_noFaceCount := noFaceCount s;
                 fi_multipleFacesCount := multipleFacesCount s |};
            data_prohibitedItems :=
              {| phonesDetected := phoneCount s;
                 booksDetected := bookCount s;
                 devicesDetected := deviceCount s |};
            data_integrityScore := integrityScore;
            data_events := eventLog s |})
  end.

(** [req.body] as the handler destructures it, when every field present has
    the type [downloadReport] sends: a field may be absent.  Bodies with
    fields of any type are those of [Json] and [postReportJson] below. *)
Record RequestBody := mkRequestBody {
  body_candidateName : option string;
  body_interviewDuration : option string;
  body_startTime : option string;
  body_endTime : option string;
  body_focusIssues : option FocusIssues;
  body_prohibitedItems : option ProhibitedItems;
  body_integrityScore : option Z;
  body_events : option (list LogEntry)
}.

(** [JSON.parse(JSON.stringify(reportData))], the body the server receives
    from [downloadReport]: every field is present, with the value sent. *)
Definition bodyOfReportData (d : ReportData) : RequestBody :=
  {| body_candidateName := Some (data_candidateName d);
     body_interviewDuration := Some (data_interviewDuration d);
     body_startTime := Some (data_startTime d);
     body_endTime := Some (data_endTime d);
     body_focusIssues := Some (data_focusIssues d);
     body_prohibitedItems := Some (data_prohibitedItems d);
     body_integrityScore := Some (data_integrityScore d);
     body_events := Some (data_events d) |}.

(** The persisted report record. *)
Record Report := mkReport {
  report_id : string;
  report_timestamp : string;
  report_candidateName : string;
  report_interviewDuration : string;
  report_startTime : string;
  report_endTime : string;
  report_focusIssues : FocusIssues;
  report_prohibitedItems : ProhibitedItems;
  report_integrityScore : Z;
  report_events : list LogEntry
}.

(** The record built by [app.post('/api/reports')]; [id] is the result of
    [generateId()] and [serverNow] the server's [new Date()]. *)
Definition postReport (id : string) (serverNow : Z) (body : RequestBody)
    : Report :=
  {| report_id := id;
     report_timestamp := JS.toISOString serverNow;
     report_candidateName :=
       JS.or_string (body_candidateName body) "Test Candidate";
     report_interviewDuration :=
       JS.or_string (body_interviewDuration body) "00:00:00";
     report_startTime :=
       JS.or_string (body_startTime body) (JS.toISOString serverNow);
     report_endTime :=
       JS.or_string (body_endTime body) (JS.toISOString serverNow);
     report_focusIssues :=
       JS.or_object (body_focusIssues body)
         {| fi_lookAwayCount := 0; fi_noFaceCount := 0;
            fi_multipleFacesCount := 0 |};
     report_prohibitedItems :=
       JS.or_object (body_prohibitedItems body)
         {| phonesDetected := 0; booksDetected := 0; devicesDetected := 0 |};
     report_integrityScore := JS.or_number (body_integrityScore body) 100;
     report_events := JS.or_object (body_events body) [] |}.

(** The earlier revision of the endpoint, kept in the repository:
    [{ id, timestamp, ...req.body, events: req.body.events || [] }].  The
    fields of the body are stored as they were sent. *)
Definition postReport_spread (id : string) (serverNow : Z)
    (body : RequestBody) : string * string * RequestBody :=
  (id, JS.toISOString serverNow,
   {| body_candidateName := body_candidateName body;
      body_interviewDuration := body_interviewDuration body;
      body_startTime := body_startTime body;
      body_endTime := body_endTime body;
      body_focusIssues := body_focusIssues body;
      body_prohibitedItems := body_prohibitedItems body;
      body_integrityScore := body_integrityScore body;
      body_events := Some (JS.or_object (body_events body) []) |}).

(** What a report consumer reads back: the six counters, the events in
    order, the integrity score. *)
Record Snapshot := mkSnapshot {
  snap_counters : Z * Z * Z * Z * Z * Z;
  snap_events : list LogEntry;
  snap_integrityScore : Z
}.

(** The snapshot held by the session state. *)
Definition snapshotOfState (s : State) : Snapshot :=
  {| snap_counters :=
       (lookAwayCount s, noFaceCount s, multipleFacesCount s,
        phoneCount s, bookCount s, deviceCount s);
     snap_events := eventLog s;
     snap_integrityScore := integrityScore s |}.

(** The snapshot read from a stored report. *)
Definition snapshotOfReport (r : Report) : Snapshot :=
  {| snap_counters :=
       (fi_lookAwayCount (report_focusIssues r),
        fi_noFaceCount (report_focusIssues r),
        fi_multipleFacesCount (report_focusIssues r),
        phonesDetected (report_prohibitedItems r),
        booksDetected (report_prohibitedItems r),
        devicesDetected (report_prohibitedItems r));
     snap_events := report_events r;
     snap_integrityScore := report_integrityScore r |}.

(** Export then reimport: the state after [downloadReport] and the stored
    record the server made of its request, if one was sent. *)
Definition exportReport (now : Z) (duration id : string) (serverNow : Z)
    (s : State) : State * option Report :=
  let r := downloadReport now duration s in
  (fst r, option_map (fun d => postReport id serverNow (bodyOfReportData d))
            (snd r)).

(** What can happen to a session: the three buttons, and one tick of either
    detection interval together with what the model returned for it.  A tick
    is taken at the moment its [await] resolves, the flag being tested at
    that same moment; a result that arrives after the flag has changed is
    the [FaceResult] or [ObjectResult] of [Action] below. *)
Inductive Op :=
| StartInterview (now : Z)
| StopInterview (now : Z)
| FaceTick (now : Z) (faces : list Face)
| ObjectTick (now : Z) (predictions : list Prediction)
| DownloadReport (now : Z) (duration : string).

(** The interval callbacks return at once while no interview is running. *)
Definition step (s : State) (op : Op) : State :=
  match op with
  | StartInterview now => startInterview now s
  | StopInterview now => stopInterview now s
  | FaceTick now faces =>
      if negb (isInterviewRunning s) then s
      else processFaceDetectionResults now faces s
  | ObjectTick now predictions =>
      if negb (isInterviewRunning s) then s
      else processObjectDetectionResults now predictions s
  | DownloadReport now duration => fst (downloadReport now duration s)
  end.

Definition run (s : State) (ops : list Op) : State := fold_left step ops s.

(** ** The gaze classifier as the specification words it

    Section 4.1 of the specification, step by step, on binary64 numbers and
    without the built-ins of the script: the order of numbers is read off
    the comparison of binary64 values, the smaller and the larger of two
    numbers off their order. *)

Module GazeSpec.
Local Open Scope float_scope.

(** A coordinate of an array of numbers; one that is absent is not a
    number. *)
Definition coordinate (a : list float) (i : nat) : float := nth i a nan.

Record Point := mkPoint { px : float; py : float }.

(** The three points of an eye array [x0, y0, x1, y1, x2, y2]. *)
Definition eyePoints (eye : list float) : Point * Point * Point :=
  (mkPoint (coordinate eye 0) (coordinate eye 1),
   mkPoint (coordinate eye 2) (coordinate eye 3),
   mkPoint (coordinate eye 4) (coordinate eye 5)).

Definition mean3 (a b c : float) : float := (a + b + c) / 3.

(** 1. the centre of an eye: the mean of its three points, [x] and [y]
    independently. *)
Definition eyeCenter (eye : list float) : Point :=
  let '(p, q, r) := eyePoints eye in
  {| px := mean3 (px p) (px q) (px r); py := mean3 (py p) (py q) (py r) |}.

(** 2. the horizontal distance from an eye centre to the nose. *)
Definition eyeToNose (eye nose : list float) : float :=
  abs (px (eyeCenter eye) - coordinate nose 0).

(** 3. the width of the bounding box. *)
Definition boxWidth (face : Face) : float :=
  abs (coordinate (topLeft face) 0 - coordinate (bottomRight face) 0).

(** 4. the normalized distances. *)
Definition normalizedRight (face : Face) : float :=
  eyeToNose (rightEye face) (nose face) / boxWidth face.
Definition normalizedLeft (face : Face) : float :=
  eyeToNose (leftEye face) (nose face) / boxWidth face.

(** The order of numbers, read off the comparison of binary64 values:
    [a > b], [a < b], and being a number at all (not NaN). *)
Definition greater (a b : float) : Prop := (a ?= b) = FGt.
Definition less (a b : float) : Prop := (a ?= b) = FLt.
Definition number (a : float) : Prop := (a ?= a) = FEq.

(** The smaller and the larger of two numbers. *)
Definition smaller (a b : float) : float := if a <=? b then a else b.
Definition larger (a b : float) : float := if a <=? b then b else a.

(** 5. the ratio of the smaller to the larger. *)
Definition ratio (face : Face) : float :=
  smaller (normalizedRight face) (normalizedLeft face)
  / larger (normalizedRight face) (normalizedLeft face).

(** 6. looking away, for one frame. *)
Definition lookingAway (face : Face) : Prop :=
  (greater (normalizedRight face) 0.12 /\ greater (normalizedLeft face) 0.12)
  \/ less (ratio face) 0.7.

End GazeSpec.

(** A binary64 value whose sign bit is clear, or NaN. *)
Definition signless (x : float) : Prop :=
  match Prim2SF x with
  | S754_zero true | S754_infinity true | S754_finite true _ _ => False
  | _ => True
  end.


(** ** Auxiliary definitions used to state the properties *)

(** The history after the debouncer has been fed [samples], oldest first,
    starting from the empty history. *)
Definition feedSamples (samples : list bool) : list bool :=
  fold_left (fun history sample => pushGazeSample sample history) samples [].

(** The [n] most recent entries of a list whose newest entry is last. *)
Definition lastn {A : Type} (n : nat) (l : list A) : list A :=
  skipn (List.length l - n) l.

(** A face whose bounding box has zero width ([topLeft.x = bottomRight.x =
    100]), with eye centres 18 pixels to either side of the nose. *)
Definition zeroWidthFace : Face :=
  {| topLeft := [100; 50]%float;
     bottomRight := [100; 200]%float;
     rightEye := [80; 90; 82; 90; 84; 90]%float;
     leftEye := [116; 90; 118; 90; 120; 90]%float;
     nose := [100; 110]%float |}.

(** A face of width 200 looking straight ahead: eye centres 20 pixels to
    either side of the nose (normalized distances 0.1, ratio 1). *)
Definition focusedFace : Face :=
  {| topLeft := [100; 50]%float;
     bottomRight := [300; 300]%float;
     rightEye := [178; 120; 180; 120; 182; 120]%float;
     leftEye := [218; 120; 220; 120; 222; 120]%float;
     nose := [200; 160]%float |}.

(** A face of width 200 turned away: eye centres 50 and 10 pixels from the
    nose (normalized distances 0.25 and 0.05, ratio 0.2). *)
Definition turnedFace : Face :=
  {| topLeft := [100; 50]%float;
     bottomRight := [300; 300]%float;
     rightEye := [148; 120; 150; 120; 152; 120]%float;
     leftEye := [208; 120; 210; 120; 212; 120]%float;
     nose := [200; 160]%float |}.

(** The episode logic of [checkGazeDirection] on the two variables it drives:
    from the window [history] just updated, the episode start [start] and the
    count [count], the new episode start and the new count at time [now]. *)
Definition episodeNext (now : Z) (history : list bool) (start : option Z)
    (count : Z) : option Z * Z :=
  if isConsistentlyLookingAway history then
    match start with
    | None => (Some now, count)
    | Some t => if 2000 <? now - t then (Some now, count + 1) else (Some t, count)
    end
  else (None, count).

(** [n] consecutive face ticks, 200 ms apart from [t] on, each with the one
    face [face] in the frame. *)
Fixpoint sustainedFrames (face : Face) (t : Z) (n : nat) : list Op :=
  match n with
  | O => []
  | S n => FaceTick t [face] :: sustainedFrames face (t + 200) n
  end.

(** The six counters of [s'] are at least those of [s]. *)
Definition counters_le (s s' : State) : Prop :=
  lookAwayCount s <= lookAwayCount s'
  /\ noFaceCount s <= noFaceCount s'
  /\ multipleFacesCount s <= multipleFacesCount s'
  /\ phoneCount s <= phoneCount s'
  /\ bookCount s <= bookCount s'
  /\ deviceCount s <= deviceCount s'.

(** The history after the raw classification of each face of [faces], in
    list order, has been pushed on [history]. *)
Definition pushFaces (faces : list Face) (history : list bool) : list bool :=
  fold_left (fun h face => pushGazeSample (Gaze.isLookingAway face) h) faces
    history.

(** [episodeNext] iterated over [n] frames 200 ms apart from [t] on, each
    classified "looking away": the window, the episode start and the count
    reached. *)
Fixpoint sustainedEpisode (t : Z) (n : nat) (history : list bool)
    (start : option Z) (count : Z) : list bool * option Z * Z :=
  match n with
  | O => (history, start, count)
  | S n =>
      let e := episodeNext t (pushGazeSample true history) start count in
      sustainedEpisode (t + 200) n (pushGazeSample true history) (fst e) (snd e)
  end.

(** A session in which the interview has just been started at time 0. *)
Definition startedSession : State := startInterview 0 initialState.

(** A running session whose window holds four "looking away" samples and
    no episode is open. *)
Definition fourSamplesSession : State :=
  set_gazeDirectionHistory [true; true; true; true] startedSession.

(** A running session whose window is full of "looking away" samples, with
    an episode open since time 0. *)
Definition openEpisodeSession : State :=
  set_lookingAwayStartTime (Some 0)
    (set_gazeDirectionHistory
       [true; true; true; true; true; true; true; true] startedSession).

(** The three groups of prohibited classes, by the counter they feed. *)
Definition isPhoneClass (c : string) : bool := String.eqb c "cell phone".
Definition isBookClass (c : string) : bool := String.eqb c "book".
Definition isDeviceClass (c : string) : bool :=
  includes ["laptop"; "keyboard"; "mouse"; "remote"]%string c.

(** The number of predictions of a tick whose class is in the group [cls] and
    whose confidence is above 0.6. *)
Definition qualifying (cls : string -> bool) (predictions : list Prediction)
    : Z :=
  Z.of_nat
    (List.length
       (filter (fun p => cls (class p) && JS.gt (score p) 0.6%float)
          predictions)).

(** Face ticks that find no face, at the given times. *)
Definition noFaceFrames (times : list Z) : list Op :=
  map (fun t => FaceTick t []) times.

(** The two once-only counters have fired at most once. *)
Definition firedAtMostOnce (s : State) : Prop :=
  0 <= noFaceCount s <= 1 /\ 0 <= multipleFacesCount s <= 1.

(** A session in which one object tick at 500 ms has seen ten phones: the
    deductions reach 100. *)
Definition tenPhonesSession : State :=
  run startedSession
    [ObjectTick 500 (repeat (mkPrediction "cell phone" 0.9 []) 10)].

(** A non-negative integer below 2^63 as a binary64 number. *)
Definition float_of_Z (z : Z) : float := PrimFloat.of_uint63 (Uint63.of_Z z).

(** ** Auxiliary definitions for the further properties *)

(** The look-away episode of [s], if one is open, did not start before
    [T]. *)
Definition episodeNotBefore (T : Z) (s : State) : Prop :=
  match lookingAwayStartTime s with
  | Some t => T <= t
  | None => True
  end.

(** Every face tick of [ops] comes at a time between [lo] and [hi]. *)
Fixpoint faceTicksWithin (lo hi : Z) (ops : list Op) : Prop :=
  match ops with
  | [] => True
  | FaceTick t _ :: ops => lo <= t <= hi /\ faceTicksWithin lo hi ops
  | _ :: ops => faceTicksWithin lo hi ops
  end.

(** The page shows the score and the label of the current counters. *)
Definition displayInSync (s : State) : Prop :=
  scoreText s = integrityScore s
  /\ scoreLabel s = updateScoreDisplay_label (integrityScore s).

(** The log entry [handleProhibitedItemDetection] writes for a detection that
    passed the filter. *)
Definition objectLogEntry (now : Z) (item : Prediction) : LogEntry :=
  mkLogEntry (JS.toTimeString now)
    (if String.eqb (class item) "cell phone" then
       "Mobile phone detected! (" ++ confidenceText (score item) ++ ")"
     else if String.eqb (class item) "book" then
       "Book detected! (" ++ confidenceText (score item) ++ ")"
     else
       "Electronic device (" ++ class item ++ ") detected! ("
         ++ confidenceText (score item) ++ ")")%string
    error.

(** The log of [s'] is the log of [s] with entries added at its end. *)
Definition logExtends (s s' : State) : Prop :=
  exists added : list LogEntry, eventLog s' = eventLog s ++ added.

(** The state in which [processFaceDetectionResults] enters its loop over
    the faces of a frame that has faces. *)
Definition beforeFaces (now : Z) (faces : list Face) (s : State) : State :=
  let s := set_lastFaceDetectedTime (Some now) s in
  let s :=
    match noFaceStartTime s with
    | Some _ =>
        logEvent now "Face detected again." success
          (set_noFaceStartTime None s)
    | None => s
    end in
  if (Z.of_nat (List.length faces) >? 1) && (multipleFacesCount s =? 0) then
    let s := set_multipleFacesCount (multipleFacesCount s + 1) s in
    let s := updateStatusIndicators s in
    logEvent now
      ("Multiple faces detected ("
         ++ JS.Z_toString (Z.of_nat (List.length faces))
         ++ "). Possible cheating attempt!")%string
      error s
  else s.

(** A face one of whose landmarks lacks a number the classifier reads: an
    eye with fewer than five numbers (for instance a single [x, y] point),
    or an empty nose. *)
Definition incompleteLandmarks (face : Face) : Prop :=
  (List.length (rightEye face) < 5)%nat
  \/ (List.length (leftEye face) < 5)%nat
  \/ nose face = [].

(** The faces an operation brings. *)
Definition facesOfOp (op : Op) : list Face :=
  match op with
  | FaceTick _ faces => faces
  | _ => []
  end.

(** A face as a detector that gives each landmark as one point would report
    it: the eyes turned far to one side. *)
Definition pointLandmarksFace : Face :=
  {| topLeft := [100; 50]%float;
     bottomRight := [300; 300]%float;
     rightEye := [150; 120]%float;
     leftEye := [210; 120]%float;
     nose := [200; 160]%float |}.

(** ** The report store of the server *)

(** The server: its [reports] array and the files of its reports directory
    (file name and the record written in it, as [saveReportToFile] leaves
    them). *)
Record Server := mkServer {
  reports : list Report;
  reportFiles : list (string * Report)
}.

(** [`report-${id}.json`] *)
Definition reportFileName (id : string) : string :=
  ("report-" ++ id ++ ".json")%string.

(** [fs.writeFileSync(filepath, ...)]: the file is created or replaced. *)
Fixpoint writeFile (name : string) (r : Report)
    (files : list (string * Report)) : list (string * Report) :=
  match files with
  | [] => [(name, r)]
  | (n, r') :: rest =>
      if String.eqb n name then (name, r) :: rest
      else (n, r') :: writeFile name r rest
  end.

(** [fs.unlinkSync(filepath)] behind [fs.existsSync(filepath)]. *)
Fixpoint unlinkFile (name : string) (files : list (string * Report))
    : list (string * Report) :=
  match files with
  | [] => []
  | (n, r) :: rest =>
      if String.eqb n name then rest else (n, r) :: unlinkFile name rest
  end.

(** The content of a file, if the file exists. *)
Fixpoint readFile (name : string) (files : list (string * Report))
    : option Report :=
  match files with
  | [] => None
  | (n, r) :: rest => if String.eqb n name then Some r else readFile name rest
  end.

(** [reports.find(r => r.id === id)] *)
Definition findReport (id : string) (rs : list Report) : option Report :=
  find (fun r => String.eqb (report_id r) id) rs.

(** [reports.splice(reports.findIndex(r => r.id === id), 1)], when the index
    is not -1: the first report with that id is removed. *)
Fixpoint spliceReport (id : string) (rs : list Report) : list Report :=
  match rs with
  | [] => []
  | r :: rest =>
      if String.eqb (report_id r) id then rest else r :: spliceReport id rest
  end.

(** [app.post('/api/reports')]: the server after the request and the status
    and id it answers. *)
Definition handlePostReport (id : string) (serverNow : Z) (body : RequestBody)
    (srv : Server) : Server * (Z * string) :=
  let report := postReport id serverNow body in
  ({| reports := reports srv ++ [report];
      reportFiles := writeFile (reportFileName id) report (reportFiles srv) |},
   (201, id)).

(** [app.get('/api/reports/:id')]: the status and the report answered. *)
Definition handleGetReport (id : string) (srv : Server) : Z * option Report :=
  match findReport id (reports srv) with
  | None => (404, None)
  | Some report => (200, Some report)
  end.

(** [app.delete('/api/reports/:id')]: the server after the request and the
    status answered. *)
Definition handleDeleteReport (id : string) (srv : Server) : Server * Z :=
  match findReport id (reports srv) with
  | None => (srv, 404)
  | Some _ =>
      ({| reports := spliceReport id (reports srv);
          reportFiles := unlinkFile (reportFileName id) (reportFiles srv) |},
       200)
  end.

(** The [reportsCount] of [app.get('/api/health')]. *)
Definition healthReportsCount (srv : Server) : Z :=
  Z.of_nat (List.length (reports srv)).

(** The requests that change the store. *)
Inductive Request :=
| PostReport (id : string) (serverNow : Z) (body : RequestBody)
| DeleteReport (id : string).

Definition serve (srv : Server) (req : Request) : Server :=
  match req with
  | PostReport id serverNow body => fst (handlePostReport id serverNow body srv)
  | DeleteReport id => fst (handleDeleteReport id srv)
  end.

Definition serveAll (srv : Server) (reqs : list Request) : Server :=
  fold_left serve reqs srv.

(** A server just started on an empty reports directory. *)
Definition emptyServer : Server := {| reports := []; reportFiles := [] |}.

(** Every post of [reqs] comes with an id that no earlier post of [reqs] and
    no report of [ids] has: what [generateId] is meant to give. *)
Fixpoint freshIds (ids : list string) (reqs : list Request) : Prop :=
  match reqs with
  | [] => True
  | PostReport id _ _ :: rest => ~ In id ids /\ freshIds (id :: ids) rest
  | DeleteReport _ :: rest => freshIds ids rest
  end.

(** A request body with no field at all. *)
Definition emptyBody : RequestBody :=
  {| body_candidateName := None; body_interviewDuration := None;
     body_startTime := None; body_endTime := None;
     body_focusIssues := None; body_prohibitedItems := None;
     body_integrityScore := None; body_events := None |}.

(** [file.endsWith(suffix)] *)
Definition endsWith (file suffix : string) : bool :=
  (String.length suffix <=? String.length file)%nat
  && String.eqb
       (substring (String.length file - String.length suffix)
          (String.length suffix) file)
       suffix.

(** The reports a starting server loads from its reports directory: every
    file whose name ends in [.json], in directory order. *)
Definition loadReports (files : list (string * Report)) : list Report :=
  map snd (filter (fun file => endsWith (fst file) ".json") files).

(** A server restarted on the reports directory of [srv]. *)
Definition restart (srv : Server) : Server :=
  {| reports := loadReports (reportFiles srv);
     reportFiles := reportFiles srv |}.

(** The reports directory mirrors the [reports] array: the ids in memory are
    distinct and among [ids], each file is named after the id of the record
    it holds, no two files share a name, there are as many files as reports,
    and the file of an id holds the report of that id. *)
Definition storeInvariant (ids : list string) (srv : Server) : Prop :=
  NoDup (map report_id (reports srv))
  /\ (forall id, In id (map report_id (reports srv)) -> In id ids)
  /\ NoDup (map fst (reportFiles srv))
  /\ Forall (fun file => fst file = reportFileName (report_id (snd file)))
       (reportFiles srv)
  /\ List.length (reportFiles srv) = List.length (reports srv)
  /\ (forall id,
        readFile (reportFileName id) (reportFiles srv)
        = findReport id (reports srv)).

(** The ids that the posts of [reqs] bring, added to [ids]. *)
Fixpoint idsAfter (ids : list string) (reqs : list Request) : list string :=
  match reqs with
  | [] => ids
  | PostReport id _ _ :: rest => idsAfter (id :: ids) rest
  | DeleteReport _ :: rest => idsAfter ids rest
  end.

(** ** The PDF report: [generatePDFReport] on a jsPDF document *)

(** One text drawn on the document, with the page, font size and colour in
    force when it was drawn. *)
Record PdfText := mkPdfText {
  pt_page : Z;
  pt_fontSize : Z;
  pt_color : Z * Z * Z;
  pt_text : string;
  pt_x : Z;
  pt_y : Z;
  pt_centered : bool
}.

(** The jsPDF document as the script uses it: the number of pages, the
    current page, the current font size and text colour, the texts drawn
    and the name it was saved under. *)
Record Pdf := mkPdf {
  pdf_pages : Z;
  pdf_page : Z;
  pdf_fontSize : Z;
  pdf_color : Z * Z * Z;
  pdf_texts : list PdfText;
  pdf_saved : option string
}.

(** [new jspdf.jsPDF(...)]: one page, font size 16, black. *)
Definition newPdf : Pdf :=
  {| pdf_pages := 1; pdf_page := 1; pdf_fontSize := 16; pdf_color := (0, 0, 0);
     pdf_texts := []; pdf_saved := None |}.

(** The calls the script makes on the document. *)
Inductive PdfCall :=
| SetFontSize (size : Z)
| SetTextColor (r g b : Z)
| Text (text : string) (x y : Z) (centered : bool)
| AddPage
| SetPage (page : Z)
| Save (name : string).

(** What jsPDF does on one call: [addPage] appends a page and makes it the
    current one. *)
Definition pdfCall (pdf : Pdf) (call : PdfCall) : Pdf :=
  match call with
  | SetFontSize size =>
      mkPdf (pdf_pages pdf) (pdf_page pdf) size (pdf_color pdf) (pdf_texts pdf)
        (pdf_saved pdf)
  | SetTextColor r g b =>
      mkPdf (pdf_pages pdf) (pdf_page pdf) (pdf_fontSize pdf) (r, g, b)
        (pdf_texts pdf) (pdf_saved pdf)
  | Text text x y centered =>
      mkPdf (pdf_pages pdf) (pdf_page pdf) (pdf_fontSize pdf) (pdf_color pdf)
        (pdf_texts pdf
           ++ [mkPdfText (pdf_page pdf) (pdf_fontSize pdf) (pdf_color pdf) text
                 x y centered])
        (pdf_saved pdf)
  | AddPage =>
      mkPdf (pdf_pages pdf + 1) (pdf_pages pdf + 1) (pdf_fontSize pdf)
        (pdf_color pdf) (pdf_texts pdf) (pdf_saved pdf)
  | SetPage page =>
      mkPdf (pdf_pages pdf) page (pdf_fontSize pdf) (pdf_color pdf)
        (pdf_texts pdf) (pdf_saved pdf)
  | Save name =>
      mkPdf (pdf_pages pdf) (pdf_page pdf) (pdf_fontSize pdf) (pdf_color pdf)
        (pdf_texts pdf) (Some name)
  end.

Definition pdfCalls (pdf : Pdf) (calls : list PdfCall) : Pdf :=
  fold_left pdfCall calls pdf.

(** The locale-dependent renderings the report uses:
    [date.toLocaleDateString()], [date.toLocaleString()], and
    [new Date(iso).toLocaleTimeString()] of an ISO text. *)
Record Locale := mkLocale {
  toLocaleDateString : Z -> string;
  toLocaleString : Z -> string;
  isoToLocaleTimeString : string -> string
}.

(** The colour of an event line, by the type of the event. *)
Definition eventColor (type : Severity) : PdfCall :=
  match type with
  | error => SetTextColor 231 76 60
  | warning => SetTextColor 243 156 18
  | success => SetTextColor 46 204 113
  | info => SetTextColor 52 152 219
  end.

(** The [for (const event of reportData.events)] loop: the calls it makes
    from the vertical position [y] with [eventsAdded] events drawn so far,
    and the position it leaves. *)
Fixpoint eventCalls (events : list LogEntry) (y eventsAdded : Z)
    : list PdfCall * Z :=
  match events with
  | [] => ([], y)
  | event :: rest =>
      let newPage := y >? 250 in
      let y := if newPage then 20 else y in
      let calls :=
        (if newPage then [AddPage] else [])
        ++ [SetTextColor 0 0 0;
            Text ("[" ++ timestamp event ++ "]") 20 y false;
            eventColor (type event);
            Text (message event) 40 y false] in
      let y := y + 6 in
      let eventsAdded := eventsAdded + 1 in
      if eventsAdded >=? 50 then (calls, y)
      else
        let r := eventCalls rest y eventsAdded in
        (calls ++ fst r, snd r)
  end.

(** The event log section, entered at [y]: its calls and the position it
    leaves. *)
Definition eventSection (events : list LogEntry) (y : Z) : list PdfCall * Z :=
  if Z.of_nat (List.length events) >? 0 then
    let title := [SetFontSize 16; Text "Event Log" 20 y false] in
    let y := y + 10 in
    let r := eventCalls events y 0 in
    let y := snd r in
    if Z.of_nat (List.length events) >? 50 then
      let y := y + 5 in
      (title ++ [SetFontSize 10] ++ fst r
         ++ [SetTextColor 100 100 100;
             Text ("... and " ++ JS.Z_toString (Z.of_nat (List.length events) - 50)
                     ++ " more events") 20 y false],
       y)
    else (title ++ [SetFontSize 10] ++ fst r, y)
  else ([], y).

(** The footer loop [for (let i = 1; i <= pageCount; i++)]. *)
Definition footerCalls (generated : string) (pageCount : Z) : list PdfCall :=
  flat_map
    (fun i =>
       [SetPage i; SetFontSize 10; SetTextColor 100 100 100;
        Text ("Report generated: " ++ generated) 105 287 true;
        Text ("Page " ++ JS.Z_toString i ++ " of " ++ JS.Z_toString pageCount)
          105 292 true])
    (map Z.of_nat (seq 1 (Z.to_nat pageCount))).

(** The calls of [generatePDFReport] before the event log section. *)
Definition summaryCalls (locale : Locale) (now : Z) (reportData : ReportData)
    : list PdfCall :=
  [SetFontSize 22; SetTextColor 67 97 238;
   Text "InterviewGuard Pro Report" 105 20 true;
   SetFontSize 14; SetTextColor 100 100 100;
   Text "AI-Powered Proctoring Analysis" 105 (20 + 8) true;
   SetFontSize 16; SetTextColor 0 0 0;
   Text "Candidate Information" 20 45 false;
   SetFontSize 12;
   Text ("Name: " ++ data_candidateName reportData) 20 55 false;
   Text ("Date: " ++ toLocaleDateString locale now) 20 (55 + 7) false;
   Text ("Start Time: "
           ++ isoToLocaleTimeString locale (data_startTime reportData))
     20 (55 + 14) false;
   Text ("End Time: " ++ isoToLocaleTimeString locale (data_endTime reportData))
     20 (55 + 21) false;
   Text ("Duration: " ++ data_interviewDuration reportData) 20 (55 + 28) false;
   SetFontSize 16;
   Text "Integrity Score" 20 95 false;
   SetFontSize 36; SetTextColor 67 97 238;
   Text (JS.Z_toString (data_integrityScore reportData) ++ "/100") 105 (95 + 10)
     true;
   SetFontSize 12; SetTextColor 0 0 0;
   Text (getScoreDescription (data_integrityScore reportData)) 105 (95 + 18) true;
   SetFontSize 16;
   Text "Focus Analysis" 20 125 false;
   SetFontSize 12;
   Text ("Times Looked Away: "
           ++ JS.Z_toString (fi_lookAwayCount (data_focusIssues reportData)))
     20 135 false;
   Text ("No Face Detected: "
           ++ JS.Z_toString (fi_noFaceCount (data_focusIssues reportData)))
     20 (135 + 7) false;
   Text ("Multiple Faces: "
           ++ JS.Z_toString (fi_multipleFacesCount (data_focusIssues reportData)))
     20 (135 + 14) false;
   SetFontSize 16;
   Text "Object Detection" 20 160 false;
   SetFontSize 12;
   Text ("Mobile Phones: "
           ++ JS.Z_toString (phonesDetected (data_prohibitedItems reportData)))
     20 170 false;
   Text ("Books/Notes: "
           ++ JS.Z_toString (booksDetected (data_prohibitedItems reportData)))
     20 (170 + 7) false;
   Text ("Other Devices: "
           ++ JS.Z_toString (devicesDetected (data_prohibitedItems reportData)))
     20 (170 + 14) false]%string.

(** The calls of [generatePDFReport] up to the recommendation: the vertical
    position starts at 20 and reaches 195 at the event log section. *)
Definition bodyCalls (locale : Locale) (now : Z) (reportData : ReportData)
    : list PdfCall :=
  let section := eventSection (data_events reportData) 195 in
  let y := snd section + 15 in
  summaryCalls locale now reportData
  ++ fst section
  ++ [SetFontSize 14; SetTextColor 0 0 0;
      Text "Recommendation:" 20 y false;
      SetFontSize 12;
      Text (getRecommendation (data_integrityScore reportData)) 20 (y + 8) false].

(** [generatePDFReport(reportData)] on the path where jsPDF raises nothing:
    the document it saves.  [now] is the time of its [new Date()]. *)
Definition generatePDFReport (locale : Locale) (now : Z)
    (reportData : ReportData) : Pdf :=
  let pdf := pdfCalls newPdf (bodyCalls locale now reportData) in
  let pageCount := pdf_pages pdf in
  pdfCalls pdf
    (footerCalls (toLocaleString locale now) pageCount
     ++ [Save ("proctoring-report-" ++ substring 0 10 (JS.toISOString now)
               ++ ".pdf")]).

(** The messages of the event lines of a document: the texts drawn at
    x = 40. *)
Definition eventLines (pdf : Pdf) : list PdfText :=
  filter (fun t => pt_x t =? 40) (pdf_texts pdf).

(** A locale that renders dates as ISO texts. *)
Definition isoLocale : Locale :=
  {| toLocaleDateString := fun ms => substring 0 10 (JS.toISOString ms);
     toLocaleString := JS.toISOString;
     isoToLocaleTimeString := fun iso => substring 11 8 iso |}.


(** The vertical position and the page of the event line of index [i]
    (from 0) in closed form: eight lines fit under the sections of the first
    page, thirty-nine on the second page. *)
Definition lineY (i : Z) : Z :=
  if i <? 8 then 205 + 6 * i
  else if i <? 47 then 20 + 6 * (i - 8)
  else 20 + 6 * (i - 47).

Definition linePage (i : Z) : Z :=
  if i <? 8 then 1 else if i <? 47 then 2 else 3.

(** The position and the last page before the line of index [k] is drawn. *)
Definition yBefore (k : Z) : Z :=
  if k <=? 8 then 205 + 6 * k
  else if k <=? 47 then 20 + 6 * (k - 8)
  else 20 + 6 * (k - 47).

Definition pageBefore (k : Z) : Z :=
  if k <=? 8 then 1 else if k <=? 47 then 2 else 3.

Definition severityRGB (type : Severity) : Z * Z * Z :=
  match type with
  | error => (231, 76, 60)
  | warning => (243, 156, 18)
  | success => (46, 204, 113)
  | info => (52, 152, 219)
  end.

(** The two texts of the event line of index [i]. *)
Definition eventStampText (i : Z) (event : LogEntry) : PdfText :=
  mkPdfText (linePage i) 10 (0, 0, 0) ("[" ++ timestamp event ++ "]") 20
    (lineY i) false.

Definition eventMessageText (i : Z) (event : LogEntry) : PdfText :=
  mkPdfText (linePage i) 10 (severityRGB (type event)) (message event) 40
    (lineY i) false.

Fixpoint eventTexts (i : Z) (events : list LogEntry) : list PdfText :=
  match events with
  | [] => []
  | event :: rest =>
      eventStampText i event :: eventMessageText i event
        :: eventTexts (i + 1) rest
  end.

Fixpoint eventMessageTexts (i : Z) (events : list LogEntry) : list PdfText :=
  match events with
  | [] => []
  | event :: rest => eventMessageText i event :: eventMessageTexts (i + 1) rest
  end.

(** The two footer texts of each page from 1 to [pageCount]. *)
Definition footerTexts (generated : string) (pageCount : Z) : list PdfText :=
  flat_map
    (fun i =>
       [mkPdfText i 10 (100, 100, 100) ("Report generated: " ++ generated) 105
          287 true;
        mkPdfText i 10 (100, 100, 100)
          ("Page " ++ JS.Z_toString i ++ " of " ++ JS.Z_toString pageCount) 105
          292 true])
    (map Z.of_nat (seq 1 (Z.to_nat pageCount))).

(** A report with [n] events. *)
Definition reportWithEvents (n : nat) : ReportData :=
  {| data_candidateName := "Test Candidate";
     data_interviewDuration := "00:10:00";
     data_startTime := "2024-01-01T10:00:00.000Z";
     data_endTime := "2024-01-01T10:10:00.000Z";
     data_focusIssues := mkFocusIssues 0 0 0;
     data_prohibitedItems := mkProhibitedItems 0 0 0;
     data_integrityScore := 100;
     data_events :=
       repeat {| timestamp := "10:00:00"; message := "Interview started.";
                 type := info |} n |}.


(** ** The score animation of [updateScoreDisplay]; the sub-scores; the timer *)

(** The closure [updateScore] of [updateScoreDisplay], one call per
    animation frame: the text of the [.score-text] element once the
    animation has stopped asking for frames, or [None] when [frames] frames
    are not enough. *)
Fixpoint updateScore (frames : nat) (increment targetScore currentScore : Z)
    : option Z :=
  match frames with
  | O => None
  | S frames =>
      let currentScore := currentScore + increment in
      if ((increment >? 0) && (currentScore <? targetScore))
         || ((increment <? 0) && (currentScore >? targetScore))
      then updateScore frames increment targetScore currentScore
      else Some currentScore
  end.

(** The animation [updateScoreDisplay(score)] starts when the element shows
    the integer [text], run on its own for [frames] frames. *)
Definition animateScore (frames : nat) (score text : Z) : option Z :=
  let currentScore := text in
  let targetScore := score in
  let increment := if targetScore >? currentScore then 1 else -1 in
  updateScore frames increment targetScore currentScore.

(** [calculateFocusScore(focusIssues)] *)
Definition calculateFocusScore (focusIssues : FocusIssues) : Z :=
  let deductions :=
    (fi_lookAwayCount focusIssues * 2) + (fi_noFaceCount focusIssues * 5)
    + (fi_multipleFacesCount focusIssues * 10) in
  Z.max 0 (100 - deductions).

(** [calculateObjectScore(prohibitedItems)] *)
Definition calculateObjectScore (prohibitedItems : ProhibitedItems) : Z :=
  let deductions :=
    (phonesDetected prohibitedItems * 10) + (booksDetected prohibitedItems * 8)
    + (devicesDetected prohibitedItems * 7) in
  Z.max 0 (100 - deductions).

(** [getUTCHours()], [getUTCMinutes()] and [getUTCSeconds()] of the date of
    [ms] milliseconds. *)
Definition getUTCHours (ms : Z) : Z := (ms / 3600000) mod 24.
Definition getUTCMinutes (ms : Z) : Z := (ms / 60000) mod 60.
Definition getUTCSeconds (ms : Z) : Z := (ms / 1000) mod 60.

(** One tick of the interval of [startTimer]: the text it writes to
    [#duration]. *)
Definition startTimer_tick (now start : Z) : string :=
  let elapsed := now - start in
  let hours := JS.padStart 2 (getUTCHours elapsed) in
  let minutes := JS.padStart 2 (getUTCMinutes elapsed) in
  let seconds := JS.padStart 2 (getUTCSeconds elapsed) in
  (hours ++ ":" ++ minutes ++ ":" ++ seconds)%string.

(** A session in which one object tick has seen a phone, and the report
    downloaded from it at 2000 ms. *)
Definition onePhoneSession : list Op :=
  [StartInterview 0; ObjectTick 1000 [mkPrediction "cell phone" 0.9 []]].

Definition onePhoneReport : ReportData :=
  Eval vm_compute in
    match snd (downloadReport 2000 "00:00:02" (run initialState onePhoneSession))
    with
    | Some d => d
    | None => reportWithEvents 0
    end.


(** ** Every write to the event log

    [eventLog] is declared once and written only by the [push] of
    [logEvent].  Besides the operations of [step], the script calls
    [logEvent] from the page initialisation, from the failure paths of
    [startInterview], from the recorder callbacks and from the continuation
    of [downloadReport] after the server has answered; and the [await] of a
    detection tick resolves into a call of the processing function that
    tests no flag. *)

(** The quotation mark. *)
Definition quote : string := String "034"%char EmptyString.

(** The calls of [logEvent] outside the functions of [step]; around each of
    them the script changes none of the variables of [State]. *)
Inductive LogSite :=
| LoadingFaceModel
| FaceModelLoaded
| LoadingObjectModel
| ObjectModelLoaded
| ModelsLoaded
| ModelsFailed (message : string)
| AppInitialized
| StartingInterview
| CameraDenied (message : string)
| RecordingCompleted
| RecordingDownloaded
| ReportSaved
| ReportSaveFailed
| PdfDownloaded
| PdfFailed
| LocalReportDownloaded.

(** The message and the type each of them passes to [logEvent]. *)
Definition siteEntry (site : LogSite) : string * Severity :=
  match site with
  | LoadingFaceModel => ("Loading face detection model...", info)
  | FaceModelLoaded => ("Face detection model loaded.", success)
  | LoadingObjectModel => ("Loading object detection model...", info)
  | ObjectModelLoaded => ("Object detection model loaded.", success)
  | ModelsLoaded =>
      ("All AI models loaded successfully. System is ready.", success)
  | ModelsFailed message => ("Error loading AI models: " ++ message, error)
  | AppInitialized =>
      ("Application initialized. Click " ++ quote ++ "Start Interview" ++ quote
         ++ " to begin.", info)
  | StartingInterview => ("Starting interview process...", info)
  | CameraDenied message => ("Error accessing camera: " ++ message, error)
  | RecordingCompleted => ("Video recording completed and stored.", success)
  | RecordingDownloaded => ("Video recording downloaded.", success)
  | ReportSaved => ("Report saved successfully. Generating PDF...", success)
  | ReportSaveFailed =>
      ("Error saving report to server. Generating local PDF...", error)
  | PdfDownloaded => ("PDF report downloaded successfully.", success)
  | PdfFailed =>
      ("Error generating PDF. Falling back to text report.", error)
  | LocalReportDownloaded =>
      ("Local report downloaded successfully.", success)
  end%string.

(** [startInterview()] on the path where the camera is granted and
    [startVideoRecording] catches an error of the recorder: the warning of
    its [catch] takes the place of "Video recording started.". *)
Definition startInterview_unrecorded (now : Z) (message : string) (s : State)
    : State :=
  let s := logEvent now "Starting interview process..." info s in
  let s := set_isInterviewRunning true s in
  let s := set_startTime (Some now) s in
  let s := set_lastFaceDetectedTime (Some now) s in
  let s :=
    logEvent now
      ("Video recording not supported in this browser: " ++ message)%string
      warning s in
  let s := logEvent now "Interview started. Camera access granted." success s in
  let s := logEvent now "Face detection initialized. Starting monitoring..." info s in
  logEvent now "Object detection initialized. Monitoring for prohibited items..." info s.

(** Everything that writes to the state or to the log: the operations of
    [step]; a start without recorder; the result of a detection whose
    [await] resolves, processed whether or not the interview still runs;
    and the remaining calls of [logEvent]. *)
Inductive Action :=
| Core (op : Op)
| StartInterviewUnrecorded (now : Z) (message : string)
| FaceResult (now : Z) (faces : list Face)
| ObjectResult (now : Z) (predictions : list Prediction)
| Log (now : Z) (site : LogSite).

Definition act (s : State) (action : Action) : State :=
  match action with
  | Core op => step s op
  | StartInterviewUnrecorded now message =>
      startInterview_unrecorded now message s
  | FaceResult now faces => processFaceDetectionResults now faces s
  | ObjectResult now predictions =>
      processObjectDetectionResults now predictions s
  | Log now site => logEvent now (fst (siteEntry site)) (snd (siteEntry site)) s
  end.

Definition runActions (s : State) (actions : list Action) : State :=
  fold_left act actions s.

(** A download whose request fails and whose PDF cannot be written, after a
    stop during which a detection was still in flight. *)
Definition failedDownloadSession : list Action :=
  [Core (StartInterview 0);
   Core (StopInterview 9000);
   FaceResult 9100 [];
   Log 9500 RecordingCompleted;
   Log 9600 RecordingDownloaded;
   Core (DownloadReport 10000 "00:00:09");
   Log 10200 ReportSaveFailed;
   Log 10300 PdfFailed;
   Log 10300 LocalReportDownloaded].

(** ** The report endpoint on any parsed body *)

(** A value of a parsed request body ([bodyParser.json] or
    [bodyParser.urlencoded]); numbers are binary64. *)
#[warnings="-register-all"] Inductive Json :=
| JNull
| JBool (b : bool)
| JNumber (x : float)
| JString (s : string)
| JArray (items : list Json)
| JObject (members : list (string * Json)).

(** [body.name] as the destructuring of the handler reads it: [None] is
    [undefined], the value of a name the object does not have and of every
    name on an array, a string, a number or a boolean.  The members of a
    parsed object have distinct names. *)
Definition property (name : string) (body : Json) : option Json :=
  match body with
  | JObject members =>
      option_map snd (find (fun member => String.eqb (fst member) name) members)
  | _ => None
  end.

(** A JavaScript value is falsy when it is [null], [false], [0], [-0],
    [NaN] or the empty string; every object and array is truthy. *)
Definition truthy (v : Json) : bool :=
  match v with
  | JNull => false
  | JBool b => b
  | JNumber x => negb (PrimFloat.is_zero x || PrimFloat.is_nan x)
  | JString s => negb (String.eqb s "")
  | JArray _ | JObject _ => true
  end.

(** [a || d] on any value; [None] is [undefined]. *)
Definition or_json (a : option Json) (d : Json) : Json :=
  match a with
  | Some v => if truthy v then v else d
  | None => d
  end.

(** The record of [app.post('/api/reports')] with fields of any type. *)
Record StoredReport := mkStoredReport {
  stored_id : string;
  stored_timestamp : string;
  stored_candidateName : Json;
  stored_interviewDuration : Json;
  stored_startTime : Json;
  stored_endTime : Json;
  stored_focusIssues : Json;
  stored_prohibitedItems : Json;
  stored_integrityScore : Json;
  stored_events : Json
}.

(** The record the handler builds from any body, or [None] when the
    destructuring of a [null] body throws and the handler answers 500. *)
Definition postReportJson (id : string) (serverNow : Z) (body : Json)
    : option StoredReport :=
  match body with
  | JNull => None
  | _ =>
      Some
        {| stored_id := id;
           stored_timestamp := JS.toISOString serverNow;
           stored_candidateName :=
             or_json (property "candidateName" body) (JString "Test Candidate");
           stored_interviewDuration :=
             or_json (property "interviewDuration" body) (JString "00:00:00");
           stored_startTime :=
             or_json (property "startTime" body)
               (JString (JS.toISOString serverNow));
           stored_endTime :=
             or_json (property "endTime" body)
               (JString (JS.toISOString serverNow));
           stored_focusIssues :=
             or_json (property "focusIssues" body)
               (JObject [("lookAwayCount", JNumber 0);
                         ("noFaceCount", JNumber 0);
                         ("multipleFacesCount", JNumber 0)]%string);
           stored_prohibitedItems :=
             or_json (property "prohibitedItems" body)
               (JObject [("phonesDetected", JNumber 0);
                         ("booksDetected", JNumber 0);
                         ("devicesDetected", JNumber 0)]%string);
           stored_integrityScore :=
             or_json (property "integrityScore" body) (JNumber 100);
           stored_events := or_json (property "events" body) (JArray []) |}
  end.

(** An integer of a typed body, below 2^53 in magnitude, as a JSON
    number. *)
Definition jsonOfZ (z : Z) : Json :=
  JNumber (if (z <? 0)%Z then (- float_of_Z (- z)%Z)%float else float_of_Z z).

Definition jsonOfLogEntry (entry : LogEntry) : Json :=
  JObject [("timestamp", JString (timestamp entry));
           ("message", JString (message entry));
           ("type",
            JString match type entry with
                    | info => "info"
                    | warning => "warning"
                    | error => "error"
                    | success => "success"
                    end)]%string.

Definition jsonOfFocusIssues (fi : FocusIssues) : Json :=
  JObject [("lookAwayCount", jsonOfZ (fi_lookAwayCount fi));
           ("noFaceCount", jsonOfZ (fi_noFaceCount fi));
           ("multipleFacesCount", jsonOfZ (fi_multipleFacesCount fi))]%string.

Definition jsonOfProhibitedItems (pi : ProhibitedItems) : Json :=
  JObject [("phonesDetected", jsonOfZ (phonesDetected pi));
           ("booksDetected", jsonOfZ (booksDetected pi));
           ("devicesDetected", jsonOfZ (devicesDetected pi))]%string.

(** [JSON.parse(JSON.stringify(reportData))]: the body [downloadReport]
    sends, as the server parses it. *)
Definition jsonOfReportData (d : ReportData) : Json :=
  JObject [("candidateName", JString (data_candidateName d));
           ("interviewDuration", JString (data_interviewDuration d));
           ("startTime", JString (data_startTime d));
           ("endTime", JString (data_endTime d));
           ("focusIssues", jsonOfFocusIssues (data_focusIssues d));
           ("prohibitedItems", jsonOfProhibitedItems (data_prohibitedItems d));
           ("integrityScore", jsonOfZ (data_integrityScore d));
           ("events", JArray (map jsonOfLogEntry (data_events d)))]%string.

(** A typed record as the record of values it stands for. *)
Definition storedOfReport (r : Report) : StoredReport :=
  {| stored_id := report_id r;
     stored_timestamp := report_timestamp r;
     stored_candidateName := JString (report_candidateName r);
     stored_interviewDuration := JString (report_interviewDuration r);
     stored_startTime := JString (report_startTime r);
     stored_endTime := JString (report_endTime r);
     stored_focusIssues := jsonOfFocusIssues (report_focusIssues r);
     stored_prohibitedItems := jsonOfProhibitedItems (report_prohibitedItems r);
     stored_integrityScore := jsonOfZ (report_integrityScore r);
     stored_events := JArray (map jsonOfLogEntry (report_events r)) |}.

(** A body whose fields are not of the types [downloadReport] sends: the
    score is the string "0", the name an empty array, the events the number
    0. *)
Definition untypedBody : Json :=
  JObject [("candidateName", JArray []);
           ("integrityScore", JString "0");
           ("events", JNumber 0)]%string.

(** * Properties *)

(** ** Integrity scorer *)

Lemma deductions_weights (s : State) :
  deductions s =
  2 * lookAwayCount s + 5 * noFaceCount s + 10 * multipleFacesCount s
  + 10 * phoneCount s + 8 * bookCount s + 7 * deviceCount s.
Proof. unfold deductions. lia. Qed.

Lemma integrityScore_nonneg (s : State) : 0 <= integrityScore s.
Proof. unfold integrityScore. lia. Qed.

Lemma updateScoreDisplay_label_thresholds (sc : Z) :
  (updateScoreDisplay_label sc = "Excellent"%string <-> 90 <= sc)
  /\ (updateScoreDisplay_label sc = "Good"%string <-> 70 <= sc < 90)
  /\ (updateScoreDisplay_label sc = "Fair"%string <-> 50 <= sc < 70)
  /\ (updateScoreDisplay_label sc = "Poor"%string <-> sc < 50).
Proof.
  unfold updateScoreDisplay_label. rewrite !Z.geb_leb.
  destruct (Z.leb_spec 90 sc); [ | destruct (Z.leb_spec 70 sc);
    [ | destruct (Z.leb_spec 50 sc) ] ];
    repeat split; intros; try lia; try discriminate.
Qed.

Lemma getScoreDescription_thresholds (sc : Z) :
  getScoreDescription sc =
  if 90 <=? sc then "EXCELLENT - No significant issues detected"%string
  else if 70 <=? sc then "GOOD - Minor focus issues observed"%string
  else if 50 <=? sc then "FAIR - Several focus and integrity concerns"%string
  else "POOR - Significant integrity issues detected"%string.
Proof. unfold getScoreDescription. now rewrite !Z.geb_leb. Qed.

Example score_of_one_look_away_and_one_no_face :
  let s := set_noFaceCount 1 (set_lookAwayCount 1 initialState) in
  deductions s = 7 /\ integrityScore s = 93
  /\ scoreLabel (updateStatusIndicators s) = "Excellent"%string.
Proof. repeat split. Qed.

Example score_clamped_at_zero :
  integrityScore (set_phoneCount 11 initialState) = 0.
Proof. reflexivity. Qed.

(** C1. For every value of the six counters the scorer computes
    deductions = 2*lookAway + 5*noFace + 10*multipleFaces + 10*phone + 8*book
    + 7*device and the score max(0, 100 - deductions); the score is never
    negative and is 0 exactly when the deductions reach 100; the page shows
    that score with the label "Excellent" iff score >= 90, "Good" iff
    70 <= score < 90, "Fair" iff 50 <= score < 70 and "Poor" otherwise, and
    the report text uses the same three thresholds. *)
Theorem integrity_score_and_label (s : State) :
  let d :=
    2 * lookAwayCount s + 5 * noFaceCount s + 10 * multipleFacesCount s
    + 10 * phoneCount s + 8 * bookCount s + 7 * deviceCount s in
  let sc := integrityScore s in
  deductions s = d
  /\ sc = Z.max 0 (100 - d)
  /\ 0 <= sc
  /\ (sc = 0 <-> 100 <= d)
  /\ scoreText (updateStatusIndicators s) = sc
  /\ (scoreLabel (updateStatusIndicators s) = "Excellent"%string <-> 90 <= sc)
  /\ (scoreLabel (updateStatusIndicators s) = "Good"%string <-> 70 <= sc < 90)
  /\ (scoreLabel (updateStatusIndicators s) = "Fair"%string <-> 50 <= sc < 70)
  /\ (scoreLabel (updateStatusIndicators s) = "Poor"%string <-> sc < 50)
  /\ getScoreDescription sc =
     (if (90 <=? sc)%Z then "EXCELLENT - No significant issues detected"
      else if (70 <=? sc)%Z then "GOOD - Minor focus issues observed"
      else if (50 <=? sc)%Z then "FAIR - Several focus and integrity concerns"
      else "POOR - Significant integrity issues detected")%string.
Proof.
  intros d sc.
  assert (Hd : deductions s = d) by apply deductions_weights.
  assert (Hsc : sc = Z.max 0 (100 - d)).
  { subst sc. unfold integrityScore. now rewrite Hd. }
  destruct (updateScoreDisplay_label_thresholds sc) as (He & Hg & Hf & Hp).
  repeat split; try tauto; try lia; try apply getScoreDescription_thresholds.
Qed.

(** ** Comparisons of exact quotients, as integer comparisons *)

Lemma Qgt_bool_elapsedSeconds (now start n : Z) :
  JS.Qgt_bool (elapsedSeconds now start) (inject_Z n) = (n * 1000 <? now - start).
Proof.
  unfold JS.Qgt_bool, elapsedSeconds, Qle_bool. cbn.
  destruct (Z.leb_spec ((now - start) * 1 * 1) (n * 1000));
    destruct (Z.ltb_spec (n * 1000) (now - start)); try reflexivity; lia.
Qed.

Lemma isConsistentlyLookingAway_frames (history : list bool) :
  isConsistentlyLookingAway history = (5 <=? lookingAwayFrames history).
Proof.
  unfold isConsistentlyLookingAway, JS.Qgt_bool, Qle_bool. cbn.
  destruct (Z.leb_spec (lookingAwayFrames history * 10) 48);
    destruct (Z.leb_spec 5 (lookingAwayFrames history)); try reflexivity; lia.
Qed.

(** The exact comparisons of the embedding agree with the binary64 ones of
    the script on every possible number of frames of a window and around
    each duration threshold. *)
Example exact_comparisons_agree_with_binary64 :
  map (fun n => JS.gt (float_of_Z n) (8 * 0.6)%float) [0; 1; 2; 3; 4; 5; 6; 7; 8]
  = map (fun n => JS.Qgt_bool (inject_Z n) (inject_Z GAZE_HISTORY_LENGTH * 0.6)%Q)
      [0; 1; 2; 3; 4; 5; 6; 7; 8]
  /\ map (fun d => JS.gt (float_of_Z d / 1000)%float 2%float)
       [0; 1999; 2000; 2001; 2200]
     = map (fun d => JS.Qgt_bool (elapsedSeconds d 0) 2) [0; 1999; 2000; 2001; 2200]
  /\ map (fun d => JS.gt (float_of_Z d / 1000)%float 1%float)
       [0; 999; 1000; 1001; 1200]
     = map (fun d => JS.Qgt_bool (elapsedSeconds d 0) 1) [0; 999; 1000; 1001; 1200]
  /\ map (fun d => JS.gt (float_of_Z d / 1000)%float 8%float)
       [0; 7999; 8000; 8001; 8200]
     = map (fun d => JS.Qgt_bool (elapsedSeconds d 0) 8) [0; 7999; 8000; 8001; 8200].
Proof. vm_compute. repeat split. Qed.

(** ** Temporal debouncer: the sliding window *)

Lemma lastn_short {A : Type} (n : nat) (l : list A) :
  (List.length l <= n)%nat -> lastn n l = l.
Proof.
  intros H. unfold lastn. replace (List.length l - n)%nat with 0%nat by lia.
  reflexivity.
Qed.

Lemma lastn_length {A : Type} (n : nat) (l : list A) :
  List.length (lastn n l) = Nat.min n (List.length l).
Proof. unfold lastn. rewrite length_skipn. lia. Qed.

Lemma lastn_lastn_S {A : Type} (n : nat) (l : list A) :
  (n < List.length l)%nat -> tl (lastn (S n) l) = lastn n l.
Proof.
  intros H. unfold lastn.
  replace (List.length l - n)%nat with (S (List.length l - S n)) by lia.
  generalize (List.length l - S n)%nat as k. clear H.
  induction l as [ | a l IH ]; intros [ | k ]; try reflexivity.
  cbn [skipn]. apply IH.
Qed.

(** One push keeps the eight most recent samples of a window that held at
    most eight. *)
Lemma pushGazeSample_lastn (sample : bool) (history : list bool) :
  (List.length history <= 8)%nat ->
  pushGazeSample sample history = lastn 8 (history ++ [sample]).
Proof.
  intros H. unfold pushGazeSample, GAZE_HISTORY_LENGTH.
  destruct (Z.gtb_spec (Z.of_nat (List.length (history ++ [sample]))) 8) as [Hgt | Hle].
  - rewrite <- (lastn_lastn_S 8) by lia.
    rewrite lastn_short; [ reflexivity | ].
    rewrite length_app. cbn. lia.
  - rewrite lastn_short; [ reflexivity | lia ].
Qed.

Lemma pushGazeSample_length (sample : bool) (history : list bool) :
  (List.length history <= 8)%nat ->
  (List.length (pushGazeSample sample history) <= 8)%nat.
Proof.
  intros H. rewrite pushGazeSample_lastn by exact H. rewrite lastn_length. lia.
Qed.

Lemma lastn_app_lastn {A : Type} (n : nat) (l l' : list A) :
  lastn n (lastn n l ++ l') = lastn n (l ++ l').
Proof.
  unfold lastn. rewrite !length_app, length_skipn, !skipn_app, skipn_skipn,
    length_skipn.
  destruct (Nat.le_gt_cases (List.length l) n) as [Hle | Hgt].
  - replace (List.length l - n)%nat with 0%nat by lia.
    rewrite !Nat.sub_0_r, Nat.add_0_r. reflexivity.
  - f_equal.
    + f_equal. lia.
    + f_equal. lia.
Qed.

Lemma feedSamples_snoc (samples : list bool) (sample : bool) :
  feedSamples (samples ++ [sample]) = pushGazeSample sample (feedSamples samples).
Proof. unfold feedSamples. now rewrite fold_left_app. Qed.

Lemma feedSamples_lastn (samples : list bool) :
  feedSamples samples = lastn 8 samples.
Proof.
  induction samples as [ | sample samples IH ] using rev_ind; [ reflexivity | ].
  rewrite feedSamples_snoc, IH, pushGazeSample_lastn.
  - apply lastn_app_lastn.
  - rewrite lastn_length. lia.
Qed.

Example five_of_eight_is_consistent :
  isConsistentlyLookingAway
    (feedSamples [true; false; true; false; true; false; true; true]) = true.
Proof. reflexivity. Qed.

Example four_of_eight_is_not_consistent :
  isConsistentlyLookingAway
    (feedSamples [true; false; true; false; true; false; true; false]) = false.
Proof. reflexivity. Qed.

(** C2. For every sequence of raw gaze samples fed to the debouncer (push the
    newest, evict the oldest once more than 8 are stored), the window is the
    most recent 8 samples, and "consistently looking away" holds iff the
    number of true samples in the window is strictly greater than
    8 * 0.6 = 4.8, that is iff it is at least 5: exactly 5 true samples give
    true, exactly 4 give false. *)
Theorem consistently_looking_away_iff_more_than_60_percent
    (samples : list bool) :
  let window := feedSamples samples in
  let frames := lookingAwayFrames window in
  window = lastn 8 samples
  /\ (isConsistentlyLookingAway window = true
      <-> (inject_Z 8 * 0.6 < inject_Z frames)%Q)
  /\ (isConsistentlyLookingAway window = true <-> 5 <= frames)
  /\ (frames = 5 -> isConsistentlyLookingAway window = true)
  /\ (frames = 4 -> isConsistentlyLookingAway window = false).
Proof.
  intros window frames.
  assert (H : isConsistentlyLookingAway window = (5 <=? frames))
    by apply isConsistentlyLookingAway_frames.
  split; [ apply feedSamples_lastn | ].
  rewrite H. unfold Qlt. cbn.
  destruct (Z.leb_spec 5 frames); repeat split; intros; try lia;
    try reflexivity; try discriminate.
Qed.

Lemma consistently_looking_away_iff_more_than_60_percent_witness :
  isConsistentlyLookingAway
    (feedSamples [false; true; false; true; false; true; false; true; true;
                  false; true]) = true
  /\ isConsistentlyLookingAway
       (feedSamples [true; true; false; true; false; true; false; true; false;
                     false; true]) = false.
Proof.
  split.
  - destruct (consistently_looking_away_iff_more_than_60_percent
                [false; true; false; true; false; true; false; true; true;
                 false; true]) as (_ & _ & _ & Hfive & _).
    apply Hfive. reflexivity.
  - destruct (consistently_looking_away_iff_more_than_60_percent
                [true; true; false; true; false; true; false; true; false;
                 false; true]) as (_ & _ & _ & _ & Hfour).
    apply Hfour. reflexivity.
Defined.

(** ** Gaze classifier *)

Example focusedFace_is_focused :
  Gaze.normalizedRightDistance focusedFace = 0.1%float
  /\ Gaze.normalizedLeftDistance focusedFace = 0.1%float
  /\ Gaze.eyeDistanceRatio focusedFace = 1%float
  /\ Gaze.isLookingAway focusedFace = false.
Proof. repeat split. Qed.

Example turnedFace_is_looking_away :
  Gaze.normalizedRightDistance turnedFace = 0.25%float
  /\ Gaze.normalizedLeftDistance turnedFace = 0.05%float
  /\ Gaze.eyeDistanceRatio turnedFace = 0.2%float
  /\ Gaze.isLookingAway turnedFace = true.
Proof. repeat split. Qed.

(** Reduce the field assignments and the log appends of a state, leaving
    the numbers and the texts alone. *)
Ltac state_simpl :=
  cbv beta iota zeta delta
    [set_isInterviewRunning set_startTime set_lookAwayCount set_noFaceCount
     set_multipleFacesCount set_gazeDirectionHistory set_phoneCount
     set_bookCount set_deviceCount set_lastFaceDetectedTime
     set_lookingAwayStartTime set_noFaceStartTime set_eventLog set_score
     set_focusIndicator logEvent updateStatusIndicators
     isInterviewRunning startTime lookAwayCount noFaceCount
     multipleFacesCount gazeDirectionHistory phoneCount bookCount
     deviceCount lastFaceDetectedTime lookingAwayStartTime noFaceStartTime
     eventLog scoreText scoreLabel focusIndicator fst snd].

(** The sample [checkGazeDirection] stores is the raw classification of the
    face it was given. *)
Lemma checkGazeDirection_history (face : Face) (now : Z) (s : State) :
  gazeDirectionHistory (snd (checkGazeDirection face now s)) =
  pushGazeSample (Gaze.isLookingAway face) (gazeDirectionHistory s).
Proof.
  unfold checkGazeDirection. destruct s. state_simpl.
  repeat match goal with
         | |- context [ if ?b then _ else _ ] => destruct b
         | |- context [ match ?o with Some _ => _ | None => _ end ] => destruct o
         end; reflexivity.
Qed.

(** *** [Math.min], [Math.max], [>] and [<] against the order of numbers *)

Section FloatOrder.
Local Open Scope float_scope.

Lemma Prim2SF_inj_eq (x y : float) : Prim2SF x = Prim2SF y -> x = y.
Proof.
  intros H. rewrite <- (SF2Prim_Prim2SF x), <- (SF2Prim_Prim2SF y).
  now rewrite H.
Qed.

(** A magnitude divided by a magnitude has its sign bit clear. *)
Lemma abs_div_abs_signless (a b : float) : signless (abs a / abs b).
Proof.
  unfold signless. rewrite div_spec, !abs_spec.
  destruct (Prim2SF a) as [sa|sa| |sa ma ea], (Prim2SF b) as [sb|sb| |sb mb eb];
    cbn [SFabs SF64div SFdiv xorb]; try exact I.
  destruct (SFdiv_core_binary prec emax (Z.pos ma) ea (Z.pos mb) eb)
    as [[mz ez] lz].
  unfold binary_round_aux.
  destruct (shr_fexp prec emax mz ez lz) as [mrs' e'].
  destruct (shr_fexp prec emax _ e' loc_Exact) as [mrs'' e''].
  destruct (shr_m mrs''); try exact I.
  destruct (e'' <=? emax - prec)%Z; exact I.
Qed.

Lemma SFcompare_antisym (x y : spec_float) :
  SFcompare y x = option_map CompOpp (SFcompare x y).
Proof.
  destruct x as [sx|sx| |sx mx ex], y as [sy|sy| |sy my ey];
    try reflexivity;
    try (destruct sx; reflexivity); try (destruct sy; reflexivity);
    try (destruct sx, sy; reflexivity).
  destruct sx, sy; cbn [SFcompare option_map CompOpp]; try reflexivity;
    rewrite (Z.compare_antisym ex ey);
    destruct (ex ?= ey)%Z; cbn [CompOpp]; try reflexivity; f_equal;
    first [ apply ZC4
          | rewrite CompOpp_involutive; symmetry; apply ZC4 ].
Qed.

(** Two signless values that compare equal are the same value. *)
Lemma SFcompare_Eq_signless (x y : float) :
  signless x -> signless y ->
  SFcompare (Prim2SF x) (Prim2SF y) = Some Eq -> x = y.
Proof.
  unfold signless. intros Hx Hy Hc. apply Prim2SF_inj_eq.
  destruct (Prim2SF x) as [sx|sx| |sx mx ex], (Prim2SF y) as [sy|sy| |sy my ey];
    try discriminate;
    try (destruct sx; try contradiction); try (destruct sy; try contradiction);
    try reflexivity; try discriminate.
  cbn in Hc.
  destruct (ex ?= ey)%Z eqn:He; try discriminate.
  apply Z.compare_eq in He. subst ey.
  injection Hc as Hc. apply Pos.compare_eq in Hc. now subst.
Qed.

Lemma div_not_comparable (x y : float) :
  SFcompare (Prim2SF x) (Prim2SF y) = None -> y / x = nan.
Proof.
  intros Hc. apply Prim2SF_inj_eq. rewrite div_spec.
  destruct (Prim2SF x) as [sx|sx| |sx mx ex], (Prim2SF y) as [sy|sy| |sy my ey];
    try discriminate; reflexivity.
Qed.

(** On magnitudes over magnitudes, [Math.min / Math.max] is the smaller
    over the larger. *)
Lemma min_over_max_is_smaller_over_larger (x y : float) :
  signless x -> signless y ->
  JS.Math_min x y / JS.Math_max x y
  = GazeSpec.smaller x y / GazeSpec.larger x y.
Proof.
  intros Hx Hy.
  unfold JS.Math_min, JS.Math_max, GazeSpec.smaller, GazeSpec.larger.
  rewrite compare_spec, leb_spec, classify_spec. unfold SFleb.
  destruct (SFcompare (Prim2SF x) (Prim2SF y)) as [[ | | ]|] eqn:Hc;
    cbn [flatten_cmp_opt].
  - rewrite (SFcompare_Eq_signless x y Hx Hy Hc) in *.
    unfold signless in Hy.
    destruct (Prim2SF y) as [[|]|[|]| |[|] m e]; try contradiction;
      try reflexivity.
    destruct (SF64classify (S754_finite false m e)); reflexivity.
  - reflexivity.
  - reflexivity.
  - rewrite (div_not_comparable x y Hc). reflexivity.
Qed.

Lemma gt_is_greater (a b : float) :
  JS.gt a b = true <-> GazeSpec.greater a b.
Proof.
  unfold JS.gt, GazeSpec.greater. rewrite ltb_spec, compare_spec.
  unfold SFltb. rewrite (SFcompare_antisym (Prim2SF a) (Prim2SF b)).
  destruct (SFcompare (Prim2SF a) (Prim2SF b)) as [[ | | ]|];
    cbn; split; intros H; try reflexivity; discriminate.
Qed.

Lemma lt_is_less (a b : float) :
  JS.lt a b = true <-> GazeSpec.less a b.
Proof.
  unfold JS.lt, GazeSpec.less. rewrite ltb_spec, compare_spec.
  unfold SFltb.
  destruct (SFcompare (Prim2SF a) (Prim2SF b)) as [[ | | ]|];
    cbn; split; intros H; try reflexivity; discriminate.
Qed.

Lemma smaller_le_larger (x y : float) :
  GazeSpec.number x -> GazeSpec.number y ->
  (GazeSpec.smaller x y <=? GazeSpec.larger x y) = true.
Proof.
  unfold GazeSpec.number, GazeSpec.smaller, GazeSpec.larger.
  rewrite !compare_spec. intros Hx Hy.
  destruct (x <=? y) eqn:Hle; [exact Hle|].
  rewrite leb_spec in Hle. rewrite leb_spec. unfold SFleb in *.
  rewrite (SFcompare_antisym (Prim2SF x) (Prim2SF y)).
  destruct (SFcompare (Prim2SF x) (Prim2SF y)) as [[ | | ]|] eqn:Hc;
    try discriminate; try reflexivity.
  destruct (Prim2SF x) as [sx|sx| |sx mx ex]; try discriminate;
    destruct (Prim2SF y) as [sy|sy| |sy my ey]; discriminate.
Qed.

(** C3. For every face observation (whatever its width) the raw per-frame
    classification of the script is the one the specification describes:
    each eye centre is the mean of the three points of the eye, x and y
    independently; each eye-to-nose horizontal distance is divided by the
    width |topLeft.x - bottomRight.x| of the bounding box;
    eyeDistanceRatio is the smaller of the two normalized distances over the
    larger (one of them over the other, with numerator <= denominator
    whenever both are numbers); and the frame is "looking away" iff
    (normalizedRight > 0.12 and normalizedLeft > 0.12) or
    eyeDistanceRatio < 0.7.  That classification is the sample pushed on the
    history. *)
Theorem raw_gaze_classification_follows_specification
    (face : Face) (now : Z) (s : State) :
  Gaze.rightEyeCenter_x face = GazeSpec.px (GazeSpec.eyeCenter (rightEye face))
  /\ Gaze.rightEyeCenter_y face = GazeSpec.py (GazeSpec.eyeCenter (rightEye face))
  /\ Gaze.leftEyeCenter_x face = GazeSpec.px (GazeSpec.eyeCenter (leftEye face))
  /\ Gaze.leftEyeCenter_y face = GazeSpec.py (GazeSpec.eyeCenter (leftEye face))
  /\ Gaze.faceWidth face = GazeSpec.boxWidth face
  /\ Gaze.normalizedRightDistance face = GazeSpec.normalizedRight face
  /\ Gaze.normalizedLeftDistance face = GazeSpec.normalizedLeft face
  /\ Gaze.eyeDistanceRatio face = GazeSpec.ratio face
  /\ (exists lo hi,
        ((lo = GazeSpec.normalizedRight face /\ hi = GazeSpec.normalizedLeft face)
         \/ (lo = GazeSpec.normalizedLeft face
             /\ hi = GazeSpec.normalizedRight face))
        /\ Gaze.eyeDistanceRatio face = lo / hi
        /\ (GazeSpec.number (GazeSpec.normalizedRight face) ->
            GazeSpec.number (GazeSpec.normalizedLeft face) ->
            (lo <=? hi) = true))
  /\ (Gaze.isLookingAway face = true <-> GazeSpec.lookingAway face)
  /\ gazeDirectionHistory (snd (checkGazeDirection face now s)) =
     pushGazeSample (Gaze.isLookingAway face) (gazeDirectionHistory s).
Proof.
  assert (Hratio : Gaze.eyeDistanceRatio face = GazeSpec.ratio face).
  { unfold Gaze.eyeDistanceRatio, GazeSpec.ratio.
    change (GazeSpec.normalizedRight face)
      with (Gaze.normalizedRightDistance face).
    change (GazeSpec.normalizedLeft face)
      with (Gaze.normalizedLeftDistance face).
    apply min_over_max_is_smaller_over_larger;
      apply abs_div_abs_signless. }
  repeat (split; [ reflexivity | ]).
  split; [ exact Hratio | ].
  split.
  { exists (GazeSpec.smaller (GazeSpec.normalizedRight face)
              (GazeSpec.normalizedLeft face)),
           (GazeSpec.larger (GazeSpec.normalizedRight face)
              (GazeSpec.normalizedLeft face)).
    split; [ | split; [ exact Hratio | apply smaller_le_larger ] ].
    unfold GazeSpec.smaller, GazeSpec.larger.
    destruct (_ <=? _); [ left | right ]; split; reflexivity. }
  split; [ | apply checkGazeDirection_history ].
  unfold Gaze.isLookingAway, GazeSpec.lookingAway.
  rewrite orb_true_iff, andb_true_iff, !gt_is_greater, lt_is_less.
  rewrite Hratio. reflexivity.
Qed.

End FloatOrder.

(** ** Zero-width bounding box: the division is performed *)

(** A magnitude divided by [+0]: +Infinity when the magnitude is positive,
    NaN when it is zero or NaN. *)
Lemma abs_div_zero (x : float) :
  ((abs x / 0)%float = infinity /\ (0 <? abs x)%float = true)
  \/ ((abs x / 0)%float = nan /\ (0 <? abs x)%float = false).
Proof.
  assert (Hdiv : Prim2SF (abs x / 0) = SF64div (SFabs (Prim2SF x)) (S754_zero false)).
  { rewrite div_spec, abs_spec. reflexivity. }
  assert (Hlt : (0 <? abs x)%float = SFltb (S754_zero false) (SFabs (Prim2SF x))).
  { rewrite ltb_spec, abs_spec. reflexivity. }
  rewrite Hlt. rewrite <- (SF2Prim_Prim2SF (abs x / 0)), Hdiv.
  destruct (Prim2SF x) as [ sg | sg | | sg m e ]; cbn; auto.
Qed.

Example zeroWidthFace_divides_by_zero :
  Gaze.faceWidth zeroWidthFace = 0%float
  /\ Gaze.normalizedRightDistance zeroWidthFace = infinity
  /\ Gaze.normalizedLeftDistance zeroWidthFace = infinity
  /\ Gaze.eyeDistanceRatio zeroWidthFace = nan.
Proof. repeat split. Qed.

(** C7, as the claim states it, fails: the face [zeroWidthFace] has
    [topLeft.x = bottomRight.x], hence face width 0; both eye distances are
    divided by that zero, giving +Infinity, and the frame is classified
    "looking away = true"; the sample stored for it is [true]. *)
Lemma zero_width_face_classified_looking_away :
  JS.idx (topLeft zeroWidthFace) 0 = JS.idx (bottomRight zeroWidthFace) 0
  /\ Gaze.faceWidth zeroWidthFace = 0%float
  /\ Gaze.normalizedRightDistance zeroWidthFace = infinity
  /\ Gaze.normalizedLeftDistance zeroWidthFace = infinity
  /\ Gaze.isLookingAway zeroWidthFace = true
  /\ gazeDirectionHistory (snd (checkGazeDirection zeroWidthFace 0 initialState))
     = [true].
Proof. repeat split. Qed.

(** C7, amended. For every face observation whose face width is 0 the
    classifier is total (no exception: the quotient by zero is +Infinity or
    NaN) and unguarded: each normalized distance is +Infinity when the
    eye-to-nose distance is positive and NaN otherwise, and the frame is
    classified "looking away" exactly when both eye-to-nose distances are
    positive. *)
Theorem zero_width_face_classification (face : Face) :
  Gaze.faceWidth face = 0%float ->
  Gaze.normalizedRightDistance face =
    (if (0 <? Gaze.rightEyeDistance face)%float then infinity else nan)
  /\ Gaze.normalizedLeftDistance face =
    (if (0 <? Gaze.leftEyeDistance face)%float then infinity else nan)
  /\ Gaze.isLookingAway face =
    ((0 <? Gaze.rightEyeDistance face)%float
     && (0 <? Gaze.leftEyeDistance face)%float).
Proof.
  intros Hw.
  unfold Gaze.isLookingAway, Gaze.eyeDistanceRatio,
    Gaze.normalizedRightDistance, Gaze.normalizedLeftDistance.
  rewrite Hw.
  unfold Gaze.rightEyeDistance, Gaze.leftEyeDistance, JS.Math_abs.
  destruct (abs_div_zero (Gaze.rightEyeCenter_x face - JS.idx (nose face) 0))
    as [ [Hr Hr0] | [Hr Hr0] ];
    destruct (abs_div_zero (Gaze.leftEyeCenter_x face - JS.idx (nose face) 0))
      as [ [Hl Hl0] | [Hl Hl0] ];
    rewrite Hr, Hr0, Hl, Hl0; repeat split.
Qed.

Lemma zero_width_face_classification_witness :
  Gaze.normalizedRightDistance zeroWidthFace = infinity
  /\ Gaze.normalizedLeftDistance zeroWidthFace = infinity
  /\ Gaze.isLookingAway zeroWidthFace = true.
Proof.
  apply (zero_width_face_classification zeroWidthFace). reflexivity.
Defined.

(** ** Look-away episodes *)

(** What one call of [checkGazeDirection] does to the variables of the
    session: it stores one sample, drives the episode start and
    [lookAwayCount] as [episodeNext] says, returns [true] exactly when it
    counted a violation, and leaves the other counters and timers alone. *)
Lemma checkGazeDirection_effect (face : Face) (now : Z) (s : State) :
  let r := checkGazeDirection face now s in
  let history := pushGazeSample (Gaze.isLookingAway face) (gazeDirectionHistory s) in
  gazeDirectionHistory (snd r) = history
  /\ (lookingAwayStartTime (snd r), lookAwayCount (snd r)) =
     episodeNext now history (lookingAwayStartTime s) (lookAwayCount s)
  /\ fst r = (lookAwayCount (snd r) =? lookAwayCount s + 1)
  /\ isInterviewRunning (snd r) = isInterviewRunning s
  /\ startTime (snd r) = startTime s
  /\ noFaceCount (snd r) = noFaceCount s
  /\ multipleFacesCount (snd r) = multipleFacesCount s
  /\ phoneCount (snd r) = phoneCount s
  /\ bookCount (snd r) = bookCount s
  /\ deviceCount (snd r) = deviceCount s
  /\ noFaceStartTime (snd r) = noFaceStartTime s.
Proof.
  intros r history. subst r. unfold checkGazeDirection, episodeNext.
  fold history. destruct s. state_simpl.
  change 2%Q with (inject_Z 2). change 1%Q with (inject_Z 1).
  destruct (isConsistentlyLookingAway history);
    destruct lookingAwayStartTime0 as [ start | ];
    rewrite ?Qgt_bool_elapsedSeconds; change (2 * 1000) with 2000;
    try destruct (2000 <? now - start); try destruct (1 * 1000 <? now - start);
    state_simpl; repeat split;
    try (symmetry; apply Z.eqb_refl);
    try (symmetry; apply Z.eqb_neq; lia).
Qed.

Lemma episodeNext_count (now : Z) (history : list bool) (start : option Z)
    (count : Z) :
  snd (episodeNext now history start count) = count
  \/ snd (episodeNext now history start count) = count + 1.
Proof.
  unfold episodeNext.
  destruct (isConsistentlyLookingAway history); destruct start as [ t | ];
    try destruct (2000 <? now - t); cbn; auto.
Qed.

(** The loop over the faces of a frame: one sample per face, in list order;
    only [lookAwayCount] can grow. *)
Lemma forEachFace_effect (now : Z) (faces : list Face) :
  forall (b : bool) (s : State),
  let r := forEachFace now faces b s in
  gazeDirectionHistory (snd r) = pushFaces faces (gazeDirectionHistory s)
  /\ lookAwayCount s <= lookAwayCount (snd r)
  /\ isInterviewRunning (snd r) = isInterviewRunning s
  /\ startTime (snd r) = startTime s
  /\ noFaceCount (snd r) = noFaceCount s
  /\ multipleFacesCount (snd r) = multipleFacesCount s
  /\ phoneCount (snd r) = phoneCount s
  /\ bookCount (snd r) = bookCount s
  /\ deviceCount (snd r) = deviceCount s
  /\ noFaceStartTime (snd r) = noFaceStartTime s.
Proof.
  induction faces as [ | face faces IH ]; intros b s.
  - cbn. repeat split. lia.
  - cbn [forEachFace pushFaces fold_left].
    destruct (checkGazeDirection_effect face now s)
      as (Hh & He & _ & Hr & Hst & Hn & Hm & Hp & Hb & Hd & Ht).
    specialize
      (IH (if fst (checkGazeDirection face now s) then true else b)
          (snd (checkGazeDirection face now s))).
    cbv zeta in IH.
    destruct IH as (Hh' & Hl' & Hr' & Hst' & Hn' & Hm' & Hp' & Hb' & Hd' & Ht').
    rewrite Hh in Hh'.
    assert (Hl : lookAwayCount s <= lookAwayCount (snd (checkGazeDirection face now s))).
    { pose proof (episodeNext_count now
        (pushGazeSample (Gaze.isLookingAway face) (gazeDirectionHistory s))
        (lookingAwayStartTime s) (lookAwayCount s)) as Hc.
      rewrite <- He in Hc. cbn [snd] in Hc. lia. }
    repeat split; try congruence; try lia. exact Hh'.
Qed.

(** [handleNoFaceDetected] starts the no-face timer, or counts one violation
    when the timer has run for more than 8 seconds and none was counted yet;
    nothing else changes. *)
Lemma handleNoFaceDetected_effect (now : Z) (s : State) :
  let s' := handleNoFaceDetected now s in
  noFaceCount s' =
    match noFaceStartTime s with
    | Some start =>
        if (8000 <? now - start) && (noFaceCount s =? 0) then noFaceCount s + 1
        else noFaceCount s
    | None => noFaceCount s
    end
  /\ noFaceStartTime s' =
    match noFaceStartTime s with
    | Some start =>
        if (8000 <? now - start) && (noFaceCount s =? 0) then Some now
        else Some start
    | None => Some now
    end
  /\ lookAwayCount s' = lookAwayCount s
  /\ isInterviewRunning s' = isInterviewRunning s
  /\ startTime s' = startTime s
  /\ multipleFacesCount s' = multipleFacesCount s
  /\ phoneCount s' = phoneCount s
  /\ bookCount s' = bookCount s
  /\ deviceCount s' = deviceCount s
  /\ gazeDirectionHistory s' = gazeDirectionHistory s.
Proof.
  unfold handleNoFaceDetected. destruct s. state_simpl.
  change 8%Q with (inject_Z 8).
  destruct noFaceStartTime0 as [ start | ];
    rewrite ?Qgt_bool_elapsedSeconds; change (8 * 1000) with 8000;
    try destruct ((8000 <? now - start) && (noFaceCount0 =? 0));
    state_simpl; repeat split.
Qed.

(** Read a field through the assignments made since. *)
Ltac state_cbn :=
  cbn [set_isInterviewRunning set_startTime set_lookAwayCount set_noFaceCount
       set_multipleFacesCount set_gazeDirectionHistory set_phoneCount
       set_bookCount set_deviceCount set_lastFaceDetectedTime
       set_lookingAwayStartTime set_noFaceStartTime set_eventLog set_score
       set_focusIndicator logEvent updateStatusIndicators
       isInterviewRunning startTime lookAwayCount noFaceCount
       multipleFacesCount gazeDirectionHistory phoneCount bookCount
       deviceCount lastFaceDetectedTime lookingAwayStartTime noFaceStartTime
       eventLog scoreText scoreLabel focusIndicator fst snd] in *.

(** One processed frame: with no face the history is emptied and the no-face
    timer runs; with faces the timer is cleared, [multipleFacesCount] goes
    from 0 to 1 on a frame of several faces, and every face is classified. *)
Lemma processFaceDetectionResults_effect (now : Z) (faces : list Face)
    (s : State) :
  let s' := processFaceDetectionResults now faces s in
  isInterviewRunning s' = isInterviewRunning s
  /\ startTime s' = startTime s
  /\ phoneCount s' = phoneCount s
  /\ bookCount s' = bookCount s
  /\ deviceCount s' = deviceCount s
  /\ lookAwayCount s <= lookAwayCount s'
  /\ if Z.of_nat (List.length faces) =? 0 then
       gazeDirectionHistory s' = []
       /\ lookAwayCount s' = lookAwayCount s
       /\ multipleFacesCount s' = multipleFacesCount s
       /\ noFaceCount s' = noFaceCount (handleNoFaceDetected now s)
       /\ noFaceStartTime s' = noFaceStartTime (handleNoFaceDetected now s)
     else
       gazeDirectionHistory s' = pushFaces faces (gazeDirectionHistory s)
       /\ multipleFacesCount s' =
          (if (Z.of_nat (List.length faces) >? 1) && (multipleFacesCount s =? 0)
           then multipleFacesCount s + 1 else multipleFacesCount s)
       /\ noFaceCount s' = noFaceCount s
       /\ noFaceStartTime s' = None.
Proof.
  unfold processFaceDetectionResults.
  destruct (Z.of_nat (List.length faces) =? 0).
  - cbv zeta.
    pose proof (handleNoFaceDetected_effect now
      (set_focusIndicator NoFaceDetected (set_gazeDirectionHistory [] s))) as H.
    pose proof (handleNoFaceDetected_effect now s) as H0.
    cbv zeta in H, H0. state_cbn.
    destruct H as (Hn & Ht & Hl & Hr & Hst & Hm & Hp & Hb & Hd & Hh).
    destruct H0 as (Hn0 & Ht0 & _).
    rewrite Hn, Ht, Hl, Hr, Hst, Hm, Hp, Hb, Hd, Hh, Hn0, Ht0.
    repeat split. lia.
  - cbv zeta. state_cbn.
    destruct (noFaceStartTime s) eqn:Et; state_cbn;
      destruct ((Z.of_nat (List.length faces) >? 1) && (multipleFacesCount s =? 0));
      match goal with
      | |- context [ forEachFace now faces false ?s3 ] =>
          destruct (forEachFace_effect now faces false s3)
            as (Hh & Hl & Hr & Hst & Hn & Hm & Hp & Hb & Hd & Ht)
      end;
      state_cbn; rewrite Hh, Hr, Hst, Hn, Hm, Hp, Hb, Hd, Ht;
      repeat split; first [ exact Hl | exact Et ].
Qed.

Lemma triple_eq {A B C : Type} (a a' : A) (b b' : B) (c c' : C) :
  (a, b, c) = (a', b', c') -> a = a' /\ b = b' /\ c = c'.
Proof. intros H. injection H. auto. Qed.

Lemma Qlt_elapsedSeconds (now start n : Z) :
  (inject_Z n < elapsedSeconds now start)%Q <-> n * 1000 < now - start.
Proof. unfold elapsedSeconds, Qlt. cbn. lia. Qed.

Lemma episodeNext_idle (now : Z) (history : list bool) (start : option Z)
    (count : Z) :
  isConsistentlyLookingAway history = false ->
  episodeNext now history start count = (None, count).
Proof. intros H. unfold episodeNext. now rewrite H. Qed.

Lemma episodeNext_open (now : Z) (history : list bool) (count : Z) :
  isConsistentlyLookingAway history = true ->
  episodeNext now history None count = (Some now, count).
Proof. intros H. unfold episodeNext. now rewrite H. Qed.

Lemma episodeNext_fire (now : Z) (history : list bool) (start count : Z) :
  isConsistentlyLookingAway history = true ->
  2000 < now - start ->
  episodeNext now history (Some start) count = (Some now, count + 1).
Proof.
  intros H Ht. unfold episodeNext. rewrite H.
  destruct (Z.ltb_spec 2000 (now - start)); [ reflexivity | lia ].
Qed.

Lemma episodeNext_wait (now : Z) (history : list bool) (start count : Z) :
  isConsistentlyLookingAway history = true ->
  now - start <= 2000 ->
  episodeNext now history (Some start) count = (Some start, count).
Proof.
  intros H Ht. unfold episodeNext. rewrite H.
  destruct (Z.ltb_spec 2000 (now - start)); [ lia | reflexivity ].
Qed.

(** One face tick with a single face in the frame, while the interview
    runs. *)
Lemma single_face_tick (face : Face) (t : Z) (s : State) :
  isInterviewRunning s = true ->
  let s' := step s (FaceTick t [face]) in
  isInterviewRunning s' = true
  /\ gazeDirectionHistory s' =
     pushGazeSample (Gaze.isLookingAway face) (gazeDirectionHistory s)
  /\ (lookingAwayStartTime s', lookAwayCount s') =
     episodeNext t (gazeDirectionHistory s') (lookingAwayStartTime s)
       (lookAwayCount s).
Proof.
  intros Hrun. cbn [step]. rewrite Hrun. cbn [negb].
  unfold processFaceDetectionResults.
  cbn [List.length Z.of_nat Pos.of_succ_nat Z.eqb Z.gtb Z.compare Pos.compare
       Pos.compare_cont andb forEachFace].
  cbv zeta. state_cbn.
  destruct (noFaceStartTime s);
    match goal with
    | |- context [ checkGazeDirection face t ?s2 ] =>
        destruct (checkGazeDirection_effect face t s2)
          as (Hh & He & _ & Hr & _)
    end;
    state_cbn; rewrite Hh, Hr, He; auto.
Qed.

(** [n] sustained single-face ticks follow [sustainedEpisode]. *)
Lemma sustainedFrames_episode (face : Face) (n : nat) :
  forall (t : Z) (s : State),
  isInterviewRunning s = true ->
  Gaze.isLookingAway face = true ->
  let s' := run s (sustainedFrames face t n) in
  (gazeDirectionHistory s', lookingAwayStartTime s', lookAwayCount s') =
  sustainedEpisode t n (gazeDirectionHistory s) (lookingAwayStartTime s)
    (lookAwayCount s).
Proof.
  induction n as [ | n IH ]; intros t s Hrun Hla; [ reflexivity | ].
  cbn [sustainedFrames sustainedEpisode run fold_left].
  destruct (single_face_tick face t s Hrun) as (Hr & Hh & He).
  specialize (IH (t + 200) _ Hr Hla). cbv zeta in IH. unfold run in IH.
  rewrite IH, Hh, Hla.
  rewrite Hh, Hla in He. rewrite <- He. reflexivity.
Qed.

Lemma sustainedEpisode_step (t : Z) (n : nat) (history : list bool)
    (start start' : option Z) (count count' : Z) :
  episodeNext t (pushGazeSample true history) start count = (start', count') ->
  sustainedEpisode t (S n) history start count =
  sustainedEpisode (t + 200) n (pushGazeSample true history) start' count'.
Proof. intros H. cbn [sustainedEpisode]. cbv zeta. now rewrite H. Qed.

(** One frame of [sustainedEpisode] on a window that is known. *)
Ltac sustained_step :=
  erewrite sustainedEpisode_step;
  [ | match goal with
      | |- context [ pushGazeSample true ?h ] =>
          let v := eval vm_compute in (pushGazeSample true h) in
          change (pushGazeSample true h) with v
      end;
      first
        [ apply episodeNext_idle; reflexivity
        | apply episodeNext_open; reflexivity
        | apply episodeNext_fire; [ reflexivity | lia ]
        | apply episodeNext_wait; [ reflexivity | lia ] ] ];
  match goal with
  | |- context [ pushGazeSample true ?h ] =>
      let v := eval vm_compute in (pushGazeSample true h) in
      change (pushGazeSample true h) with v
  end.

(** Twenty sustained frames from an empty window and no open episode: the
    episode opens at the fifth frame ([t + 800]) and fires once, at the
    sixteenth ([t + 3000]). *)
Lemma sustainedEpisode_twenty (t count : Z) :
  sustainedEpisode t 20 [] None count =
  ([true; true; true; true; true; true; true; true], Some (t + 3000), count + 1).
Proof.
  do 20 sustained_step.
  cbn [sustainedEpisode]. do 3 f_equal. lia.
Qed.

(** C4, as the claim states it, fails: in a session just started (empty
    history, no open episode), 20 consecutive frames 200 ms apart that all
    show a face classified "looking away" raise [lookAwayCount] by 1, not
    by 2. *)
Lemma sustained_look_away_of_20_frames_counts_once :
  isInterviewRunning startedSession = true
  /\ gazeDirectionHistory startedSession = []
  /\ lookingAwayStartTime startedSession = None
  /\ Gaze.isLookingAway turnedFace = true
  /\ lookAwayCount (run startedSession (sustainedFrames turnedFace 0 20))
     = lookAwayCount startedSession + 1
  /\ lookAwayCount (run startedSession (sustainedFrames turnedFace 0 20))
     <> lookAwayCount startedSession + 2.
Proof. vm_compute. repeat split; discriminate. Qed.

(** C4, amended. On the step into "consistently looking away" with no open
    episode, an episode is opened (start time recorded) and lookAwayCount is
    not incremented; on a step where the condition holds, the episode is open
    and more than 2.0 seconds have elapsed since its start, lookAwayCount is
    incremented by 1 and the episode start is reset to the current time; with
    at most 2.0 seconds elapsed nothing changes.  So a look-away sustained
    for 20 frames at 200 ms cadence, from an empty history and no open
    episode, increments lookAwayCount by exactly 1: the episode opens at the
    fifth frame, when the window holds 5 samples, and the only violation is
    counted at the sixteenth, 2200 ms later. *)
Theorem look_away_episode_logic :
  (forall (face : Face) (now : Z) (s : State),
     isConsistentlyLookingAway
       (pushGazeSample (Gaze.isLookingAway face) (gazeDirectionHistory s)) = true ->
     lookingAwayStartTime s = None ->
     fst (checkGazeDirection face now s) = false
     /\ lookingAwayStartTime (snd (checkGazeDirection face now s)) = Some now
     /\ lookAwayCount (snd (checkGazeDirection face now s)) = lookAwayCount s)
  /\ (forall (face : Face) (now : Z) (s : State) (start : Z),
     isConsistentlyLookingAway
       (pushGazeSample (Gaze.isLookingAway face) (gazeDirectionHistory s)) = true ->
     lookingAwayStartTime s = Some start ->
     (2 < elapsedSeconds now start)%Q ->
     fst (checkGazeDirection face now s) = true
     /\ lookingAwayStartTime (snd (checkGazeDirection face now s)) = Some now
     /\ lookAwayCount (snd (checkGazeDirection face now s)) = lookAwayCount s + 1)
  /\ (forall (face : Face) (now : Z) (s : State) (start : Z),
     isConsistentlyLookingAway
       (pushGazeSample (Gaze.isLookingAway face) (gazeDirectionHistory s)) = true ->
     lookingAwayStartTime s = Some start ->
     (elapsedSeconds now start <= 2)%Q ->
     fst (checkGazeDirection face now s) = false
     /\ lookingAwayStartTime (snd (checkGazeDirection face now s)) = Some start
     /\ lookAwayCount (snd (checkGazeDirection face now s)) = lookAwayCount s)
  /\ (forall (face : Face) (t : Z) (s : State),
     isInterviewRunning s = true ->
     gazeDirectionHistory s = [] ->
     lookingAwayStartTime s = None ->
     Gaze.isLookingAway face = true ->
     lookAwayCount (run s (sustainedFrames face t 20)) = lookAwayCount s + 1
     /\ lookingAwayStartTime (run s (sustainedFrames face t 20)) = Some (t + 3000)).
Proof.
  split; [ | split; [ | split ] ].
  - intros face now s Hc Hs.
    destruct (checkGazeDirection_effect face now s) as (_ & He & Hf & _).
    rewrite Hs, episodeNext_open in He by exact Hc.
    injection He as He Hn. rewrite Hf, Hn, He.
    repeat split. apply Z.eqb_neq. lia.
  - intros face now s start Hc Hs Ht.
    destruct (checkGazeDirection_effect face now s) as (_ & He & Hf & _).
    apply (Qlt_elapsedSeconds now start 2) in Ht.
    rewrite Hs, episodeNext_fire in He by (exact Hc || lia).
    injection He as He Hn. rewrite Hf, Hn, He.
    repeat split. apply Z.eqb_refl.
  - intros face now s start Hc Hs Ht.
    destruct (checkGazeDirection_effect face now s) as (_ & He & Hf & _).
    assert (Hz : now - start <= 2000).
    { destruct (Z.le_gt_cases (now - start) 2000) as [ H | H ]; [ exact H | ].
      exfalso. apply (Qle_not_lt _ _ Ht).
      apply (Qlt_elapsedSeconds now start 2). lia. }
    rewrite Hs, episodeNext_wait in He by (exact Hc || lia).
    injection He as He Hn. rewrite Hf, Hn, He.
    repeat split. apply Z.eqb_neq. lia.
  - intros face t s Hrun Hh Hs Hla.
    pose proof (sustainedFrames_episode face 20 t s Hrun Hla) as H.
    cbv zeta in H. rewrite Hh, Hs, sustainedEpisode_twenty in H.
    apply triple_eq in H. destruct H as (_ & Hstart & Hcount).
    split; assumption.
Qed.

Lemma look_away_episode_logic_witness :
  (fst (checkGazeDirection turnedFace 800 fourSamplesSession) = false
   /\ lookingAwayStartTime (snd (checkGazeDirection turnedFace 800 fourSamplesSession))
      = Some 800
   /\ lookAwayCount (snd (checkGazeDirection turnedFace 800 fourSamplesSession))
      = lookAwayCount fourSamplesSession)
  /\ (fst (checkGazeDirection turnedFace 2200 openEpisodeSession) = true
      /\ lookingAwayStartTime (snd (checkGazeDirection turnedFace 2200 openEpisodeSession))
         = Some 2200
      /\ lookAwayCount (snd (checkGazeDirection turnedFace 2200 openEpisodeSession))
         = lookAwayCount openEpisodeSession + 1)
  /\ (fst (checkGazeDirection turnedFace 2000 openEpisodeSession) = false
      /\ lookingAwayStartTime (snd (checkGazeDirection turnedFace 2000 openEpisodeSession))
         = Some 0
      /\ lookAwayCount (snd (checkGazeDirection turnedFace 2000 openEpisodeSession))
         = lookAwayCount openEpisodeSession)
  /\ (lookAwayCount (run startedSession (sustainedFrames turnedFace 0 20))
      = lookAwayCount startedSession + 1
      /\ lookingAwayStartTime (run startedSession (sustainedFrames turnedFace 0 20))
         = Some 3000).
Proof.
  destruct look_away_episode_logic as (Ha & Hb & Hc & Hd).
  split; [ | split; [ | split ] ].
  - apply (Ha turnedFace 800 fourSamplesSession); reflexivity.
  - apply (Hb turnedFace 2200 openEpisodeSession 0); reflexivity.
  - apply (Hc turnedFace 2000 openEpisodeSession 0);
      [ reflexivity | reflexivity | vm_compute; discriminate ].
  - apply (Hd turnedFace 0 startedSession); reflexivity.
Defined.

(** ** Object violation tracker *)

Lemma prohibited_class_groups (c : string) :
  includes PROHIBITED_ITEMS c = isPhoneClass c || isBookClass c || isDeviceClass c.
Proof.
  unfold includes, PROHIBITED_ITEMS, isPhoneClass, isBookClass, isDeviceClass,
    includes.
  cbn [existsb]. now rewrite !orb_assoc.
Qed.

Lemma prohibited_class_groups_disjoint (c : string) :
  (isPhoneClass c = true -> isBookClass c = false /\ isDeviceClass c = false)
  /\ (isBookClass c = true -> isDeviceClass c = false).
Proof.
  unfold isPhoneClass, isBookClass, isDeviceClass, includes.
  split.
  - intros H. apply String.eqb_eq in H. subst c. split; reflexivity.
  - intros H. apply String.eqb_eq in H. subst c. reflexivity.
Qed.

(** One qualifying detection feeds exactly the counter of its class. *)
Lemma handleProhibitedItemDetection_effect (now : Z) (item : Prediction)
    (s : State) :
  let s' := handleProhibitedItemDetection now item s in
  phoneCount s' = phoneCount s + Z.b2z (isPhoneClass (class item))
  /\ bookCount s' = bookCount s + Z.b2z (isBookClass (class item))
  /\ deviceCount s' = deviceCount s + Z.b2z (isDeviceClass (class item))
  /\ lookAwayCount s' = lookAwayCount s
  /\ noFaceCount s' = noFaceCount s
  /\ multipleFacesCount s' = multipleFacesCount s
  /\ isInterviewRunning s' = isInterviewRunning s
  /\ startTime s' = startTime s
  /\ gazeDirectionHistory s' = gazeDirectionHistory s.
Proof.
  unfold handleProhibitedItemDetection. cbv zeta.
  destruct (prohibited_class_groups_disjoint (class item)) as (Hp & Hb).
  fold (isPhoneClass (class item)). fold (isBookClass (class item)).
  fold (isDeviceClass (class item)).
  destruct (isPhoneClass (class item)).
  - destruct Hp as (Hp1 & Hp2); [ reflexivity | ]. rewrite Hp1, Hp2.
    state_cbn. cbn [Z.b2z]. repeat split; lia.
  - destruct (isBookClass (class item)).
    + rewrite Hb by reflexivity. state_cbn. cbn [Z.b2z]. repeat split; lia.
    + destruct (isDeviceClass (class item)); state_cbn; cbn [Z.b2z];
        repeat split; lia.
Qed.

Lemma length_filter_b2z {A : Type} (f : A -> bool) (a : A) (l : list A) :
  Z.of_nat (List.length (filter f (a :: l))) =
  Z.b2z (f a) + Z.of_nat (List.length (filter f l)).
Proof. cbn [filter]. destruct (f a); cbn [List.length Z.b2z]; lia. Qed.

(** The counters after a tick of the object detector, whatever the state
    before it. *)
Lemma processObjectDetectionResults_effect (now : Z)
    (predictions : list Prediction) :
  forall s : State,
  let s' := processObjectDetectionResults now predictions s in
  phoneCount s' = phoneCount s + qualifying isPhoneClass predictions
  /\ bookCount s' = bookCount s + qualifying isBookClass predictions
  /\ deviceCount s' = deviceCount s + qualifying isDeviceClass predictions
  /\ lookAwayCount s' = lookAwayCount s
  /\ noFaceCount s' = noFaceCount s
  /\ multipleFacesCount s' = multipleFacesCount s
  /\ isInterviewRunning s' = isInterviewRunning s
  /\ startTime s' = startTime s
  /\ gazeDirectionHistory s' = gazeDirectionHistory s.
Proof.
  unfold processObjectDetectionResults, qualifying. cbv zeta.
  induction predictions as [ | p predictions IH ]; intros s.
  - cbn. repeat split; lia.
  - rewrite !length_filter_b2z. cbn [filter].
    assert (Hq : isProhibitedItem p =
                 (isPhoneClass (class p) || isBookClass (class p)
                  || isDeviceClass (class p)) && JS.gt (score p) 0.6%float).
    { unfold isProhibitedItem. now rewrite prohibited_class_groups. }
    rewrite Hq. clear Hq.
    destruct (JS.gt (score p) 0.6%float).
    + rewrite !andb_true_r.
      destruct (isPhoneClass (class p) || isBookClass (class p)
                || isDeviceClass (class p)) eqn:Hc.
      * cbn [fold_left].
        destruct (handleProhibitedItemDetection_effect now p s)
          as (H1 & H2 & H3 & H4 & H5 & H6 & H7 & H8 & H9).
        destruct (IH (handleProhibitedItemDetection now p s))
          as (I1 & I2 & I3 & I4 & I5 & I6 & I7 & I8 & I9).
        repeat split; try congruence; lia.
      * apply orb_false_elim in Hc. destruct Hc as (Hc & Hd).
        apply orb_false_elim in Hc. destruct Hc as (Hp & Hb).
        rewrite Hp, Hb, Hd. cbn [Z.b2z]. rewrite !Z.add_0_l. apply IH.
    + rewrite !andb_false_r. cbn [Z.b2z]. rewrite !Z.add_0_l. apply IH.
Qed.

Lemma includes_In (array : list string) (x : string) :
  includes array x = true <-> In x array.
Proof.
  unfold includes. rewrite existsb_exists. split.
  - intros (y & Hy & He). apply String.eqb_eq in He. now subst y.
  - intros H. exists x. split; [ exact H | apply String.eqb_refl ].
Qed.

Lemma isProhibitedItem_iff (p : Prediction) :
  isProhibitedItem p = true
  <-> In (class p) PROHIBITED_ITEMS /\ (0.6 <? score p)%float = true.
Proof.
  unfold isProhibitedItem, JS.gt. rewrite andb_true_iff, includes_In.
  reflexivity.
Qed.

(** Every detection that passes the filter is in exactly one group. *)
Lemma qualifying_total (predictions : list Prediction) :
  qualifying isPhoneClass predictions + qualifying isBookClass predictions
  + qualifying isDeviceClass predictions
  = Z.of_nat (List.length (filter isProhibitedItem predictions)).
Proof.
  unfold qualifying.
  induction predictions as [ | p predictions IH ]; [ reflexivity | ].
  rewrite !length_filter_b2z, <- IH.
  unfold isProhibitedItem. rewrite prohibited_class_groups.
  destruct (prohibited_class_groups_disjoint (class p)) as (Hp & Hb).
  destruct (JS.gt (score p) 0.6%float);
    rewrite ?andb_true_r, ?andb_false_r; [ | cbn [Z.b2z]; lia ].
  destruct (isPhoneClass (class p)).
  - destruct Hp as (Hp1 & Hp2); [ reflexivity | ]. rewrite Hp1, Hp2.
    cbn [orb Z.b2z]. lia.
  - destruct (isBookClass (class p)).
    + rewrite Hb by reflexivity. cbn [orb Z.b2z]. lia.
    + destruct (isDeviceClass (class p)); cbn [orb Z.b2z]; lia.
Qed.

Example phone_at_confidence_061_counts_each_time :
  let tick := [mkPrediction "cell phone" 0.61 []; mkPrediction "cell phone" 0.59 [];
               mkPrediction "person" 0.99 []; mkPrediction "mouse" 0.9 []] in
  let s := processObjectDetectionResults 500 tick startedSession in
  let s' := processObjectDetectionResults 1000 tick s in
  (phoneCount s, bookCount s, deviceCount s) = (1, 0, 1)
  /\ (phoneCount s', bookCount s', deviceCount s') = (2, 0, 2).
Proof. vm_compute. split; reflexivity. Qed.

(** C6. For every list of object detections processed in one tick, from any
    state: a detection passes the filter iff its class is in {cell phone,
    book, laptop, keyboard, mouse, remote} and its confidence is strictly
    above 0.6 (0.59 and 0.6 itself are ignored, 0.61 counts); phoneCount
    grows by the number of such "cell phone" detections, bookCount by the
    number of such "book" detections, deviceCount by the number of such
    laptop/keyboard/mouse/remote detections; the three increments add up to
    the number of detections that pass the filter, so each of them feeds
    exactly one counter; nothing is capped or debounced (the increments do
    not depend on the state), and the focus counters are untouched. *)
Theorem object_detections_counted_once_each
    (now : Z) (predictions : list Prediction) (s : State) :
  let s' := processObjectDetectionResults now predictions s in
  (forall p : Prediction,
     isProhibitedItem p = true
     <-> In (class p) ["cell phone"; "book"; "laptop"; "keyboard"; "mouse"; "remote"]%string
         /\ (0.6 <? score p)%float = true)
  /\ isProhibitedItem (mkPrediction "cell phone" 0.59 []) = false
  /\ isProhibitedItem (mkPrediction "cell phone" 0.6 []) = false
  /\ isProhibitedItem (mkPrediction "cell phone" 0.61 []) = true
  /\ phoneCount s' = phoneCount s + qualifying (String.eqb "cell phone") predictions
  /\ bookCount s' = bookCount s + qualifying (String.eqb "book") predictions
  /\ deviceCount s' =
     deviceCount s
     + qualifying
         (fun c => (c =? "laptop") || (c =? "keyboard") || (c =? "mouse")
                   || (c =? "remote"))%string
         predictions
  /\ (phoneCount s' - phoneCount s) + (bookCount s' - bookCount s)
     + (deviceCount s' - deviceCount s)
     = Z.of_nat (List.length (filter isProhibitedItem predictions))
  /\ lookAwayCount s' = lookAwayCount s
  /\ noFaceCount s' = noFaceCount s
  /\ multipleFacesCount s' = multipleFacesCount s.
Proof.
  intros s'.
  destruct (processObjectDetectionResults_effect now predictions s)
    as (Hp & Hb & Hd & Hl & Hn & Hm & _).
  fold s' in Hp, Hb, Hd, Hl, Hn, Hm.
  assert (Ep : qualifying (String.eqb "cell phone") predictions
               = qualifying isPhoneClass predictions).
  { unfold qualifying, isPhoneClass. do 2 f_equal. apply filter_ext.
    intros p. now rewrite String.eqb_sym. }
  assert (Eb : qualifying (String.eqb "book") predictions
               = qualifying isBookClass predictions).
  { unfold qualifying, isBookClass. do 2 f_equal. apply filter_ext.
    intros p. now rewrite String.eqb_sym. }
  assert (Ed : qualifying
                 (fun c => (c =? "laptop") || (c =? "keyboard") || (c =? "mouse")
                           || (c =? "remote"))%string predictions
               = qualifying isDeviceClass predictions).
  { unfold qualifying, isDeviceClass, includes. do 2 f_equal. apply filter_ext.
    intros p. cbn [existsb]. now rewrite orb_false_r, !orb_assoc. }
  rewrite Ep, Eb, Ed.
  split; [ exact isProhibitedItem_iff | ].
  repeat (split; [ reflexivity | ]).
  repeat (split; [ assumption | ]).
  split; [ | auto ].
  rewrite <- qualifying_total. lia.
Qed.

(** ** Session operations: what each leaves untouched *)

Lemma startInterview_effect (now : Z) (s : State) :
  let s' := startInterview now s in
  lookAwayCount s' = lookAwayCount s
  /\ noFaceCount s' = noFaceCount s
  /\ multipleFacesCount s' = multipleFacesCount s
  /\ phoneCount s' = phoneCount s
  /\ bookCount s' = bookCount s
  /\ deviceCount s' = deviceCount s
  /\ gazeDirectionHistory s' = gazeDirectionHistory s
  /\ isInterviewRunning s' = true.
Proof. unfold startInterview. cbv zeta. state_cbn. repeat split. Qed.

Lemma stopInterview_effect (now : Z) (s : State) :
  let s' := stopInterview now s in
  lookAwayCount s' = lookAwayCount s
  /\ noFaceCount s' = noFaceCount s
  /\ multipleFacesCount s' = multipleFacesCount s
  /\ phoneCount s' = phoneCount s
  /\ bookCount s' = bookCount s
  /\ deviceCount s' = deviceCount s
  /\ gazeDirectionHistory s' = gazeDirectionHistory s
  /\ isInterviewRunning s' = false.
Proof.
  unfold stopInterview. cbv zeta.
  destruct (isInterviewRunning s) eqn:E; cbn [negb]; state_cbn; repeat split.
  exact E.
Qed.

Lemma downloadReport_effect (now : Z) (duration : string) (s : State) :
  let s' := fst (downloadReport now duration s) in
  lookAwayCount s' = lookAwayCount s
  /\ noFaceCount s' = noFaceCount s
  /\ multipleFacesCount s' = multipleFacesCount s
  /\ phoneCount s' = phoneCount s
  /\ bookCount s' = bookCount s
  /\ deviceCount s' = deviceCount s
  /\ gazeDirectionHistory s' = gazeDirectionHistory s
  /\ isInterviewRunning s' = isInterviewRunning s
  /\ eventLog s' =
     eventLog s
     ++ [mkLogEntry (JS.toTimeString now)
           "Generating and saving proctoring report..." info].
Proof.
  unfold downloadReport. cbv zeta. state_cbn.
  destruct (startTime s); state_cbn; repeat split.
Qed.

Lemma run_app (s : State) (ops more : list Op) :
  run s (ops ++ more) = run (run s ops) more.
Proof. unfold run. apply fold_left_app. Qed.

Lemma run_cons (s : State) (op : Op) (ops : list Op) :
  run s (op :: ops) = run (step s op) ops.
Proof. reflexivity. Qed.

(** ** Counters only grow *)

Lemma counters_le_refl (s : State) : counters_le s s.
Proof. unfold counters_le. lia. Qed.

Lemma counters_le_trans (s1 s2 s3 : State) :
  counters_le s1 s2 -> counters_le s2 s3 -> counters_le s1 s3.
Proof. unfold counters_le. lia. Qed.

Lemma qualifying_nonneg (cls : string -> bool) (predictions : list Prediction) :
  0 <= qualifying cls predictions.
Proof. unfold qualifying. lia. Qed.

Lemma step_counters_le (s : State) (op : Op) : counters_le s (step s op).
Proof.
  unfold counters_le.
  destruct op as [ now | now | now faces | now predictions | now duration ];
    cbn [step].
  - destruct (startInterview_effect now s) as (H1 & H2 & H3 & H4 & H5 & H6 & _).
    lia.
  - destruct (stopInterview_effect now s) as (H1 & H2 & H3 & H4 & H5 & H6 & _).
    lia.
  - destruct (negb (isInterviewRunning s)); [ lia | ].
    destruct (processFaceDetectionResults_effect now faces s)
      as (_ & _ & Hp & Hb & Hd & Hl & H).
    destruct (handleNoFaceDetected_effect now s) as (Hn & _).
    destruct (Z.of_nat (List.length faces) =? 0).
    + destruct H as (_ & _ & Hm & Hn' & _). rewrite Hn in Hn'.
      destruct (noFaceStartTime s) as [ start | ];
        [ destruct ((8000 <? now - start) && (noFaceCount s =? 0)) | ]; lia.
    + destruct H as (_ & Hm & Hn' & _).
      destruct ((Z.of_nat (List.length faces) >? 1) && (multipleFacesCount s =? 0));
        lia.
  - destruct (negb (isInterviewRunning s)); [ lia | ].
    destruct (processObjectDetectionResults_effect now predictions s)
      as (Hp & Hb & Hd & Hl & Hn & Hm & _).
    pose proof (qualifying_nonneg isPhoneClass predictions).
    pose proof (qualifying_nonneg isBookClass predictions).
    pose proof (qualifying_nonneg isDeviceClass predictions).
    lia.
  - destruct (downloadReport_effect now duration s)
      as (H1 & H2 & H3 & H4 & H5 & H6 & _).
    lia.
Qed.

Lemma run_counters_le (ops : list Op) :
  forall s : State, counters_le s (run s ops).
Proof.
  induction ops as [ | op ops IH ]; intros s.
  - apply counters_le_refl.
  - rewrite run_cons.
    apply (counters_le_trans s (step s op)); [ apply step_counters_le | apply IH ].
Qed.

Lemma integrityScore_antitone (s s' : State) :
  counters_le s s' -> integrityScore s' <= integrityScore s.
Proof. unfold counters_le, integrityScore, deductions. lia. Qed.

(** C9. Each of the six violation counters is monotonically non-decreasing
    across every operation of a session (start and stop of the interview,
    face ticks, object ticks, report download: no operation resets or lowers
    a counter), and so the integrity score is monotonically non-increasing:
    between any moment of a session and any later one, no counter has
    decreased and the score has not increased. *)
Theorem counters_never_decrease (s : State) (ops more : list Op) :
  counters_le (run s ops) (run s (ops ++ more))
  /\ integrityScore (run s (ops ++ more)) <= integrityScore (run s ops).
Proof.
  rewrite run_app.
  pose proof (run_counters_le more (run s ops)) as H.
  split; [ exact H | apply integrityScore_antitone, H ].
Qed.

(** ** The once-only counters: no face, multiple faces *)

Lemma step_once_only (s : State) (op : Op) :
  (noFaceCount (step s op) = noFaceCount s
   \/ (noFaceCount s = 0 /\ noFaceCount (step s op) = 1))
  /\ (multipleFacesCount (step s op) = multipleFacesCount s
      \/ (multipleFacesCount s = 0 /\ multipleFacesCount (step s op) = 1)).
Proof.
  destruct op as [ now | now | now faces | now predictions | now duration ];
    cbn [step].
  - destruct (startInterview_effect now s) as (_ & H2 & H3 & _). auto.
  - destruct (stopInterview_effect now s) as (_ & H2 & H3 & _). auto.
  - destruct (negb (isInterviewRunning s)); [ auto | ].
    destruct (processFaceDetectionResults_effect now faces s)
      as (_ & _ & _ & _ & _ & _ & H).
    destruct (handleNoFaceDetected_effect now s) as (Hn & _).
    destruct (Z.of_nat (List.length faces) =? 0).
    + destruct H as (_ & _ & Hm & Hn' & _). rewrite Hn in Hn'.
      split; [ | auto ].
      destruct (noFaceStartTime s) as [ start | ]; [ | auto ].
      destruct (8000 <? now - start); cbn [andb] in Hn'; [ | auto ].
      destruct (Z.eqb_spec (noFaceCount s) 0) as [ E | E ]; [ | auto ].
      right. split; [ exact E | lia ].
    + destruct H as (_ & Hm & Hn' & _). split; [ auto | ].
      destruct (Z.of_nat (List.length faces) >? 1); cbn [andb] in Hm; [ | auto ].
      destruct (Z.eqb_spec (multipleFacesCount s) 0) as [ E | E ]; [ | auto ].
      right. split; [ exact E | lia ].
  - destruct (negb (isInterviewRunning s)); [ auto | ].
    destruct (processObjectDetectionResults_effect now predictions s)
      as (_ & _ & _ & _ & Hn & Hm & _).
    auto.
  - destruct (downloadReport_effect now duration s) as (_ & H2 & H3 & _). auto.
Qed.

Lemma step_firedAtMostOnce (s : State) (op : Op) :
  firedAtMostOnce s -> firedAtMostOnce (step s op).
Proof.
  unfold firedAtMostOnce. destruct (step_once_only s op) as (Hn & Hm). lia.
Qed.

Lemma run_firedAtMostOnce (ops : list Op) :
  forall s : State, firedAtMostOnce s -> firedAtMostOnce (run s ops).
Proof.
  induction ops as [ | op ops IH ]; intros s H; [ exact H | ].
  rewrite run_cons. apply IH, step_firedAtMostOnce, H.
Qed.

(** A once-only counter that has fired keeps the value 1 whatever follows. *)
Lemma run_fired_stays (ops : list Op) :
  forall s : State,
  (noFaceCount s = 1 -> noFaceCount (run s ops) = 1)
  /\ (multipleFacesCount s = 1 -> multipleFacesCount (run s ops) = 1).
Proof.
  induction ops as [ | op ops IH ]; intros s; [ auto | ].
  rewrite run_cons. destruct (step_once_only s op) as (Hn & Hm).
  destruct (IH (step s op)) as (In & Im).
  split; intros H; [ apply In | apply Im ]; lia.
Qed.

(** No face from [t0] on, the timer started at [t0] and nothing counted yet:
    the count is 1 as soon as a frame comes more than 8 seconds after [t0],
    and stays 1. *)
Lemma noFaceFrames_count (t0 : Z) (times : list Z) :
  forall s : State,
  isInterviewRunning s = true ->
  noFaceStartTime s = Some t0 ->
  noFaceCount s = 0 ->
  noFaceCount (run s (noFaceFrames times))
  = if existsb (fun t => 8000 <? t - t0) times then 1 else 0.
Proof.
  induction times as [ | t times IH ]; intros s Hrun Hstart Hcount.
  - exact Hcount.
  - cbn [noFaceFrames map existsb]. fold (noFaceFrames times). rewrite run_cons.
    assert (Hrun' : isInterviewRunning (step s (FaceTick t [])) = true
            /\ noFaceCount (step s (FaceTick t []))
               = (if 8000 <? t - t0 then 1 else 0)
            /\ noFaceStartTime (step s (FaceTick t []))
               = (if 8000 <? t - t0 then Some t else Some t0)).
    { cbn [step]. rewrite Hrun. cbn [negb].
      destruct (processFaceDetectionResults_effect t [] s)
        as (Hr & _ & _ & _ & _ & _ & H).
      cbn [List.length Z.of_nat Z.eqb] in H.
      destruct H as (_ & _ & _ & Hn & Ht).
      destruct (handleNoFaceDetected_effect t s) as (Hn0 & Ht0 & _).
      rewrite Hn0 in Hn. rewrite Ht0 in Ht.
      rewrite Hstart, Hcount in Hn, Ht. cbn [Z.eqb] in Hn, Ht.
      rewrite andb_true_r in Hn, Ht.
      rewrite Hr, Hn, Ht.
      destruct (8000 <? t - t0); auto. }
    destruct Hrun' as (Hr & Hn & Ht).
    destruct (8000 <? t - t0); cbn [orb].
    + apply (run_fired_stays (noFaceFrames times)). exact Hn.
    + apply IH; assumption.
Qed.

Example no_face_for_a_minute_counts_once :
  noFaceCount
    (run startedSession
       (noFaceFrames [1000; 5000; 9000; 9200; 17300; 25400; 60000])) = 1.
Proof. reflexivity. Qed.

Example second_visitor_counts_once :
  multipleFacesCount
    (run startedSession
       [FaceTick 200 [focusedFace; focusedFace]; FaceTick 400 [focusedFace];
        FaceTick 600 [focusedFace; focusedFace; focusedFace]]) = 1.
Proof. reflexivity. Qed.

(** C5. In every session (any sequence of operations from the state of the
    loaded page) noFaceCount and multipleFacesCount never exceed 1.  With no
    face from [t0] on, noFaceCount goes to 1 once a frame comes more than 8.0
    seconds after [t0], and is exactly 1 however long the condition lasts; a
    frame with more than one face takes multipleFacesCount from 0 to 1; and
    a counter that has reached 1 keeps that value through every later
    operation (faces dropping to one and coming back included). *)
Theorem no_face_and_multiple_faces_fire_once :
  (forall ops : list Op, firedAtMostOnce (run initialState ops))
  /\ (forall (s : State) (t0 : Z) (times : list Z),
        isInterviewRunning s = true ->
        noFaceStartTime s = None ->
        noFaceCount s = 0 ->
        (exists t, In t times /\ (8 < elapsedSeconds t t0)%Q) ->
        noFaceCount (run s (noFaceFrames (t0 :: times))) = 1)
  /\ (forall (s : State) (now : Z) (faces : list Face),
        isInterviewRunning s = true ->
        (1 < List.length faces)%nat ->
        multipleFacesCount s = 0 ->
        multipleFacesCount (step s (FaceTick now faces)) = 1)
  /\ (forall (s : State) (ops : list Op),
        (noFaceCount s = 1 -> noFaceCount (run s ops) = 1)
        /\ (multipleFacesCount s = 1 -> multipleFacesCount (run s ops) = 1)).
Proof.
  split; [ | split; [ | split ] ].
  - intros ops. apply run_firedAtMostOnce. unfold firedAtMostOnce. cbn. lia.
  - intros s t0 times Hrun Hstart Hcount (t & Hin & Ht).
    cbn [noFaceFrames map]. fold (noFaceFrames times). rewrite run_cons.
    assert (H : isInterviewRunning (step s (FaceTick t0 [])) = true
            /\ noFaceStartTime (step s (FaceTick t0 [])) = Some t0
            /\ noFaceCount (step s (FaceTick t0 [])) = 0).
    { cbn [step]. rewrite Hrun. cbn [negb].
      destruct (processFaceDetectionResults_effect t0 [] s)
        as (Hr & _ & _ & _ & _ & _ & H).
      cbn [List.length Z.of_nat Z.eqb] in H.
      destruct H as (_ & _ & _ & Hn & Hs).
      destruct (handleNoFaceDetected_effect t0 s) as (Hn0 & Ht0 & _).
      rewrite Hn0 in Hn. rewrite Ht0 in Hs. rewrite Hstart in Hn, Hs.
      rewrite Hr, Hn, Hs. auto. }
    destruct H as (Hr & Hs & Hn).
    rewrite (noFaceFrames_count t0 times _ Hr Hs Hn).
    assert (E : existsb (fun t => 8000 <? t - t0) times = true).
    { apply existsb_exists. exists t. split; [ exact Hin | ].
      apply Z.ltb_lt. apply (Qlt_elapsedSeconds t t0 8) in Ht. lia. }
    now rewrite E.
  - intros s now faces Hrun Hlen Hcount. cbn [step]. rewrite Hrun. cbn [negb].
    destruct (processFaceDetectionResults_effect now faces s)
      as (_ & _ & _ & _ & _ & _ & H).
    destruct (Z.eqb_spec (Z.of_nat (List.length faces)) 0) as [ E | E ]; [ lia | ].
    destruct H as (_ & Hm & _). rewrite Hm, Hcount.
    destruct (Z.gtb_spec (Z.of_nat (List.length faces)) 1); [ reflexivity | lia ].
  - intros s ops. apply run_fired_stays.
Qed.

Lemma no_face_and_multiple_faces_fire_once_witness :
  noFaceCount (run startedSession (noFaceFrames [1000; 5000; 9200; 60000])) = 1
  /\ multipleFacesCount
       (step startedSession (FaceTick 200 [focusedFace; focusedFace])) = 1
  /\ multipleFacesCount
       (run (step startedSession (FaceTick 200 [focusedFace; focusedFace]))
          [FaceTick 400 [focusedFace]; FaceTick 600 [focusedFace; turnedFace]])
     = 1.
Proof.
  destruct no_face_and_multiple_faces_fire_once as (_ & Hb & Hc & Hd).
  split; [ | split ].
  - apply (Hb startedSession 1000 [5000; 9200; 60000]); try reflexivity.
    exists 9200. split; [ cbn; auto | reflexivity ].
  - apply (Hc startedSession 200 [focusedFace; focusedFace]);
      [ reflexivity | cbn; lia | reflexivity ].
  - apply (Hd (step startedSession (FaceTick 200 [focusedFace; focusedFace]))).
    reflexivity.
Defined.

(** ** One history shared by all faces *)

Lemma pushFaces_lastn (faces : list Face) :
  forall history : list bool,
  (List.length history <= 8)%nat ->
  pushFaces faces history
  = lastn 8 (history ++ map Gaze.isLookingAway faces).
Proof.
  induction faces as [ | face faces IH ]; intros history H.
  - cbn [pushFaces fold_left map]. rewrite app_nil_r.
    symmetry. apply lastn_short, H.
  - cbn [pushFaces fold_left map].
    fold (pushFaces faces (pushGazeSample (Gaze.isLookingAway face) history)).
    rewrite IH by (apply pushGazeSample_length, H).
    rewrite pushGazeSample_lastn by exact H.
    rewrite lastn_app_lastn, <- app_assoc. reflexivity.
Qed.

Lemma step_history_length (s : State) (op : Op) :
  (List.length (gazeDirectionHistory s) <= 8)%nat ->
  (List.length (gazeDirectionHistory (step s op)) <= 8)%nat.
Proof.
  intros H.
  destruct op as [ now | now | now faces | now predictions | now duration ];
    cbn [step].
  - destruct (startInterview_effect now s) as (_ & _ & _ & _ & _ & _ & Hh & _).
    now rewrite Hh.
  - destruct (stopInterview_effect now s) as (_ & _ & _ & _ & _ & _ & Hh & _).
    now rewrite Hh.
  - destruct (negb (isInterviewRunning s)); [ exact H | ].
    destruct (processFaceDetectionResults_effect now faces s)
      as (_ & _ & _ & _ & _ & _ & Hc).
    destruct (Z.of_nat (List.length faces) =? 0).
    + destruct Hc as (Hh & _). rewrite Hh. cbn. lia.
    + destruct Hc as (Hh & _). rewrite Hh, pushFaces_lastn, lastn_length by exact H.
      lia.
  - destruct (negb (isInterviewRunning s)); [ exact H | ].
    destruct (processObjectDetectionResults_effect now predictions s)
      as (_ & _ & _ & _ & _ & _ & _ & _ & Hh).
    now rewrite Hh.
  - destruct (downloadReport_effect now duration s)
      as (_ & _ & _ & _ & _ & _ & Hh & _).
    now rewrite Hh.
Qed.

Lemma run_history_length (ops : list Op) :
  forall s : State,
  (List.length (gazeDirectionHistory s) <= 8)%nat ->
  (List.length (gazeDirectionHistory (run s ops)) <= 8)%nat.
Proof.
  induction ops as [ | op ops IH ]; intros s H; [ exact H | ].
  rewrite run_cons. apply IH, step_history_length, H.
Qed.

Example two_faces_interleave_in_one_window :
  gazeDirectionHistory
    (run startedSession
       [FaceTick 200 [turnedFace; focusedFace];
        FaceTick 400 [turnedFace; focusedFace];
        FaceTick 600 [turnedFace; focusedFace];
        FaceTick 800 [turnedFace; focusedFace];
        FaceTick 1000 [turnedFace; focusedFace]])
  = [true; false; true; false; true; false; true; false].
Proof. reflexivity. Qed.

(** C10. The history of the debouncer is one window shared by all faces:
    a processed frame with k >= 1 faces appends k raw samples, one per face
    in face-list order, to that one history and keeps its most recent 8
    entries, so the samples of different faces interleave in the window; the
    window never holds more than 8 samples after an update, in any state a
    session can reach. *)
Theorem gaze_history_is_shared_by_all_faces
    (now : Z) (faces : list Face) (s : State) :
  faces <> [] ->
  (List.length (gazeDirectionHistory s) <= 8)%nat ->
  let s' := processFaceDetectionResults now faces s in
  gazeDirectionHistory s'
  = lastn 8 (gazeDirectionHistory s ++ map Gaze.isLookingAway faces)
  /\ List.length (map Gaze.isLookingAway faces) = List.length faces
  /\ (List.length (gazeDirectionHistory s') <= 8)%nat
  /\ (forall ops : list Op,
        (List.length (gazeDirectionHistory (run initialState ops)) <= 8)%nat).
Proof.
  intros Hfaces Hlen s'.
  assert (Hh : gazeDirectionHistory s'
               = lastn 8 (gazeDirectionHistory s ++ map Gaze.isLookingAway faces)).
  { destruct (processFaceDetectionResults_effect now faces s)
      as (_ & _ & _ & _ & _ & _ & H).
    destruct (Z.eqb_spec (Z.of_nat (List.length faces)) 0) as [ E | E ].
    - destruct faces; [ congruence | cbn in E; lia ].
    - destruct H as (H & _). fold s' in H. rewrite H.
      apply pushFaces_lastn, Hlen. }
  split; [ exact Hh | ].
  split; [ apply length_map | ].
  split.
  - rewrite Hh, lastn_length. lia.
  - intros ops. apply run_history_length. cbn. lia.
Qed.

Lemma gaze_history_is_shared_by_all_faces_witness :
  gazeDirectionHistory
    (processFaceDetectionResults 200 [turnedFace; focusedFace] fourSamplesSession)
  = [true; true; true; true; true; false].
Proof.
  apply (gaze_history_is_shared_by_all_faces 200 [turnedFace; focusedFace]
           fourSamplesSession); [ discriminate | cbn; lia ].
Defined.

(** ** Report round trip *)

(** What the stored record keeps of an exported session: the six counters
    and the events always; the integrity score unless it is 0, which the
    endpoint replaces by its default 100. *)
Lemma report_round_trip (now : Z) (duration id : string) (serverNow : Z)
    (s : State) (start : Z) :
  startTime s = Some start ->
  exists r : Report,
    snd (exportReport now duration id serverNow s) = Some r
    /\ snap_counters (snapshotOfReport r)
       = snap_counters (snapshotOfState (fst (exportReport now duration id serverNow s)))
    /\ snap_events (snapshotOfReport r)
       = snap_events (snapshotOfState (fst (exportReport now duration id serverNow s)))
    /\ snap_integrityScore (snapshotOfReport r)
       = (if integrityScore s =? 0 then 100 else integrityScore s)
    /\ integrityScore (fst (exportReport now duration id serverNow s))
       = integrityScore s.
Proof.
  intros Hstart. unfold exportReport, downloadReport. cbv zeta. state_cbn.
  rewrite Hstart. cbn [fst snd option_map]. eexists. split; [ reflexivity | ].
  unfold snapshotOfReport, snapshotOfState, postReport, bodyOfReportData.
  cbn [snap_counters snap_events snap_integrityScore report_focusIssues
       report_prohibitedItems report_events report_integrityScore
       body_focusIssues body_prohibitedItems body_events body_integrityScore
       data_focusIssues data_prohibitedItems data_events data_integrityScore
       fi_lookAwayCount fi_noFaceCount fi_multipleFacesCount phonesDetected
       booksDetected devicesDetected JS.or_object JS.or_number].
  state_cbn. repeat split.
Qed.

(** The earlier revision of the endpoint stores the score it was sent, 0
    included. *)
Lemma postReport_spread_keeps_score (id : string) (serverNow : Z)
    (d : ReportData) :
  body_integrityScore (snd (postReport_spread id serverNow (bodyOfReportData d)))
  = Some (data_integrityScore d).
Proof. reflexivity. Qed.

Example tenPhonesSession_score :
  phoneCount tenPhonesSession = 10 /\ deductions tenPhonesSession = 100
  /\ integrityScore tenPhonesSession = 0.
Proof. repeat split. Qed.

(** C8 at the input where it fails.  A session with ten phone detections has
    integrity score 0; its exported report is stored with integrityScore 100
    (the endpoint's [integrityScore || 100]), while the six counters and the
    events are stored as exported. *)
Theorem report_round_trip_turns_score_0_into_100 :
  let exported := exportReport 60000 "00:01:00" "r1" 60500 tenPhonesSession in
  exists r : Report,
    snd exported = Some r
    /\ snap_counters (snapshotOfReport r)
       = snap_counters (snapshotOfState (fst exported))
    /\ snap_events (snapshotOfReport r)
       = snap_events (snapshotOfState (fst exported))
    /\ snap_integrityScore (snapshotOfState (fst exported)) = 0
    /\ snap_integrityScore (snapshotOfReport r) = 100.
Proof.
  intros exported.
  destruct (report_round_trip 60000 "00:01:00" "r1" 60500 tenPhonesSession 0
              eq_refl) as (r & Hr & Hc & He & Hs & Hi).
  fold exported in Hr, Hc, He, Hi.
  exists r.
  split; [ exact Hr | ]. split; [ exact Hc | ]. split; [ exact He | ]. split.
  - cbn [snapshotOfState snap_integrityScore]. rewrite Hi. reflexivity.
  - rewrite Hs. reflexivity.
Qed.

(** * Further properties of the trackers *)

(** ** The focus indicator and the rate of look-away violations *)

Lemma episodeNext_cases (now : Z) (history : list bool) (start : option Z)
    (count : Z) :
  (episodeNext now history start count = (None, count))
  \/ (episodeNext now history start count = (Some now, count))
  \/ (exists t, start = Some t /\ now - t <= 2000
                /\ episodeNext now history start count = (Some t, count))
  \/ (exists t, start = Some t /\ 2000 < now - t
                /\ episodeNext now history start count = (Some now, count + 1)).
Proof.
  unfold episodeNext.
  destruct (isConsistentlyLookingAway history); [ | auto ].
  destruct start as [ t | ]; [ | auto ].
  destruct (Z.ltb_spec 2000 (now - t)).
  - right. right. right. exists t. auto.
  - right. right. left. exists t. auto.
Qed.

(** Once the episode start is [now] or none, the faces still to come in the
    same frame cannot count a violation. *)
Lemma forEachFace_fresh_episode (now : Z) (faces : list Face) :
  forall (b : bool) (s : State),
  lookingAwayStartTime s = None \/ lookingAwayStartTime s = Some now ->
  let r := forEachFace now faces b s in
  lookAwayCount (snd r) = lookAwayCount s
  /\ fst r = b
  /\ (lookingAwayStartTime (snd r) = None
      \/ lookingAwayStartTime (snd r) = Some now).
Proof.
  induction faces as [ | face faces IH ]; intros b s Hs; [ cbn; auto | ].
  cbn [forEachFace].
  destruct (checkGazeDirection_effect face now s) as (_ & He & Hf & _).
  set (r1 := checkGazeDirection face now s) in *.
  assert (H1 : lookAwayCount (snd r1) = lookAwayCount s
               /\ (lookingAwayStartTime (snd r1) = None
                   \/ lookingAwayStartTime (snd r1) = Some now)).
  { destruct (episodeNext_cases now
        (pushGazeSample (Gaze.isLookingAway face) (gazeDirectionHistory s))
        (lookingAwayStartTime s) (lookAwayCount s))
      as [ E | [ E | [ (t & Et & Hle & E) | (t & Et & Hlt & E) ] ] ];
      rewrite E in He; apply pair_equal_spec in He; destruct He as (Hst & Hc).
    - auto.
    - auto.
    - split; [ exact Hc | ]. rewrite Hst.
      destruct Hs as [ Hs | Hs ]; [ congruence | right; congruence ].
    - exfalso. destruct Hs as [ Hs | Hs ]; [ congruence | ].
      rewrite Hs in Et. injection Et as Et. lia. }
  destruct H1 as (Hc1 & Hs1).
  assert (Hf1 : fst r1 = false).
  { rewrite Hf, Hc1. apply Z.eqb_neq. lia. }
  rewrite Hf1.
  destruct (IH b (snd r1) Hs1) as (Hc & Hb & Hs').
  rewrite Hc, Hc1. auto.
Qed.

(** The loop over the faces of one frame counts at most one violation; it
    returns [true] exactly when it counted one (or was entered with [true]);
    after a violation the episode start is [now] or none. *)
Lemma forEachFace_at_most_one (now : Z) (faces : list Face) :
  forall (b : bool) (s : State),
  let r := forEachFace now faces b s in
  (lookAwayCount (snd r) = lookAwayCount s /\ fst r = b)
  \/ (lookAwayCount (snd r) = lookAwayCount s + 1 /\ fst r = true
      /\ (lookingAwayStartTime (snd r) = None
          \/ lookingAwayStartTime (snd r) = Some now)).
Proof.
  induction faces as [ | face faces IH ]; intros b s; [ cbn; auto | ].
  cbn [forEachFace].
  destruct (checkGazeDirection_effect face now s) as (_ & He & Hf & _).
  set (r1 := checkGazeDirection face now s) in *.
  destruct (episodeNext_cases now
      (pushGazeSample (Gaze.isLookingAway face) (gazeDirectionHistory s))
      (lookingAwayStartTime s) (lookAwayCount s))
    as [ E | [ E | [ (t & Et & Hle & E) | (t & Et & Hlt & E) ] ] ];
    rewrite E in He; apply pair_equal_spec in He; destruct He as (Hst & Hc).
  - assert (Hf1 : fst r1 = false) by (rewrite Hf, Hc; apply Z.eqb_neq; lia).
    rewrite Hf1. destruct (IH b (snd r1)) as [ H | H ]; rewrite Hc in H; auto.
  - assert (Hf1 : fst r1 = false) by (rewrite Hf, Hc; apply Z.eqb_neq; lia).
    rewrite Hf1. destruct (IH b (snd r1)) as [ H | H ]; rewrite Hc in H; auto.
  - assert (Hf1 : fst r1 = false) by (rewrite Hf, Hc; apply Z.eqb_neq; lia).
    rewrite Hf1. destruct (IH b (snd r1)) as [ H | H ]; rewrite Hc in H; auto.
  - assert (Hf1 : fst r1 = true) by (rewrite Hf, Hc; apply Z.eqb_refl).
    rewrite Hf1. right.
    destruct (forEachFace_fresh_episode now faces true (snd r1) (or_intror Hst))
      as (Hc' & Hb' & Hs').
    rewrite Hc', Hc. auto.
Qed.

(** A frame with faces is the loop over its faces, run on a state in which
    the look-away variables are those of the state before the frame. *)
Lemma processFaceDetectionResults_faces (now : Z) (faces : list Face)
    (s : State) :
  (Z.of_nat (List.length faces) =? 0) = false ->
  exists s3 : State,
    lookAwayCount s3 = lookAwayCount s
    /\ lookingAwayStartTime s3 = lookingAwayStartTime s
    /\ gazeDirectionHistory s3 = gazeDirectionHistory s
    /\ processFaceDetectionResults now faces s
       = set_focusIndicator
           (if fst (forEachFace now faces false s3) then LookingAway
            else CandidateFocused)
           (snd (forEachFace now faces false s3)).
Proof.
  intros Hlen. unfold processFaceDetectionResults. rewrite Hlen. cbv zeta.
  eexists. split; [ | split; [ | split; [ | reflexivity ] ] ];
    destruct (noFaceStartTime (set_lastFaceDetectedTime (Some now) s));
    match goal with
    | |- context [ if ?c then _ else _ ] => destruct c
    end; reflexivity.
Qed.

Lemma processFaceDetectionResults_no_face (now : Z) (s : State) :
  let s' := processFaceDetectionResults now [] s in
  lookAwayCount s' = lookAwayCount s
  /\ lookingAwayStartTime s' = lookingAwayStartTime s
  /\ focusIndicator s' = NoFaceDetected.
Proof.
  unfold processFaceDetectionResults, handleNoFaceDetected. cbn [List.length Z.of_nat Z.eqb].
  cbv zeta. state_cbn.
  destruct (noFaceStartTime s); [ | repeat split ].
  match goal with
  | |- context [ if ?c then _ else _ ] => destruct c
  end; repeat split.
Qed.

Lemma length_zero_nil {A : Type} (l : list A) :
  (Z.of_nat (List.length l) =? 0) = true -> l = [].
Proof.
  destruct l; [ reflexivity | ]. intros H. apply Z.eqb_eq in H. cbn in H. lia.
Qed.

(** X1. In every processed frame the focus indicator reads "No Face
    Detected" when the frame has no face, "Looking Away" when the frame
    counted a look-away violation, and "Candidate Focused" otherwise: while a
    look-away is merely in progress (episode open, nothing counted in this
    frame) the indicator reads "Candidate Focused". *)
Theorem focus_indicator_shows_looking_away_only_when_counted
    (now : Z) (faces : list Face) (s : State) :
  let s' := processFaceDetectionResults now faces s in
  focusIndicator s' =
    if Z.of_nat (List.length faces) =? 0 then NoFaceDetected
    else if lookAwayCount s' =? lookAwayCount s then CandidateFocused
    else LookingAway.
Proof.
  intros s'. subst s'.
  destruct (Z.of_nat (List.length faces) =? 0) eqn:Hlen.
  - apply length_zero_nil in Hlen. subst faces.
    apply processFaceDetectionResults_no_face.
  - destruct (processFaceDetectionResults_faces now faces s Hlen)
      as (s3 & Hc & _ & _ & Hs').
    rewrite Hs'. state_cbn.
    destruct (forEachFace_at_most_one now faces false s3)
      as [ (Hn & Hf) | (Hn & Hf & _) ]; rewrite Hn, Hf, Hc.
    + now rewrite Z.eqb_refl.
    + destruct (Z.eqb_spec (lookAwayCount s + 1) (lookAwayCount s));
        [ lia | reflexivity ].
Qed.

(** X2. One processed frame counts at most one look-away violation, however
    many faces it holds: once a violation is counted the episode start is the
    time of the frame, so the faces that follow in the frame find no elapsed
    time. *)
Theorem at_most_one_look_away_per_frame
    (now : Z) (faces : list Face) (s : State) :
  let s' := processFaceDetectionResults now faces s in
  lookAwayCount s' = lookAwayCount s \/ lookAwayCount s' = lookAwayCount s + 1.
Proof.
  intros s'. subst s'.
  destruct (Z.of_nat (List.length faces) =? 0) eqn:Hlen.
  - apply length_zero_nil in Hlen. subst faces.
    left. apply processFaceDetectionResults_no_face.
  - destruct (processFaceDetectionResults_faces now faces s Hlen)
      as (s3 & Hc & _ & _ & Hs').
    rewrite Hs'. state_cbn.
    destruct (forEachFace_at_most_one now faces false s3)
      as [ (Hn & _) | (Hn & _) ]; rewrite Hn, Hc; auto.
Qed.

Example three_turned_faces_in_an_open_episode_count_once :
  lookAwayCount
    (processFaceDetectionResults 5000 [turnedFace; turnedFace; turnedFace]
       openEpisodeSession)
  = lookAwayCount openEpisodeSession + 1.
Proof. reflexivity. Qed.

(** ** Cool-down between look-away violations *)

Lemma forEachFace_cooldown (T now : Z) (faces : list Face) :
  T <= now <= T + 2000 ->
  forall (b : bool) (s : State),
  episodeNotBefore T s ->
  lookAwayCount (snd (forEachFace now faces b s)) = lookAwayCount s
  /\ episodeNotBefore T (snd (forEachFace now faces b s)).
Proof.
  intros Hnow. induction faces as [ | face faces IH ]; intros b s Hs;
    [ cbn; auto | ].
  cbn [forEachFace].
  destruct (checkGazeDirection_effect face now s) as (_ & He & _).
  set (r1 := checkGazeDirection face now s) in *.
  assert (H1 : lookAwayCount (snd r1) = lookAwayCount s
               /\ episodeNotBefore T (snd r1)).
  { unfold episodeNotBefore in *.
    destruct (episodeNext_cases now
        (pushGazeSample (Gaze.isLookingAway face) (gazeDirectionHistory s))
        (lookingAwayStartTime s) (lookAwayCount s))
      as [ E | [ E | [ (t & Et & Hle & E) | (t & Et & Hlt & E) ] ] ];
      rewrite E in He; apply pair_equal_spec in He; destruct He as (Hst & Hc);
      rewrite Hst.
    - auto.
    - split; [ exact Hc | lia ].
    - rewrite Et in Hs. auto.
    - rewrite Et in Hs. lia. }
  destruct H1 as (Hc1 & Hs1).
  destruct (IH (if fst r1 then true else b) (snd r1) Hs1) as (Hc & Hs').
  rewrite Hc, Hc1. auto.
Qed.

Lemma handleProhibitedItemDetection_episode (now : Z) (item : Prediction)
    (s : State) :
  lookingAwayStartTime (handleProhibitedItemDetection now item s)
  = lookingAwayStartTime s.
Proof.
  unfold handleProhibitedItemDetection. cbv zeta.
  repeat match goal with
         | |- context [ if ?c then _ else _ ] => destruct c
         end; reflexivity.
Qed.

Lemma processObjectDetectionResults_episode (now : Z)
    (predictions : list Prediction) (s : State) :
  lookingAwayStartTime (processObjectDetectionResults now predictions s)
  = lookingAwayStartTime s.
Proof.
  unfold processObjectDetectionResults. cbv zeta.
  generalize (filter isProhibitedItem predictions) as items. intros items.
  revert s. induction items as [ | item items IH ]; intros s; [ reflexivity | ].
  cbn [fold_left]. rewrite IH. apply handleProhibitedItemDetection_episode.
Qed.

Lemma step_cooldown (T : Z) (s : State) (op : Op) :
  episodeNotBefore T s ->
  faceTicksWithin T (T + 2000) [op] ->
  lookAwayCount (step s op) = lookAwayCount s
  /\ episodeNotBefore T (step s op).
Proof.
  intros Hs Hop. unfold episodeNotBefore in *.
  destruct op as [ now | now | now faces | now predictions | now duration ];
    cbn [step].
  - unfold startInterview. cbv zeta. state_cbn. auto.
  - unfold stopInterview. destruct (negb (isInterviewRunning s)); cbv zeta;
      state_cbn; auto.
  - destruct (negb (isInterviewRunning s)); [ auto | ].
    cbn [faceTicksWithin] in Hop. destruct Hop as (Hnow & _).
    destruct (Z.of_nat (List.length faces) =? 0) eqn:Hlen.
    + apply length_zero_nil in Hlen. subst faces.
      destruct (processFaceDetectionResults_no_face now s) as (Hc & Hst & _).
      rewrite Hc, Hst. auto.
    + destruct (processFaceDetectionResults_faces now faces s Hlen)
        as (s3 & Hc & Hst & _ & Hs').
      rewrite Hs'. state_cbn.
      destruct (forEachFace_cooldown T now faces Hnow false s3) as (Hc' & Hs3).
      { unfold episodeNotBefore. now rewrite Hst. }
      rewrite Hc', Hc. auto.
  - destruct (negb (isInterviewRunning s)); [ auto | ].
    destruct (processObjectDetectionResults_effect now predictions s)
      as (_ & _ & _ & Hl & _).
    rewrite Hl, processObjectDetectionResults_episode. auto.
  - unfold downloadReport. cbv zeta. state_cbn.
    destruct (startTime s); state_cbn; auto.
Qed.

Lemma faceTicksWithin_cons (lo hi : Z) (op : Op) (ops : list Op) :
  faceTicksWithin lo hi (op :: ops)
  <-> faceTicksWithin lo hi [op] /\ faceTicksWithin lo hi ops.
Proof. destruct op; cbn [faceTicksWithin]; tauto. Qed.

Lemma run_cooldown (T : Z) (ops : list Op) :
  forall s : State,
  episodeNotBefore T s ->
  faceTicksWithin T (T + 2000) ops ->
  lookAwayCount (run s ops) = lookAwayCount s.
Proof.
  induction ops as [ | op ops IH ]; intros s Hs Hops; [ reflexivity | ].
  apply faceTicksWithin_cons in Hops. destruct Hops as (Hop & Hops).
  destruct (step_cooldown T s op Hs Hop) as (Hc & Hs').
  rewrite run_cons, IH by assumption. exact Hc.
Qed.

(** X3. After a frame at time [T] has counted a look-away violation, no
    further violation is counted by any operation up to and including time
    [T + 2000 ms]: the face ticks that follow, with any faces, leave
    lookAwayCount where it is as long as their times lie in [T, T + 2000]. *)
Theorem no_second_look_away_within_two_seconds
    (T : Z) (faces : list Face) (s : State) (ops : list Op) :
  lookAwayCount s < lookAwayCount (processFaceDetectionResults T faces s) ->
  faceTicksWithin T (T + 2000) ops ->
  lookAwayCount (run (processFaceDetectionResults T faces s) ops)
  = lookAwayCount (processFaceDetectionResults T faces s).
Proof.
  intros Hfired Hops. apply (run_cooldown T); [ | exact Hops ].
  destruct (Z.of_nat (List.length faces) =? 0) eqn:Hlen.
  - apply length_zero_nil in Hlen. subst faces.
    destruct (processFaceDetectionResults_no_face T s) as (Hc & _). lia.
  - destruct (processFaceDetectionResults_faces T faces s Hlen)
      as (s3 & Hc & _ & _ & Hs').
    rewrite Hs' in *. unfold episodeNotBefore. state_cbn.
    destruct (forEachFace_at_most_one T faces false s3)
      as [ (Hn & _) | (_ & _ & [ Hst | Hst ]) ]; [ lia | | ]; rewrite Hst;
      [ exact I | lia ].
Qed.

Lemma no_second_look_away_within_two_seconds_witness :
  lookAwayCount
    (run (processFaceDetectionResults 5000 [turnedFace] openEpisodeSession)
       [FaceTick 5200 [turnedFace]; FaceTick 6000 [turnedFace; turnedFace];
        ObjectTick 6100 []; FaceTick 7000 [turnedFace]])
  = lookAwayCount (processFaceDetectionResults 5000 [turnedFace] openEpisodeSession).
Proof.
  apply (no_second_look_away_within_two_seconds 5000 [turnedFace]
           openEpisodeSession).
  - reflexivity.
  - cbn [faceTicksWithin]. lia.
Defined.

(** ** Warm-up of the debouncer *)

Lemma isConsistentlyLookingAway_short (history : list bool) :
  (List.length history < 5)%nat -> isConsistentlyLookingAway history = false.
Proof.
  intros H. rewrite isConsistentlyLookingAway_frames. apply Z.leb_gt.
  unfold lookingAwayFrames.
  pose proof (filter_length_le (fun val : bool => val) history). lia.
Qed.

Lemma pushGazeSample_length_le (sample : bool) (history : list bool) :
  (List.length (pushGazeSample sample history) <= List.length history + 1)%nat.
Proof.
  unfold pushGazeSample.
  assert (H : List.length (history ++ [sample]) = (List.length history + 1)%nat)
    by (rewrite length_app; reflexivity).
  destruct (Z.of_nat (List.length (history ++ [sample])) >? GAZE_HISTORY_LENGTH).
  - destruct (history ++ [sample]); cbn [tl List.length] in *; lia.
  - lia.
Qed.

Lemma forEachFace_warmup (now : Z) (faces : list Face) :
  forall (b : bool) (s : State),
  (List.length (gazeDirectionHistory s) + List.length faces < 5)%nat ->
  let r := forEachFace now faces b s in
  lookAwayCount (snd r) = lookAwayCount s
  /\ fst r = b
  /\ (faces <> [] -> lookingAwayStartTime (snd r) = None).
Proof.
  induction faces as [ | face faces IH ]; intros b s Hlen;
    [ cbn; repeat split; congruence | ].
  cbn [forEachFace]. cbn [List.length] in Hlen.
  destruct (checkGazeDirection_effect face now s) as (Hh & He & Hf & _).
  set (r1 := checkGazeDirection face now s) in *.
  pose proof (pushGazeSample_length_le (Gaze.isLookingAway face)
                (gazeDirectionHistory s)) as Hpush.
  rewrite episodeNext_idle in He
    by (apply isConsistentlyLookingAway_short; lia).
  apply pair_equal_spec in He. destruct He as (Hst & Hc).
  assert (Hf1 : fst r1 = false) by (rewrite Hf, Hc; apply Z.eqb_neq; lia).
  rewrite Hf1.
  destruct (IH b (snd r1)) as (Hc' & Hb' & Hs'); [ rewrite Hh; lia | ].
  rewrite Hc', Hc. repeat split; [ exact Hb' | ].
  intros _. destruct faces as [ | face' faces ]; [ exact Hst | ].
  apply Hs'. discriminate.
Qed.

(** X4. A look-away episode does not survive a frame without faces: that
    frame empties the window, and the next frame, if it has between one and
    four faces, brings fewer than the five samples the debouncer needs, so it
    counts no violation and leaves no episode open, whatever the time elapsed
    since the episode started and however the faces are turned. *)
Theorem absence_closes_the_look_away_episode
    (t0 now : Z) (faces : list Face) (s : State) :
  faces <> [] ->
  (List.length faces < 5)%nat ->
  let s' :=
    processFaceDetectionResults now faces
      (processFaceDetectionResults t0 [] s) in
  lookAwayCount s' = lookAwayCount s
  /\ lookingAwayStartTime s' = None
  /\ focusIndicator s' = CandidateFocused.
Proof.
  intros Hfaces Hlen s'. subst s'.
  destruct (processFaceDetectionResults_no_face t0 s) as (Hc0 & _).
  destruct (processFaceDetectionResults_effect t0 [] s)
    as (_ & _ & _ & _ & _ & _ & H0).
  cbn [List.length Z.of_nat Z.eqb] in H0. destruct H0 as (Hh0 & _).
  set (s0 := processFaceDetectionResults t0 [] s) in *.
  assert (Hne : (Z.of_nat (List.length faces) =? 0) = false).
  { apply Z.eqb_neq. destruct faces; [ congruence | cbn; lia ]. }
  destruct (processFaceDetectionResults_faces now faces s0 Hne)
    as (s3 & Hc & _ & Hh & Hs').
  rewrite Hs'. state_cbn.
  destruct (forEachFace_warmup now faces false s3) as (Hc' & Hf & Hst).
  { rewrite Hh, Hh0. cbn. lia. }
  rewrite Hc', Hf, Hc, Hc0. repeat split. apply Hst, Hfaces.
Qed.

Lemma absence_closes_the_look_away_episode_witness :
  let s' :=
    processFaceDetectionResults 9000 [turnedFace; turnedFace]
      (processFaceDetectionResults 8800 [] openEpisodeSession) in
  lookAwayCount s' = lookAwayCount openEpisodeSession
  /\ lookingAwayStartTime s' = None
  /\ focusIndicator s' = CandidateFocused.
Proof.
  apply (absence_closes_the_look_away_episode 8800 9000
           [turnedFace; turnedFace] openEpisodeSession);
    [ discriminate | cbn; lia ].
Defined.

(** ** The event log only grows; the page follows the counters *)

Lemma logExtends_refl (s : State) : logExtends s s.
Proof. exists []. now rewrite app_nil_r. Qed.

Lemma logExtends_trans (s1 s2 s3 : State) :
  logExtends s1 s2 -> logExtends s2 s3 -> logExtends s1 s3.
Proof.
  intros (a & Ha) (b & Hb). exists (a ++ b). now rewrite Hb, Ha, app_assoc.
Qed.

Lemma logExtends_eq (s s' : State) :
  eventLog s' = eventLog s -> logExtends s s'.
Proof. intros H. exists []. now rewrite app_nil_r. Qed.

Lemma processFaceDetectionResults_loop (now : Z) (faces : list Face)
    (s : State) :
  (Z.of_nat (List.length faces) =? 0) = false ->
  processFaceDetectionResults now faces s
  = set_focusIndicator
      (if fst (forEachFace now faces false (beforeFaces now faces s))
       then LookingAway else CandidateFocused)
      (snd (forEachFace now faces false (beforeFaces now faces s))).
Proof.
  intros Hlen. unfold processFaceDetectionResults. rewrite Hlen. reflexivity.
Qed.

Lemma beforeFaces_log_sync (now : Z) (faces : list Face) (s : State) :
  logExtends s (beforeFaces now faces s)
  /\ (displayInSync s -> displayInSync (beforeFaces now faces s)).
Proof.
  unfold beforeFaces, logExtends, displayInSync, integrityScore, deductions.
  cbv zeta. state_cbn.
  destruct (noFaceStartTime s); state_cbn;
    destruct ((Z.of_nat (List.length faces) >? 1) && (multipleFacesCount s =? 0));
    state_cbn; (split; [ | auto ]).
  - eexists. rewrite <- app_assoc. reflexivity.
  - eexists. reflexivity.
  - eexists. reflexivity.
  - exists []. now rewrite app_nil_r.
Qed.

Lemma checkGazeDirection_log_sync (face : Face) (now : Z) (s : State) :
  logExtends s (snd (checkGazeDirection face now s))
  /\ (displayInSync s -> displayInSync (snd (checkGazeDirection face now s))).
Proof.
  unfold checkGazeDirection, logExtends, displayInSync, integrityScore,
    deductions.
  cbv zeta. state_cbn.
  destruct (isConsistentlyLookingAway _);
    destruct (lookingAwayStartTime s);
    repeat match goal with
           | |- context [ if ?c then _ else _ ] => destruct c
           end;
    state_cbn; (split; [ | auto ]);
    first [ eexists; reflexivity | exists []; now rewrite app_nil_r ].
Qed.

Lemma forEachFace_log_sync (now : Z) (faces : list Face) :
  forall (b : bool) (s : State),
  logExtends s (snd (forEachFace now faces b s))
  /\ (displayInSync s -> displayInSync (snd (forEachFace now faces b s))).
Proof.
  induction faces as [ | face faces IH ]; intros b s.
  - cbn. split; [ apply logExtends_refl | auto ].
  - cbn [forEachFace].
    destruct (checkGazeDirection_log_sync face now s) as (Hl & Hd).
    destruct (IH (if fst (checkGazeDirection face now s) then true else b)
                (snd (checkGazeDirection face now s))) as (Hl' & Hd').
    split; [ exact (logExtends_trans _ _ _ Hl Hl') | auto ].
Qed.

Lemma handleNoFaceDetected_log_sync (now : Z) (s : State) :
  logExtends s (handleNoFaceDetected now s)
  /\ (displayInSync s -> displayInSync (handleNoFaceDetected now s)).
Proof.
  unfold handleNoFaceDetected, logExtends, displayInSync, integrityScore,
    deductions.
  cbv zeta.
  destruct (noFaceStartTime s);
    repeat match goal with
           | |- context [ if ?c then _ else _ ] => destruct c
           end;
    state_cbn; (split; [ | auto ]);
    first [ eexists; reflexivity | exists []; now rewrite app_nil_r ].
Qed.

Lemma processFaceDetectionResults_log_sync (now : Z) (faces : list Face)
    (s : State) :
  logExtends s (processFaceDetectionResults now faces s)
  /\ (displayInSync s -> displayInSync (processFaceDetectionResults now faces s)).
Proof.
  destruct (Z.of_nat (List.length faces) =? 0) eqn:Hlen.
  - apply length_zero_nil in Hlen. subst faces.
    unfold processFaceDetectionResults. cbn [List.length Z.of_nat Z.eqb].
    cbv zeta.
    destruct (handleNoFaceDetected_log_sync now
                (set_focusIndicator NoFaceDetected
                   (set_gazeDirectionHistory [] s))) as (Hl & Hd).
    split.
    + apply (logExtends_trans _ _ _ (logExtends_refl s)).
      destruct Hl as (a & Ha). exists a. exact Ha.
    + intros H. apply Hd. exact H.
  - rewrite processFaceDetectionResults_loop by exact Hlen.
    destruct (beforeFaces_log_sync now faces s) as (Hl & Hd).
    destruct (forEachFace_log_sync now faces false (beforeFaces now faces s))
      as (Hl' & Hd').
    split.
    + destruct (logExtends_trans _ _ _ Hl Hl') as (a & Ha). exists a. exact Ha.
    + intros H. apply Hd' in Hd; [ | exact H ]. exact Hd.
Qed.

Lemma handleProhibitedItemDetection_log_sync (now : Z) (item : Prediction)
    (s : State) :
  isProhibitedItem item = true ->
  eventLog (handleProhibitedItemDetection now item s)
  = eventLog s ++ [objectLogEntry now item]
  /\ displayInSync (handleProhibitedItemDetection now item s).
Proof.
  intros Hitem. unfold isProhibitedItem in Hitem.
  apply andb_true_iff in Hitem. destruct Hitem as (Hclass & _).
  rewrite prohibited_class_groups in Hclass.
  unfold isPhoneClass, isBookClass, isDeviceClass in Hclass.
  unfold handleProhibitedItemDetection, objectLogEntry, displayInSync.
  cbv zeta.
  destruct (String.eqb (class item) "cell phone");
    [ state_cbn; repeat split | ].
  destruct (String.eqb (class item) "book"); [ state_cbn; repeat split | ].
  cbn [orb] in Hclass. rewrite Hclass. state_cbn. repeat split.
Qed.

Lemma filter_Forall_isProhibitedItem (predictions : list Prediction) :
  Forall (fun item => isProhibitedItem item = true)
    (filter isProhibitedItem predictions).
Proof. apply Forall_forall. intros item Hin. apply filter_In in Hin. tauto. Qed.

Lemma processObjectDetectionResults_log (now : Z)
    (predictions : list Prediction) (s : State) :
  eventLog (processObjectDetectionResults now predictions s)
  = eventLog s
    ++ map (objectLogEntry now) (filter isProhibitedItem predictions).
Proof.
  unfold processObjectDetectionResults. cbv zeta.
  pose proof (filter_Forall_isProhibitedItem predictions) as Hall.
  revert s Hall.
  induction (filter isProhibitedItem predictions) as [ | item items IH ];
    intros s Hall.
  - cbn. now rewrite app_nil_r.
  - inversion Hall as [ | ? ? Hitem Hrest ]; subst. cbn [fold_left map].
    rewrite IH by exact Hrest.
    destruct (handleProhibitedItemDetection_log_sync now item s Hitem)
      as (Hl & _).
    rewrite Hl, <- app_assoc. reflexivity.
Qed.

(** X5. One tick of the object detector writes one log entry of severity
    "error" for each detection that passes the filter, in the order of the
    detections, and nothing else: the log after the tick is the log before
    it followed by those entries, as many as the three object counters grew
    together. *)
Theorem object_tick_logs_each_counted_detection
    (now : Z) (predictions : list Prediction) (s : State) :
  eventLog (processObjectDetectionResults now predictions s)
  = eventLog s
    ++ map (objectLogEntry now) (filter isProhibitedItem predictions)
  /\ Forall (fun entry => type entry = error)
       (map (objectLogEntry now) (filter isProhibitedItem predictions))
  /\ Z.of_nat (List.length (eventLog (processObjectDetectionResults now predictions s)))
     = Z.of_nat (List.length (eventLog s))
       + (phoneCount (processObjectDetectionResults now predictions s) - phoneCount s)
       + (bookCount (processObjectDetectionResults now predictions s) - bookCount s)
       + (deviceCount (processObjectDetectionResults now predictions s) - deviceCount s).
Proof.
  pose proof (processObjectDetectionResults_log now predictions s) as E.
  split; [ exact E | ]. split.
  - apply Forall_forall. intros entry Hin. apply in_map_iff in Hin.
    destruct Hin as (item & Hentry & _). now subst entry.
  - rewrite E, length_app, length_map.
    destruct (processObjectDetectionResults_effect now predictions s)
      as (Hp & Hb & Hd & _).
    pose proof (qualifying_total predictions). lia.
Qed.

Lemma processObjectDetectionResults_log_sync (now : Z)
    (predictions : list Prediction) (s : State) :
  logExtends s (processObjectDetectionResults now predictions s)
  /\ (displayInSync s ->
      displayInSync (processObjectDetectionResults now predictions s)).
Proof.
  split.
  - eexists. apply processObjectDetectionResults_log.
  - unfold processObjectDetectionResults. cbv zeta.
    pose proof (filter_Forall_isProhibitedItem predictions) as Hfilter.
    revert s Hfilter.
    induction (filter isProhibitedItem predictions) as [ | item items IH ];
      intros s Hall Hs; [ exact Hs | ].
    inversion Hall as [ | ? ? Hitem Hrest ]; subst. cbn [fold_left].
    apply IH; [ exact Hrest | ].
    apply handleProhibitedItemDetection_log_sync, Hitem.
Qed.

Lemma step_log_sync (s : State) (op : Op) :
  logExtends s (step s op) /\ (displayInSync s -> displayInSync (step s op)).
Proof.
  destruct op as [ now | now | now faces | now predictions | now duration ];
    cbn [step].
  - unfold startInterview, logExtends, displayInSync, integrityScore, deductions.
    cbv zeta. state_cbn. split; [ | auto ].
    eexists. rewrite <- !app_assoc. reflexivity.
  - unfold stopInterview, logExtends, displayInSync, integrityScore, deductions.
    destruct (negb (isInterviewRunning s)); cbv zeta; state_cbn;
      (split; [ | auto ]);
      first [ eexists; reflexivity | exists []; now rewrite app_nil_r ].
  - destruct (negb (isInterviewRunning s));
      [ split; [ apply logExtends_refl | auto ] | ].
    apply processFaceDetectionResults_log_sync.
  - destruct (negb (isInterviewRunning s));
      [ split; [ apply logExtends_refl | auto ] | ].
    apply processObjectDetectionResults_log_sync.
  - unfold downloadReport, logExtends, displayInSync, integrityScore, deductions.
    cbv zeta. state_cbn.
    destruct (startTime s); state_cbn; (split; [ | auto ]);
      eexists; reflexivity.
Qed.

Lemma run_log_sync (ops : list Op) :
  forall s : State,
  logExtends s (run s ops) /\ (displayInSync s -> displayInSync (run s ops)).
Proof.
  induction ops as [ | op ops IH ]; intros s.
  - split; [ apply logExtends_refl | auto ].
  - rewrite run_cons. destruct (step_log_sync s op) as (Hl & Hd).
    destruct (IH (step s op)) as (Hl' & Hd').
    split; [ exact (logExtends_trans _ _ _ Hl Hl') | auto ].
Qed.

Lemma act_logExtends (s : State) (action : Action) : logExtends s (act s action).
Proof.
  destruct action as [ op | now message | now faces | now predictions
                     | now site ]; cbn [act].
  - apply step_log_sync.
  - unfold startInterview_unrecorded, logExtends. cbv zeta. state_cbn.
    eexists. rewrite <- !app_assoc. reflexivity.
  - apply processFaceDetectionResults_log_sync.
  - apply processObjectDetectionResults_log_sync.
  - unfold logExtends. state_cbn. eexists. reflexivity.
Qed.

Lemma runActions_logExtends (actions : list Action) :
  forall s : State, logExtends s (runActions s actions).
Proof.
  induction actions as [ | action actions IH ]; intros s.
  - apply logExtends_refl.
  - cbn [runActions fold_left].
    exact (logExtends_trans _ _ _ (act_logExtends s action) (IH (act s action))).
Qed.

Lemma runActions_app (s : State) (actions more : list Action) :
  runActions s (actions ++ more) = runActions (runActions s actions) more.
Proof. unfold runActions. apply fold_left_app. Qed.

Lemma runActions_Core (s : State) (ops : list Op) :
  runActions s (map Core ops) = run s ops.
Proof.
  revert s. induction ops as [ | op ops IH ]; intros s; [ reflexivity | ].
  cbn [map runActions fold_left act]. rewrite run_cons. apply IH.
Qed.

(** X6. The event log is append-only under everything that writes to it:
    the buttons and the detection ticks, a start without recorder, the
    result of a detection in flight processed after a stop, and every other
    call of [logEvent] (page initialisation, camera refusal, recorder
    callbacks, the entries logged after the report request and after the PDF
    or its text fallback).  The log at a later moment is the log at an
    earlier moment with entries added at its end, so an entry once logged
    keeps its position and its content; the runs of [step] are among these
    runs. *)
Theorem event_log_is_append_only
    (s : State) (actions more : list Action) :
  (exists added : list LogEntry,
     eventLog (runActions s (actions ++ more))
     = eventLog (runActions s actions) ++ added)
  /\ (forall i entry,
        nth_error (eventLog (runActions s actions)) i = Some entry ->
        nth_error (eventLog (runActions s (actions ++ more))) i = Some entry)
  /\ (forall ops ops' : list Op,
        exists added : list LogEntry,
          eventLog (run s (ops ++ ops')) = eventLog (run s ops) ++ added).
Proof.
  assert (Hext : forall (t : State) (l l' : list Action),
             exists added : list LogEntry,
               eventLog (runActions t (l ++ l'))
               = eventLog (runActions t l) ++ added).
  { intros t l l'. rewrite runActions_app.
    apply (runActions_logExtends l' (runActions t l)). }
  split; [ apply Hext | ].
  split.
  - intros i entry Hi. destruct (Hext s actions more) as (added & Hadded).
    rewrite Hadded. rewrite nth_error_app1; [ exact Hi | ].
    apply nth_error_Some. rewrite Hi. discriminate.
  - intros ops ops'. rewrite <- !runActions_Core, map_app. apply Hext.
Qed.

Example failed_download_logs_after_the_request :
  map message
    (skipn 6 (eventLog (runActions initialState failedDownloadSession)))
  = ["Video recording completed and stored.";
     "Video recording downloaded.";
     "Generating and saving proctoring report...";
     "Error saving report to server. Generating local PDF...";
     "Error generating PDF. Falling back to text report.";
     "Local report downloaded successfully."]%string.
Proof. vm_compute. reflexivity. Qed.

(** X7. In every state a session can reach from the loaded page, the value
    last written to the [#score] element by [updateStatusIndicators] and the
    score label are those of the current counters (every increment of a
    counter is followed by a refresh of the indicators), all six counters
    are non-negative and the integrity score lies between 0 and 100.  The
    animation of the [.score-text] element is treated apart, in X17. *)
Theorem page_shows_current_score_between_0_and_100 (ops : list Op) :
  let s := run initialState ops in
  scoreText s = integrityScore s
  /\ scoreLabel s = updateScoreDisplay_label (integrityScore s)
  /\ 0 <= integrityScore s <= 100
  /\ 0 <= lookAwayCount s /\ 0 <= noFaceCount s /\ 0 <= multipleFacesCount s
  /\ 0 <= phoneCount s /\ 0 <= bookCount s /\ 0 <= deviceCount s.
Proof.
  intros s.
  destruct (run_log_sync ops initialState) as (_ & Hd).
  destruct Hd as (Ht & Hl); [ split; reflexivity | ].
  pose proof (run_counters_le ops initialState) as Hc.
  fold s in Ht, Hl, Hc. unfold counters_le in Hc. cbn in Hc.
  repeat split; try assumption; try lia;
    unfold integrityScore, deductions; lia.
Qed.

(** ** Continuous absence *)

Lemma noFaceFrames_first (t0 : Z) (s : State) :
  isInterviewRunning s = true ->
  noFaceStartTime s = None ->
  isInterviewRunning (step s (FaceTick t0 [])) = true
  /\ noFaceStartTime (step s (FaceTick t0 [])) = Some t0
  /\ noFaceCount (step s (FaceTick t0 [])) = noFaceCount s.
Proof.
  intros Hrun Hstart. cbn [step]. rewrite Hrun. cbn [negb].
  destruct (processFaceDetectionResults_effect t0 [] s)
    as (Hr & _ & _ & _ & _ & _ & H).
  cbn [List.length Z.of_nat Z.eqb] in H.
  destruct H as (_ & _ & _ & Hn & Hs).
  destruct (handleNoFaceDetected_effect t0 s) as (Hn0 & Ht0 & _).
  rewrite Hn0 in Hn. rewrite Ht0 in Hs. rewrite Hstart in Hn, Hs.
  rewrite Hr, Hn, Hs. auto.
Qed.

Lemma noFaceFrames_waiting (t0 : Z) (times : list Z) :
  forall s : State,
  isInterviewRunning s = true ->
  noFaceStartTime s = Some t0 ->
  (forall t, In t times -> t - t0 <= 8000) ->
  isInterviewRunning (run s (noFaceFrames times)) = true
  /\ noFaceStartTime (run s (noFaceFrames times)) = Some t0
  /\ noFaceCount (run s (noFaceFrames times)) = noFaceCount s.
Proof.
  induction times as [ | t times IH ]; intros s Hrun Hstart Hall; [ auto | ].
  cbn [noFaceFrames map]. fold (noFaceFrames times). rewrite run_cons.
  assert (H : isInterviewRunning (step s (FaceTick t [])) = true
          /\ noFaceStartTime (step s (FaceTick t [])) = Some t0
          /\ noFaceCount (step s (FaceTick t [])) = noFaceCount s).
  { cbn [step]. rewrite Hrun. cbn [negb].
    destruct (processFaceDetectionResults_effect t [] s)
      as (Hr & _ & _ & _ & _ & _ & H).
    cbn [List.length Z.of_nat Z.eqb] in H.
    destruct H as (_ & _ & _ & Hn & Hs).
    destruct (handleNoFaceDetected_effect t s) as (Hn0 & Ht0 & _).
    rewrite Hn0 in Hn. rewrite Ht0 in Hs. rewrite Hstart in Hn, Hs.
    assert (E : (8000 <? t - t0) = false).
    { apply Z.ltb_ge. apply Hall. now left. }
    rewrite E in Hn, Hs. cbn [andb] in Hn, Hs.
    rewrite Hr, Hn, Hs. auto. }
  destruct H as (Hr & Hs & Hn).
  destruct (IH (step s (FaceTick t [])) Hr Hs) as (Hr' & Hs' & Hn').
  { intros u Hu. apply Hall. now right. }
  rewrite Hr', Hs', Hn', Hn. auto.
Qed.

Lemma noFaceFrames_short_absence (t0 : Z) (times : list Z) (s : State) :
  isInterviewRunning s = true ->
  noFaceStartTime s = None ->
  (forall t, In t times -> t - t0 <= 8000) ->
  isInterviewRunning (run s (noFaceFrames (t0 :: times))) = true
  /\ noFaceCount (run s (noFaceFrames (t0 :: times))) = noFaceCount s.
Proof.
  intros Hrun Hstart Hall.
  cbn [noFaceFrames map]. fold (noFaceFrames times). rewrite run_cons.
  destruct (noFaceFrames_first t0 s Hrun Hstart) as (Hr & Hs & Hn).
  destruct (noFaceFrames_waiting t0 times _ Hr Hs Hall) as (Hr' & _ & Hn').
  rewrite Hr', Hn', Hn. auto.
Qed.

(** X9. An absence counts only if it is continuous for more than 8 seconds:
    frames without a face up to and including 8000 ms after the first of them
    leave noFaceCount where it is, and a frame with a face in between
    restarts the timer, so two absences of at most 8 seconds each, separated
    by a single frame with a face, count nothing however long they are
    together. *)
Theorem interrupted_absence_is_not_counted
    (s : State) (t0 : Z) (times : list Z) (t : Z) (faces : list Face)
    (u0 : Z) (more : list Z) :
  isInterviewRunning s = true ->
  noFaceStartTime s = None ->
  (forall x, In x times -> x - t0 <= 8000) ->
  faces <> [] ->
  (forall x, In x more -> x - u0 <= 8000) ->
  noFaceCount (run s (noFaceFrames (t0 :: times))) = noFaceCount s
  /\ noFaceCount
       (run s (noFaceFrames (t0 :: times) ++ FaceTick t faces
                 :: noFaceFrames (u0 :: more)))
     = noFaceCount s.
Proof.
  intros Hrun Hstart Htimes Hfaces Hmore.
  destruct (noFaceFrames_short_absence t0 times s Hrun Hstart Htimes)
    as (Hr1 & Hn1).
  split; [ exact Hn1 | ].
  rewrite run_app, run_cons.
  set (s1 := run s (noFaceFrames (t0 :: times))) in *.
  assert (H2 : isInterviewRunning (step s1 (FaceTick t faces)) = true
           /\ noFaceStartTime (step s1 (FaceTick t faces)) = None
           /\ noFaceCount (step s1 (FaceTick t faces)) = noFaceCount s1).
  { cbn [step]. rewrite Hr1. cbn [negb].
    destruct (processFaceDetectionResults_effect t faces s1)
      as (Hr & _ & _ & _ & _ & _ & H).
    destruct (Z.eqb_spec (Z.of_nat (List.length faces)) 0) as [ E | E ].
    - destruct faces; [ congruence | cbn in E; lia ].
    - destruct H as (_ & _ & Hn & Hs). rewrite Hr, Hn, Hs. auto. }
  destruct H2 as (Hr2 & Hs2 & Hn2).
  destruct (noFaceFrames_short_absence u0 more _ Hr2 Hs2 Hmore) as (_ & Hn3).
  rewrite Hn3, Hn2. exact Hn1.
Qed.

Lemma interrupted_absence_is_not_counted_witness :
  noFaceCount (run startedSession (noFaceFrames [1000; 5000; 9000])) = 0
  /\ noFaceCount
       (run startedSession
          (noFaceFrames [1000; 5000; 9000] ++ FaceTick 9200 [focusedFace]
             :: noFaceFrames [9400; 13000; 17400]))
     = 0.
Proof.
  apply (interrupted_absence_is_not_counted startedSession 1000 [5000; 9000]
           9200 [focusedFace] 9400 [13000; 17400]);
    try reflexivity; try discriminate.
  - intros x Hx. cbn in Hx. lia.
  - intros x Hx. cbn in Hx. lia.
Defined.

(** ** Missing landmark coordinates *)

Lemma float_of_nan (x : float) : Prim2SF x = S754_nan -> x = nan.
Proof. intros H. rewrite <- (SF2Prim_Prim2SF x), H. reflexivity. Qed.

Lemma add_nan_r (x : float) : (x + nan)%float = nan.
Proof.
  apply float_of_nan. rewrite add_spec. change (Prim2SF nan) with S754_nan.
  destruct (Prim2SF x) as [ [ | ] | [ | ] | | ]; reflexivity.
Qed.

Lemma add_nan_l (x : float) : (nan + x)%float = nan.
Proof. apply float_of_nan. rewrite add_spec. reflexivity. Qed.

Lemma sub_nan_r (x : float) : (x - nan)%float = nan.
Proof.
  apply float_of_nan. rewrite sub_spec. change (Prim2SF nan) with S754_nan.
  destruct (Prim2SF x) as [ [ | ] | [ | ] | | ]; reflexivity.
Qed.

Lemma sub_nan_l (x : float) : (nan - x)%float = nan.
Proof. apply float_of_nan. rewrite sub_spec. reflexivity. Qed.

Lemma div_nan_l (x : float) : (nan / x)%float = nan.
Proof. apply float_of_nan. rewrite div_spec. reflexivity. Qed.

Lemma ltb_nan_r (x : float) : (x <? nan)%float = false.
Proof.
  rewrite ltb_spec. change (Prim2SF nan) with S754_nan.
  destruct (Prim2SF x) as [ [ | ] | [ | ] | | [ | ] ]; reflexivity.
Qed.

Lemma ltb_nan_l (x : float) : (nan <? x)%float = false.
Proof. rewrite ltb_spec. reflexivity. Qed.

Lemma compare_nan_r (x : float) : (x ?= nan)%float = FNotComparable.
Proof.
  rewrite compare_spec. change (Prim2SF nan) with S754_nan.
  destruct (Prim2SF x) as [ [ | ] | [ | ] | | [ | ] ]; reflexivity.
Qed.

Lemma compare_nan_l (x : float) : (nan ?= x)%float = FNotComparable.
Proof. rewrite compare_spec. reflexivity. Qed.

Lemma idx_out_of_range (a : list float) (i : nat) :
  (List.length a <= i)%nat -> JS.idx a i = nan.
Proof. intros H. unfold JS.idx. now apply nth_overflow. Qed.

(** A normalized distance that is NaN makes the frame "not looking away". *)
Lemma isLookingAway_nan (face : Face) :
  Gaze.normalizedRightDistance face = nan
  \/ Gaze.normalizedLeftDistance face = nan ->
  Gaze.isLookingAway face = false.
Proof.
  unfold Gaze.isLookingAway, Gaze.eyeDistanceRatio, JS.gt, JS.lt, JS.Math_min,
    JS.Math_max.
  intros [ H | H ]; rewrite H.
  - rewrite ltb_nan_r, compare_nan_l, div_nan_l, ltb_nan_l. reflexivity.
  - rewrite ltb_nan_r, compare_nan_r, div_nan_l, ltb_nan_l.
    now rewrite andb_false_r.
Qed.

Lemma incompleteLandmarks_not_looking_away (face : Face) :
  incompleteLandmarks face -> Gaze.isLookingAway face = false.
Proof.
  intros [ H | [ H | H ] ]; apply isLookingAway_nan.
  - left. unfold Gaze.normalizedRightDistance, Gaze.rightEyeDistance,
      Gaze.rightEyeCenter_x, JS.Math_abs.
    rewrite (idx_out_of_range (rightEye face) 4) by lia.
    rewrite add_nan_r, div_nan_l, sub_nan_l. apply div_nan_l.
  - right. unfold Gaze.normalizedLeftDistance, Gaze.leftEyeDistance,
      Gaze.leftEyeCenter_x, JS.Math_abs.
    rewrite (idx_out_of_range (leftEye face) 4) by lia.
    rewrite add_nan_r, div_nan_l, sub_nan_l. apply div_nan_l.
  - left. unfold Gaze.normalizedRightDistance, Gaze.rightEyeDistance,
      JS.Math_abs.
    rewrite H. change (JS.idx [] 0) with nan.
    rewrite sub_nan_r. apply div_nan_l.
Qed.

Lemma lookingAwayFrames_push_false (history : list bool) :
  lookingAwayFrames history = 0 ->
  lookingAwayFrames (pushGazeSample false history) = 0.
Proof.
  unfold lookingAwayFrames, pushGazeSample. intros H.
  assert (E : filter (fun val : bool => val) (history ++ [false])
              = filter (fun val : bool => val) history).
  { rewrite filter_app. cbn. apply app_nil_r. }
  destruct (Z.of_nat (List.length (history ++ [false])) >? GAZE_HISTORY_LENGTH).
  - rewrite <- E in H. destruct (history ++ [false]) as [ | [ | ] l ];
      cbn [tl filter List.length] in *; lia.
  - now rewrite E.
Qed.

Lemma forEachFace_never_looking_away (now : Z) (faces : list Face) :
  (forall face, In face faces -> Gaze.isLookingAway face = false) ->
  forall (b : bool) (s : State),
  lookingAwayFrames (gazeDirectionHistory s) = 0 ->
  lookAwayCount (snd (forEachFace now faces b s)) = lookAwayCount s
  /\ lookingAwayFrames (gazeDirectionHistory (snd (forEachFace now faces b s))) = 0.
Proof.
  induction faces as [ | face faces IH ]; intros Hall b s Hs; [ cbn; auto | ].
  cbn [forEachFace].
  destruct (checkGazeDirection_effect face now s) as (Hh & He & _).
  set (r1 := checkGazeDirection face now s) in *.
  rewrite (Hall face (or_introl eq_refl)) in Hh, He.
  pose proof (lookingAwayFrames_push_false _ Hs) as Hpush.
  rewrite episodeNext_idle in He
    by (rewrite isConsistentlyLookingAway_frames, Hpush; reflexivity).
  apply pair_equal_spec in He. destruct He as (_ & Hc).
  destruct (IH (fun f Hf => Hall f (or_intror Hf))
              (if fst r1 then true else b) (snd r1)) as (Hc' & Hh');
    [ now rewrite Hh | ].
  rewrite Hc', Hc. auto.
Qed.

Lemma step_never_looking_away (s : State) (op : Op) :
  (forall face, In face (facesOfOp op) -> Gaze.isLookingAway face = false) ->
  lookingAwayFrames (gazeDirectionHistory s) = 0 ->
  lookAwayCount (step s op) = lookAwayCount s
  /\ lookingAwayFrames (gazeDirectionHistory (step s op)) = 0.
Proof.
  intros Hall Hs.
  destruct op as [ now | now | now faces | now predictions | now duration ];
    cbn [step].
  - destruct (startInterview_effect now s) as (Hc & _ & _ & _ & _ & _ & Hh & _).
    now rewrite Hc, Hh.
  - destruct (stopInterview_effect now s) as (Hc & _ & _ & _ & _ & _ & Hh & _).
    now rewrite Hc, Hh.
  - destruct (negb (isInterviewRunning s)); [ auto | ].
    destruct (Z.of_nat (List.length faces) =? 0) eqn:Hlen.
    + apply length_zero_nil in Hlen. subst faces.
      destruct (processFaceDetectionResults_no_face now s) as (Hc & _).
      destruct (processFaceDetectionResults_effect now [] s)
        as (_ & _ & _ & _ & _ & _ & H).
      cbn [List.length Z.of_nat Z.eqb] in H. destruct H as (Hh & _).
      rewrite Hc, Hh. auto.
    + destruct (processFaceDetectionResults_faces now faces s Hlen)
        as (s3 & Hc & _ & Hh & Hs').
      rewrite Hs'. state_cbn.
      destruct (forEachFace_never_looking_away now faces Hall false s3)
        as (Hc' & Hh'); [ now rewrite Hh | ].
      rewrite Hc', Hc. auto.
  - destruct (negb (isInterviewRunning s)); [ auto | ].
    destruct (processObjectDetectionResults_effect now predictions s)
      as (_ & _ & _ & Hc & _ & _ & _ & _ & Hh).
    now rewrite Hc, Hh.
  - destruct (downloadReport_effect now duration s)
      as (Hc & _ & _ & _ & _ & _ & Hh & _).
    now rewrite Hc, Hh.
Qed.

Lemma run_never_looking_away (ops : list Op) :
  (forall op face, In op ops -> In face (facesOfOp op) ->
                   Gaze.isLookingAway face = false) ->
  forall s : State,
  lookingAwayFrames (gazeDirectionHistory s) = 0 ->
  lookAwayCount (run s ops) = lookAwayCount s.
Proof.
  induction ops as [ | op ops IH ]; intros Hall s Hs; [ reflexivity | ].
  rewrite run_cons.
  destruct (step_never_looking_away s op) as (Hc & Hh);
    [ intros face Hf; apply (Hall op face); [ now left | exact Hf ] | exact Hs | ].
  rewrite IH; [ exact Hc | | exact Hh ].
  intros op' face Hop Hf. apply (Hall op' face); [ now right | exact Hf ].
Qed.

Example pointLandmarksFace_is_never_looking_away :
  Gaze.rightEyeCenter_x pointLandmarksFace = nan
  /\ Gaze.isLookingAway pointLandmarksFace = false.
Proof. split; reflexivity. Qed.

(** X10. A face one of whose landmarks lacks a number the classifier reads
    (an eye array of fewer than five numbers, such as a single [x, y] point,
    or an empty nose array) is never classified as looking away: the missing
    number makes the eye centre NaN and every comparison false.  A session in
    which every detected face is of that kind never counts a look-away
    violation, whatever the faces show and however long it lasts. *)
Theorem incomplete_landmarks_never_look_away :
  (forall face : Face,
     incompleteLandmarks face -> Gaze.isLookingAway face = false)
  /\ (forall ops : list Op,
        (forall op face, In op ops -> In face (facesOfOp op) ->
                         incompleteLandmarks face) ->
        lookAwayCount (run initialState ops) = 0).
Proof.
  split; [ exact incompleteLandmarks_not_looking_away | ].
  intros ops Hall.
  rewrite run_never_looking_away; [ reflexivity | | reflexivity ].
  intros op face Hop Hf.
  apply incompleteLandmarks_not_looking_away, (Hall op face Hop Hf).
Qed.

Lemma incomplete_landmarks_never_look_away_witness :
  Gaze.isLookingAway pointLandmarksFace = false
  /\ lookAwayCount
       (run initialState
          (StartInterview 0 :: sustainedFrames pointLandmarksFace 200 30))
     = 0.
Proof.
  destruct incomplete_landmarks_never_look_away as (Hface & Hrun).
  split.
  - apply Hface. left. cbn. lia.
  - apply Hrun. intros op face Hop Hf.
    assert (Hface' : face = pointLandmarksFace).
    { cbn in Hop.
      repeat (destruct Hop as [ Hop | Hop ];
              [ subst op; cbn in Hf;
                first [ contradiction
                      | destruct Hf as [ Hf | Hf ];
                        [ symmetry; exact Hf | contradiction ] ]
              | ]).
      contradiction. }
    subst face. left. cbn. lia.
Defined.

(** * Properties of the report store *)

Lemma append_nonempty_r (a b : string) : b <> ""%string -> (a ++ b)%string <> ""%string.
Proof. destruct a; cbn; [ auto | discriminate ]. Qed.

Lemma toISOString_nonempty (ms : Z) : JS.toISOString ms <> ""%string.
Proof.
  unfold JS.toISOString.
  destruct (JS.civil_from_days (ms / 86400000)) as ((y & m) & d).
  apply append_nonempty_r. discriminate.
Qed.

Lemma or_string_nonempty (a : option string) (d : string) :
  d <> ""%string -> JS.or_string a d <> ""%string.
Proof.
  intros Hd. unfold JS.or_string. destruct a as [ s | ]; [ | exact Hd ].
  destruct (String.eqb_spec s ""); assumption.
Qed.

Lemma or_json_truthy (a : option Json) (d : Json) :
  truthy d = true -> truthy (or_json a d) = true.
Proof.
  intros Hd. unfold or_json. destruct a as [ v | ]; [ | exact Hd ].
  destruct (truthy v) eqn:Hv; assumption.
Qed.

Lemma or_json_kept (a : option Json) (d v : Json) :
  a = Some v -> truthy v = true -> or_json a d = v.
Proof. intros -> Hv. unfold or_json. now rewrite Hv. Qed.

Lemma or_json_default (a : option Json) (d : Json) :
  (forall v, a = Some v -> truthy v = false) -> or_json a d = d.
Proof.
  intros H. unfold or_json. destruct a as [ v | ]; [ | reflexivity ].
  now rewrite (H v eq_refl).
Qed.

Lemma truthy_JString_toISOString (ms : Z) :
  truthy (JString (JS.toISOString ms)) = true.
Proof.
  cbn [truthy]. destruct (String.eqb_spec (JS.toISOString ms) "");
    [ | reflexivity ].
  now destruct (toISOString_nonempty ms).
Qed.

(** X11. Whatever value the parsed request body is (an object with fields
    of any type, missing fields, an array), the record the endpoint stores
    has only truthy fields: none is null, false, the number 0, NaN or the
    empty string, so the stored integrity score is never the number 0.  A
    field sent with a truthy value is stored as sent, whatever its type (the
    string "0", an empty array); a field absent or sent with a falsy value
    gets the default of the handler, 100 for the score.  Only a null body,
    whose destructuring throws, stores nothing. *)
Theorem stored_report_never_has_score_zero
    (id : string) (serverNow : Z) (body : Json) :
  match postReportJson id serverNow body with
  | None => body = JNull
  | Some r =>
      stored_id r = id
      /\ (truthy (stored_candidateName r) = true
          /\ truthy (stored_interviewDuration r) = true
          /\ truthy (stored_startTime r) = true
          /\ truthy (stored_endTime r) = true
          /\ truthy (stored_focusIssues r) = true
          /\ truthy (stored_prohibitedItems r) = true
          /\ truthy (stored_integrityScore r) = true
          /\ truthy (stored_events r) = true)
      /\ stored_integrityScore r <> JNumber 0
      /\ (forall v, truthy v = true ->
            (property "candidateName" body = Some v ->
             stored_candidateName r = v)
            /\ (property "interviewDuration" body = Some v ->
                stored_interviewDuration r = v)
            /\ (property "startTime" body = Some v -> stored_startTime r = v)
            /\ (property "endTime" body = Some v -> stored_endTime r = v)
            /\ (property "focusIssues" body = Some v ->
                stored_focusIssues r = v)
            /\ (property "prohibitedItems" body = Some v ->
                stored_prohibitedItems r = v)
            /\ (property "integrityScore" body = Some v ->
                stored_integrityScore r = v)
            /\ (property "events" body = Some v -> stored_events r = v))
      /\ ((forall v, property "integrityScore" body = Some v ->
                     truthy v = false) ->
          stored_integrityScore r = JNumber 100)
      /\ ((forall v, property "candidateName" body = Some v ->
                     truthy v = false) ->
          stored_candidateName r = JString "Test Candidate")
      /\ ((forall v, property "events" body = Some v -> truthy v = false) ->
          stored_events r = JArray [])
  end.
Proof.
  assert (Hbuilt : forall b : Json,
    let r :=
      {| stored_id := id;
         stored_timestamp := JS.toISOString serverNow;
         stored_candidateName :=
           or_json (property "candidateName" b) (JString "Test Candidate");
         stored_interviewDuration :=
           or_json (property "interviewDuration" b) (JString "00:00:00");
         stored_startTime :=
           or_json (property "startTime" b)
             (JString (JS.toISOString serverNow));
         stored_endTime :=
           or_json (property "endTime" b)
             (JString (JS.toISOString serverNow));
         stored_focusIssues :=
           or_json (property "focusIssues" b)
             (JObject [("lookAwayCount", JNumber 0);
                       ("noFaceCount", JNumber 0);
                       ("multipleFacesCount", JNumber 0)]%string);
         stored_prohibitedItems :=
           or_json (property "prohibitedItems" b)
             (JObject [("phonesDetected", JNumber 0);
                       ("booksDetected", JNumber 0);
                       ("devicesDetected", JNumber 0)]%string);
         stored_integrityScore :=
           or_json (property "integrityScore" b) (JNumber 100);
         stored_events := or_json (property "events" b) (JArray []) |} in
    stored_id r = id
    /\ (truthy (stored_candidateName r) = true
        /\ truthy (stored_interviewDuration r) = true
        /\ truthy (stored_startTime r) = true
        /\ truthy (stored_endTime r) = true
        /\ truthy (stored_focusIssues r) = true
        /\ truthy (stored_prohibitedItems r) = true
        /\ truthy (stored_integrityScore r) = true
        /\ truthy (stored_events r) = true)
    /\ stored_integrityScore r <> JNumber 0
    /\ (forall v, truthy v = true ->
          (property "candidateName" b = Some v -> stored_candidateName r = v)
          /\ (property "interviewDuration" b = Some v ->
              stored_interviewDuration r = v)
          /\ (property "startTime" b = Some v -> stored_startTime r = v)
          /\ (property "endTime" b = Some v -> stored_endTime r = v)
          /\ (property "focusIssues" b = Some v -> stored_focusIssues r = v)
          /\ (property "prohibitedItems" b = Some v ->
              stored_prohibitedItems r = v)
          /\ (property "integrityScore" b = Some v ->
              stored_integrityScore r = v)
          /\ (property "events" b = Some v -> stored_events r = v))
    /\ ((forall v, property "integrityScore" b = Some v -> truthy v = false) ->
        stored_integrityScore r = JNumber 100)
    /\ ((forall v, property "candidateName" b = Some v -> truthy v = false) ->
        stored_candidateName r = JString "Test Candidate")
    /\ ((forall v, property "events" b = Some v -> truthy v = false) ->
        stored_events r = JArray [])).
  { intros b r. subst r.
    cbn [stored_id stored_candidateName stored_interviewDuration
         stored_startTime stored_endTime stored_focusIssues
         stored_prohibitedItems stored_integrityScore stored_events].
    assert (Hscore : truthy (or_json (property "integrityScore" b)
                               (JNumber 100)) = true)
      by (apply or_json_truthy; reflexivity).
    split; [ reflexivity | ].
    split.
    { repeat split; try exact Hscore;
        apply or_json_truthy;
        first [ reflexivity | apply truthy_JString_toISOString ]. }
    split.
    { intros H0. rewrite H0 in Hscore. discriminate Hscore. }
    split.
    { intros v Hv. repeat split; intros Hp; exact (or_json_kept _ _ v Hp Hv). }
    repeat split; intros H; now apply or_json_default. }
  destruct body; cbn [postReportJson]; first [ reflexivity | apply Hbuilt ].
Qed.

Example untyped_fields_are_stored_as_sent :
  option_map
    (fun r => (stored_integrityScore r, stored_candidateName r, stored_events r))
    (postReportJson "r1" 60500 untypedBody)
  = Some (JString "0", JArray [], JArray []).
Proof. reflexivity. Qed.

Example number_zero_score_is_stored_as_100 :
  option_map stored_integrityScore
    (postReportJson "r1" 60500
       (JObject [("integrityScore", JNumber 0)]%string))
  = Some (JNumber 100).
Proof. reflexivity. Qed.

Lemma truthy_jsonOfZ (z : Z) :
  (0 <= z <= 100)%Z -> truthy (jsonOfZ z) = negb (z =? 0)%Z.
Proof.
  intros Hz.
  assert (Hall : forallb
                   (fun n => Bool.eqb (truthy (jsonOfZ (Z.of_nat n)))
                               (negb (Z.of_nat n =? 0)%Z))
                   (seq 0 101) = true) by (vm_compute; reflexivity).
  rewrite forallb_forall in Hall.
  specialize (Hall (Z.to_nat z)).
  rewrite Z2Nat.id in Hall by lia.
  apply Bool.eqb_prop, Hall, in_seq. lia.
Qed.

(** On the body [downloadReport] sends, the endpoint on parsed values stores
    the record the typed endpoint [postReport] stores. *)
Lemma postReportJson_of_report_data
    (id : string) (serverNow : Z) (d : ReportData) :
  (0 <= data_integrityScore d <= 100)%Z ->
  postReportJson id serverNow (jsonOfReportData d)
  = Some (storedOfReport (postReport id serverNow (bodyOfReportData d))).
Proof.
  intros Hscore.
  unfold postReportJson, jsonOfReportData, storedOfReport, postReport,
    bodyOfReportData.
  cbn [property find fst snd String.eqb Ascii.eqb Bool.eqb option_map
       body_candidateName body_interviewDuration body_startTime body_endTime
       body_focusIssues body_prohibitedItems body_integrityScore body_events
       report_id report_timestamp report_candidateName
       report_interviewDuration report_startTime report_endTime
       report_focusIssues report_prohibitedItems report_integrityScore
       report_events JS.or_object].
  assert (Hstr : forall s dflt : string,
             or_json (Some (JString s)) (JString dflt)
             = JString (JS.or_string (Some s) dflt)).
  { intros s dflt. unfold or_json, JS.or_string. cbn [truthy].
    destruct (String.eqb s ""); reflexivity. }
  assert (Hnum : or_json (Some (jsonOfZ (data_integrityScore d))) (JNumber 100)
                 = jsonOfZ (JS.or_number (Some (data_integrityScore d)) 100)).
  { unfold or_json, JS.or_number. rewrite (truthy_jsonOfZ _ Hscore).
    destruct (data_integrityScore d =? 0)%Z; reflexivity. }
  rewrite !Hstr, Hnum. reflexivity.
Qed.

Lemma findReport_app (id : string) (rs more : list Report) :
  findReport id (rs ++ more)
  = match findReport id rs with
    | Some r => Some r
    | None => findReport id more
    end.
Proof.
  unfold findReport. induction rs as [ | r rs IH ]; [ reflexivity | ].
  cbn [app find]. destruct (String.eqb (report_id r) id); [ reflexivity | exact IH ].
Qed.

(** X12. A report posted under an id can be read back by that id: the get
    answers 200 with the stored record, unless an earlier report already has
    the id, in which case the get keeps answering that earlier report; the
    answers for every other id are unchanged, the post answers 201 with the
    id, and the health count grows by one. *)
Theorem posted_report_is_read_back_by_id
    (id : string) (serverNow : Z) (body : RequestBody) (srv : Server) :
  let srv' := fst (handlePostReport id serverNow body srv) in
  snd (handlePostReport id serverNow body srv) = (201, id)
  /\ handleGetReport id srv'
     = (200,
        Some (match findReport id (reports srv) with
              | Some earlier => earlier
              | None => postReport id serverNow body
              end))
  /\ (forall other, other <> id ->
        handleGetReport other srv' = handleGetReport other srv)
  /\ healthReportsCount srv' = healthReportsCount srv + 1
  /\ readFile (reportFileName id) (reportFiles srv')
     = Some (postReport id serverNow body).
Proof.
  intros srv'. subst srv'. unfold handlePostReport, handleGetReport,
    healthReportsCount.
  cbn [fst snd reports reportFiles]. split; [ reflexivity | ].
  split; [ | split; [ | split ] ].
  - rewrite findReport_app. destruct (findReport id (reports srv));
      [ reflexivity | ].
    unfold findReport. cbn [find postReport report_id].
    now rewrite String.eqb_refl.
  - intros other Hother. rewrite findReport_app.
    destruct (findReport other (reports srv)); [ reflexivity | ].
    unfold findReport. cbn [find postReport report_id].
    destruct (String.eqb_spec id other); [ congruence | reflexivity ].
  - rewrite length_app. cbn [List.length]. lia.
  - induction (reportFiles srv) as [ | (n & r') files IH ]; cbn [writeFile readFile].
    + now rewrite String.eqb_refl.
    + destruct (String.eqb n (reportFileName id)) eqn:E; cbn [readFile].
      * now rewrite String.eqb_refl.
      * rewrite E. exact IH.
Qed.

Lemma findReport_splice_other (id other : string) (rs : list Report) :
  other <> id ->
  findReport other (spliceReport id rs) = findReport other rs.
Proof.
  intros Hother. unfold findReport.
  induction rs as [ | r rs IH ]; [ reflexivity | ].
  cbn [spliceReport find].
  destruct (String.eqb_spec (report_id r) id) as [ E | E ].
  - destruct (String.eqb_spec (report_id r) other); [ congruence | reflexivity ].
  - cbn [find]. destruct (String.eqb (report_id r) other); [ reflexivity | exact IH ].
Qed.

Lemma findReport_In (id : string) (rs : list Report) (r : Report) :
  findReport id rs = Some r -> In r rs /\ report_id r = id.
Proof.
  unfold findReport. intros H. apply find_some in H.
  destruct H as (Hin & He). apply String.eqb_eq in He. auto.
Qed.

Lemma findReport_None (id : string) (rs : list Report) :
  findReport id rs = None <-> ~ In id (map report_id rs).
Proof.
  unfold findReport. split.
  - intros H Hin. apply in_map_iff in Hin. destruct Hin as (r & Hr & Hin).
    pose proof (find_none _ _ H r Hin) as Hn. cbn in Hn.
    rewrite Hr, String.eqb_refl in Hn. discriminate.
  - intros H. destruct (find _ rs) as [ r | ] eqn:E; [ | reflexivity ].
    exfalso. apply H. apply find_some in E. destruct E as (Hin & He).
    apply String.eqb_eq in He. subst id. now apply in_map.
Qed.

Lemma spliceReport_length (id : string) (rs : list Report) :
  Z.of_nat (List.length (spliceReport id rs))
  = Z.of_nat (List.length rs)
    - (match findReport id rs with Some _ => 1 | None => 0 end).
Proof.
  unfold findReport. induction rs as [ | r rs IH ]; [ reflexivity | ].
  cbn [spliceReport find]. destruct (String.eqb (report_id r) id).
  - cbn [List.length]. lia.
  - cbn [List.length]. lia.
Qed.

Lemma spliceReport_ids (id : string) (rs : list Report) :
  NoDup (map report_id rs) ->
  NoDup (map report_id (spliceReport id rs))
  /\ (forall x, In x (map report_id (spliceReport id rs)) ->
                In x (map report_id rs) /\ x <> id).
Proof.
  induction rs as [ | r rs IH ]; intros Hnd; cbn [spliceReport map].
  - split; [ constructor | intros x [] ].
  - inversion Hnd as [ | ? ? Hnotin Hrest ]; subst.
    destruct (String.eqb_spec (report_id r) id) as [ E | E ].
    + split; [ exact Hrest | ]. intros x Hx. split; [ now right | ].
      intros Hxid. subst x. congruence.
    + destruct (IH Hrest) as (Hnd' & Hsub). cbn [map]. split.
      * constructor; [ | exact Hnd' ]. intros Hin. apply Hsub in Hin. tauto.
      * intros x [ Hx | Hx ]; [ subst x; split; [ now left | exact E ] | ].
        apply Hsub in Hx. destruct Hx as (Hx & Hne). split; [ now right | exact Hne ].
Qed.

(** X13. Deleting an id that no report has answers 404 and leaves the server
    as it is.  Deleting an id that a report has answers 200 and removes the
    first report with that id and nothing else: the health count drops by
    one and the answers for every other id are unchanged; when the ids of the
    stored reports are distinct, a get of the deleted id then answers 404. *)
Theorem delete_removes_one_report (id : string) (srv : Server) :
  let srv' := fst (handleDeleteReport id srv) in
  let status := snd (handleDeleteReport id srv) in
  status = (match findReport id (reports srv) with Some _ => 200 | None => 404 end)
  /\ (findReport id (reports srv) = None -> srv' = srv)
  /\ healthReportsCount srv'
     = healthReportsCount srv
       - (match findReport id (reports srv) with Some _ => 1 | None => 0 end)
  /\ (forall other, other <> id ->
        handleGetReport other srv' = handleGetReport other srv)
  /\ (NoDup (map report_id (reports srv)) ->
      handleGetReport id srv' = (404, None)).
Proof.
  intros srv' status. subst srv' status.
  unfold handleDeleteReport, handleGetReport, healthReportsCount.
  destruct (findReport id (reports srv)) as [ r | ] eqn:Hfind;
    cbn [fst snd reports].
  - split; [ reflexivity | ]. split; [ discriminate | ].
    split; [ rewrite spliceReport_length, Hfind; reflexivity | ].
    split.
    + intros other Hother. now rewrite findReport_splice_other.
    + intros Hnd. destruct (spliceReport_ids id (reports srv) Hnd) as (_ & Hsub).
      assert (E : findReport id (spliceReport id (reports srv)) = None).
      { apply findReport_None. intros Hin. apply Hsub in Hin. tauto. }
      now rewrite E.
  - repeat split; try reflexivity; try lia. intros _. now rewrite Hfind.
Qed.

Lemma delete_removes_one_report_witness :
  let srv :=
    serveAll emptyServer
      [PostReport "a" 1000 emptyBody; PostReport "b" 2000 emptyBody] in
  fst (handleDeleteReport "c" srv) = srv
  /\ handleGetReport "a" (fst (handleDeleteReport "a" srv)) = (404, None).
Proof.
  intros srv.
  destruct (delete_removes_one_report "c" srv) as (_ & Hmissing & _).
  destruct (delete_removes_one_report "a" srv) as (_ & _ & _ & _ & Hgone).
  split.
  - apply Hmissing. reflexivity.
  - apply Hgone. change (NoDup ["a"; "b"]%string).
    constructor; [ intros [ H | [] ]; discriminate | ].
    constructor; [ intros [] | constructor ].
Defined.

(** ** The reports directory mirrors the array *)

Lemma string_length_append (a b : string) :
  String.length (a ++ b) = (String.length a + String.length b)%nat.
Proof. induction a as [ | c a IH ]; cbn; [ reflexivity | now rewrite IH ]. Qed.

Lemma string_app_inv_tail (a b t : string) :
  (a ++ t)%string = (b ++ t)%string -> a = b.
Proof.
  revert b. induction a as [ | c a IH ]; intros [ | d b ] H; cbn in H.
  - reflexivity.
  - apply (f_equal String.length) in H. cbn in H.
    rewrite string_length_append in H. lia.
  - apply (f_equal String.length) in H. cbn in H.
    rewrite string_length_append in H. lia.
  - injection H as Hc H. subst d. f_equal. now apply IH.
Qed.

Lemma reportFileName_inj (a b : string) :
  reportFileName a = reportFileName b -> a = b.
Proof.
  unfold reportFileName. cbn [append]. intros H. injection H as H.
  now apply string_app_inv_tail in H.
Qed.

Lemma reportFileName_eqb (a b : string) :
  String.eqb (reportFileName a) (reportFileName b) = String.eqb a b.
Proof.
  destruct (String.eqb_spec a b) as [ E | E ].
  - subst b. apply String.eqb_refl.
  - apply String.eqb_neq. intros H. apply E, reportFileName_inj, H.
Qed.

Lemma substring_skip (a s : string) (n m : nat) :
  substring (String.length a + n) m (a ++ s) = substring n m s.
Proof. induction a as [ | c a IH ]; cbn; [ reflexivity | exact IH ]. Qed.

Lemma substring_all (s : string) : substring 0 (String.length s) s = s.
Proof. induction s as [ | c s IH ]; cbn; [ reflexivity | now rewrite IH ]. Qed.

Lemma endsWith_append (a suffix : string) : endsWith (a ++ suffix) suffix = true.
Proof.
  unfold endsWith. rewrite string_length_append.
  apply andb_true_iff. split; [ apply Nat.leb_le; lia | ].
  replace (String.length a + String.length suffix - String.length suffix)%nat
    with (String.length a + 0)%nat by lia.
  rewrite substring_skip, substring_all. apply String.eqb_refl.
Qed.

Lemma endsWith_reportFileName (id : string) :
  endsWith (reportFileName id) ".json" = true.
Proof.
  unfold reportFileName.
  assert (E : ("report-" ++ id ++ ".json")%string
              = (("report-" ++ id) ++ ".json")%string) by reflexivity.
  rewrite E. apply endsWith_append.
Qed.

Lemma readFile_None (name : string) (files : list (string * Report)) :
  readFile name files = None <-> ~ In name (map fst files).
Proof.
  induction files as [ | (n & r) files IH ]; cbn [readFile map fst In].
  - tauto.
  - destruct (String.eqb_spec n name) as [ E | E ].
    + split; [ discriminate | ]. intros H. exfalso. apply H. now left.
    + rewrite IH. tauto.
Qed.

Lemma writeFile_absent (name : string) (r : Report)
    (files : list (string * Report)) :
  readFile name files = None -> writeFile name r files = files ++ [(name, r)].
Proof.
  induction files as [ | (n & r') files IH ]; cbn [readFile writeFile app];
    [ reflexivity | ].
  destruct (String.eqb n name); [ discriminate | ].
  intros H. now rewrite IH.
Qed.

Lemma readFile_app (name : string) (files more : list (string * Report)) :
  readFile name (files ++ more)
  = match readFile name files with
    | Some r => Some r
    | None => readFile name more
    end.
Proof.
  induction files as [ | (n & r) files IH ]; cbn [app readFile]; [ reflexivity | ].
  destruct (String.eqb n name); [ reflexivity | exact IH ].
Qed.

Lemma unlinkFile_spec (name : string) (files : list (string * Report)) :
  NoDup (map fst files) ->
  NoDup (map fst (unlinkFile name files))
  /\ (forall x, In x (unlinkFile name files) -> In x files)
  /\ readFile name (unlinkFile name files) = None
  /\ (forall other, other <> name ->
        readFile other (unlinkFile name files) = readFile other files)
  /\ Z.of_nat (List.length (unlinkFile name files))
     = Z.of_nat (List.length files)
       - (match readFile name files with Some _ => 1 | None => 0 end).
Proof.
  induction files as [ | (n & r) files IH ]; intros Hnd;
    cbn [unlinkFile readFile map fst List.length].
  - repeat split; auto using NoDup_nil.
  - cbn [map fst] in Hnd. inversion Hnd as [ | ? ? Hnotin Hrest ]; subst.
    destruct (String.eqb_spec n name) as [ E | E ].
    + subst n. split; [ exact Hrest | ]. split; [ intros x Hx; now right | ].
      split; [ now apply readFile_None | ]. split; [ | lia ].
      intros other Hother.
      destruct (String.eqb_spec name other); [ congruence | reflexivity ].
    + destruct (IH Hrest) as (Hnd' & Hsub & Hnone & Hother & Hlen).
      cbn [map fst readFile List.length].
      split.
      { constructor; [ | exact Hnd' ]. intros Hin. apply Hnotin.
        apply in_map_iff in Hin. destruct Hin as (x & Hx & Hin).
        apply in_map_iff. exists x. split; [ exact Hx | apply Hsub, Hin ]. }
      split.
      { intros x [ Hx | Hx ]; [ now left | right; apply Hsub, Hx ]. }
      split.
      { destruct (String.eqb_spec n name); [ congruence | exact Hnone ]. }
      split; [ | lia ].
      intros other Ho. destruct (String.eqb n other); [ reflexivity | ].
      apply Hother, Ho.
Qed.

Lemma NoDup_snoc {A : Type} (l : list A) (x : A) :
  NoDup l -> ~ In x l -> NoDup (l ++ [x]).
Proof.
  induction l as [ | a l IH ]; intros Hnd Hx; cbn [app].
  - constructor; [ intros [] | constructor ].
  - inversion Hnd as [ | ? ? Ha Hl ]; subst. constructor.
    + intros Hin. apply in_app_or in Hin. destruct Hin as [ Hin | [ Hin | [] ] ].
      * contradiction.
      * subst a. apply Hx. now left.
    + apply IH; [ exact Hl | ]. intros Hin. apply Hx. now right.
Qed.

Lemma handlePostReport_invariant (ids : list string) (id : string)
    (serverNow : Z) (body : RequestBody) (srv : Server) :
  storeInvariant ids srv ->
  ~ In id ids ->
  storeInvariant (id :: ids) (fst (handlePostReport id serverNow body srv)).
Proof.
  intros (Hnd & Hids & Hnames & Hall & Hlen & Hfile) Hfresh.
  assert (Hnone : findReport id (reports srv) = None).
  { apply findReport_None. intros Hin. apply Hfresh, Hids, Hin. }
  assert (Habsent : readFile (reportFileName id) (reportFiles srv) = None)
    by (now rewrite Hfile).
  unfold storeInvariant, handlePostReport. cbn [fst reports reportFiles].
  rewrite writeFile_absent by exact Habsent.
  rewrite !map_app. cbn [map fst]. change (report_id (postReport id serverNow body)) with id.
  split; [ apply NoDup_snoc; [ exact Hnd | now apply findReport_None ] | ].
  split.
  { intros x Hx. apply in_app_or in Hx. destruct Hx as [ Hx | [ Hx | [] ] ].
    - right. apply Hids, Hx.
    - now left. }
  split; [ apply NoDup_snoc; [ exact Hnames | now apply readFile_None ] | ].
  split.
  { apply Forall_app. split; [ exact Hall | ]. constructor; [ reflexivity | constructor ]. }
  split; [ rewrite !length_app; cbn [List.length]; lia | ].
  intros other. rewrite readFile_app, findReport_app, Hfile.
  destruct (findReport other (reports srv)); [ reflexivity | ].
  unfold findReport. cbn [readFile find]. rewrite reportFileName_eqb.
  change (report_id (postReport id serverNow body)) with id.
  destruct (String.eqb id other); reflexivity.
Qed.

Lemma handleDeleteReport_invariant (ids : list string) (id : string)
    (srv : Server) :
  storeInvariant ids srv ->
  storeInvariant ids (fst (handleDeleteReport id srv)).
Proof.
  intros Hinv. unfold handleDeleteReport.
  destruct (findReport id (reports srv)) as [ r | ] eqn:Hfind; [ | exact Hinv ].
  destruct Hinv as (Hnd & Hids & Hnames & Hall & Hlen & Hfile).
  destruct (spliceReport_ids id (reports srv) Hnd) as (Hnd' & Hsub).
  destruct (unlinkFile_spec (reportFileName id) (reportFiles srv) Hnames)
    as (Hnames' & Hfsub & Hgone & Hother & Hflen).
  unfold storeInvariant. cbn [fst reports reportFiles].
  split; [ exact Hnd' | ].
  split; [ intros x Hx; apply Hids, Hsub, Hx | ].
  split; [ exact Hnames' | ].
  split.
  { apply Forall_forall. intros file Hin.
    apply (proj1 (Forall_forall _ _) Hall), Hfsub, Hin. }
  split.
  { pose proof (spliceReport_length id (reports srv)) as Hrlen.
    rewrite Hfile, Hfind in Hflen. rewrite Hfind in Hrlen. lia. }
  intros other. destruct (String.eqb_spec other id) as [ E | E ].
  - subst other. rewrite Hgone. symmetry. apply findReport_None.
    intros Hin. apply Hsub in Hin. tauto.
  - rewrite Hother, findReport_splice_other, Hfile; [ reflexivity | exact E | ].
    intros H. apply E, reportFileName_inj, H.
Qed.

Lemma serveAll_invariant (reqs : list Request) :
  forall (ids : list string) (srv : Server),
  storeInvariant ids srv ->
  freshIds ids reqs ->
  storeInvariant (idsAfter ids reqs) (serveAll srv reqs).
Proof.
  induction reqs as [ | req reqs IH ]; intros ids srv Hinv Hfresh; [ exact Hinv | ].
  destruct req as [ id serverNow body | id ]; cbn [freshIds] in Hfresh;
    cbn [serveAll fold_left idsAfter serve].
  - destruct Hfresh as (Hid & Hrest).
    apply (IH (id :: ids)); [ | exact Hrest ].
    apply handlePostReport_invariant; assumption.
  - apply (IH ids); [ | exact Hfresh ].
    apply handleDeleteReport_invariant, Hinv.
Qed.

Lemma loadReports_mirror (files : list (string * Report)) :
  Forall (fun file => fst file = reportFileName (report_id (snd file))) files ->
  List.length (loadReports files) = List.length files
  /\ (forall id,
        findReport id (loadReports files) = readFile (reportFileName id) files).
Proof.
  unfold loadReports, findReport.
  induction files as [ | (n & r) files IH ]; intros Hall; [ auto | ].
  inversion Hall as [ | ? ? Hname Hrest ]; subst. cbn [fst snd] in Hname.
  destruct (IH Hrest) as (Hlen & Hfind).
  cbn [filter fst]. rewrite Hname, endsWith_reportFileName.
  cbn [map snd List.length find readFile]. split; [ now rewrite Hlen | ].
  intros id. rewrite reportFileName_eqb, Hfind. reflexivity.
Qed.

(** X14. The reports directory mirrors the array of reports.  Starting from
    an empty server, after any sequence of posts and deletes in which every
    post brings a new id, the ids in memory are distinct, there is exactly
    one file per report, the file [report-<id>.json] holds the report a get
    of that id answers, and a server restarted on the directory answers
    every get, and the health count, as the running server does. *)
Theorem reports_directory_mirrors_the_array (reqs : list Request) :
  freshIds [] reqs ->
  let srv := serveAll emptyServer reqs in
  NoDup (map report_id (reports srv))
  /\ List.length (reportFiles srv) = List.length (reports srv)
  /\ (forall id,
        readFile (reportFileName id) (reportFiles srv)
        = snd (handleGetReport id srv))
  /\ (forall id, handleGetReport id (restart srv) = handleGetReport id srv)
  /\ healthReportsCount (restart srv) = healthReportsCount srv.
Proof.
  intros Hfresh srv.
  assert (Hinit : storeInvariant [] emptyServer).
  { unfold storeInvariant, emptyServer. cbn.
    repeat split; auto using NoDup_nil. }
  pose proof (serveAll_invariant reqs [] emptyServer Hinit Hfresh) as Hinv.
  fold srv in Hinv.
  destruct Hinv as (Hnd & _ & _ & Hall & Hlen & Hfile).
  destruct (loadReports_mirror (reportFiles srv) Hall) as (Hllen & Hload).
  split; [ exact Hnd | ]. split; [ exact Hlen | ].
  split.
  { intros id. rewrite Hfile. unfold handleGetReport.
    destruct (findReport id (reports srv)); reflexivity. }
  split.
  { intros id. unfold handleGetReport, restart. cbn [reports].
    now rewrite Hload, Hfile. }
  unfold healthReportsCount, restart. cbn [reports]. now rewrite Hllen, Hlen.
Qed.

Lemma reports_directory_mirrors_the_array_witness :
  let srv :=
    serveAll emptyServer
      [PostReport "a" 1000 emptyBody; PostReport "b" 2000 emptyBody;
       DeleteReport "a"; PostReport "c" 3000 emptyBody; DeleteReport "x"] in
  handleGetReport "b" (restart srv) = handleGetReport "b" srv
  /\ healthReportsCount (restart srv) = healthReportsCount srv.
Proof.
  intros srv.
  destruct (reports_directory_mirrors_the_array
              [PostReport "a" 1000 emptyBody; PostReport "b" 2000 emptyBody;
               DeleteReport "a"; PostReport "c" 3000 emptyBody;
               DeleteReport "x"])
    as (_ & _ & _ & Hget & Hcount).
  - cbn [freshIds]. repeat split.
    + intros [].
    + intros [ H | [] ]; discriminate.
    + intros [ H | [ H | [] ] ]; discriminate.
  - split; [ apply Hget | exact Hcount ].
Defined.

(** ** The layout of the PDF report *)

Lemma pdfCalls_app (pdf : Pdf) (a b : list PdfCall) :
  pdfCalls pdf (a ++ b) = pdfCalls (pdfCalls pdf a) b.
Proof. apply fold_left_app. Qed.

Ltac layout_cases :=
  unfold yBefore, pageBefore, lineY, linePage in *;
  repeat match goal with
    | |- context [?a <=? ?b] => destruct (Z.leb_spec a b)
    | |- context [?a <? ?b] => destruct (Z.ltb_spec a b)
    | |- context [?a >? ?b] => rewrite (Z.gtb_ltb a b)
    | H : context [?a <=? ?b] |- _ => destruct (Z.leb_spec a b)
    | H : context [?a <? ?b] |- _ => destruct (Z.ltb_spec a b)
    | H : context [?a >? ?b] |- _ => rewrite (Z.gtb_ltb a b) in H
    end;
  try discriminate; try lia.

Lemma newPage_effect (k f : Z) (c : Z * Z * Z) (texts : list PdfText)
    (saved : option string) :
  0 <= k < 50 ->
  pdfCalls (mkPdf (pageBefore k) (pageBefore k) f c texts saved)
    (if yBefore k >? 250 then [AddPage] else [])
  = mkPdf (linePage k) (linePage k) f c texts saved
  /\ (if yBefore k >? 250 then 20 else yBefore k) = lineY k
  /\ lineY k + 6 = yBefore (k + 1)
  /\ linePage k = pageBefore (k + 1).
Proof.
  intros Hk.
  assert (Hy : (if yBefore k >? 250 then 20 else yBefore k) = lineY k)
    by layout_cases.
  assert (Hp : (if yBefore k >? 250 then pageBefore k + 1 else pageBefore k)
               = linePage k) by layout_cases.
  repeat split; [| exact Hy | layout_cases | layout_cases].
  destruct (yBefore k >? 250); cbn; now rewrite <- Hp.
Qed.

Lemma eventColor_effect (t : Severity) (p q f : Z) (c : Z * Z * Z)
    (texts : list PdfText) (saved : option string) :
  pdfCall (mkPdf p q f c texts saved) (eventColor t)
  = mkPdf p q f (severityRGB t) texts saved.
Proof. now destruct t. Qed.

(** The loop from line [k]: it draws the lines of the next [50 - k] events
    at their closed-form positions and leaves the position of line
    [k + n]. *)
Lemma eventCalls_layout (events : list LogEntry) :
  forall (k : Z) (c : Z * Z * Z) (texts : list PdfText) (saved : option string),
    0 <= k < 50 ->
    let r := eventCalls events (yBefore k) k in
    let n := Z.min (Z.of_nat (List.length events)) (50 - k) in
    snd r = yBefore (k + n)
    /\ exists c',
        pdfCalls (mkPdf (pageBefore k) (pageBefore k) 10 c texts saved) (fst r)
        = mkPdf (pageBefore (k + n)) (pageBefore (k + n)) 10 c'
            (texts ++ eventTexts k (firstn (Z.to_nat (50 - k)) events)) saved.
Proof.
  induction events as [|e rest IH]; intros k c texts saved Hk r n.
  - subst r n. cbn [eventCalls fst snd List.length firstn].
    replace (Z.min (Z.of_nat 0) (50 - k)) with 0 by lia.
    rewrite Z.add_0_r. split; [reflexivity|].
    exists c. rewrite firstn_nil. cbn. now rewrite app_nil_r.
  - destruct (newPage_effect k 10 c texts saved Hk) as (Hpdf & Hy & Hy' & Hp).
    subst r. cbn [eventCalls]. cbv zeta. rewrite Hy.
    replace (Z.to_nat (50 - k)) with (S (Z.to_nat (50 - (k + 1)))) by lia.
    cbn [firstn eventTexts].
    destruct (k + 1 >=? 50) eqn:Hlast.
    + assert (k = 49) by (rewrite Z.geb_leb in Hlast; apply Z.leb_le in Hlast; lia).
      subst k. cbn [fst snd].
      assert (Hn : n = 1) by (subst n; cbn [List.length]; lia).
      rewrite Hn. split; [exact Hy'|].
      rewrite pdfCalls_app, Hpdf.
      exists (severityRGB (type e)).
      cbn [pdfCalls fold_left]. cbn [pdfCall pdf_pages pdf_page pdf_fontSize
        pdf_color pdf_texts pdf_saved].
      rewrite eventColor_effect.
      cbn [pdfCall pdf_pages pdf_page pdf_fontSize pdf_color pdf_texts pdf_saved].
      rewrite <- !app_assoc. reflexivity.
    + assert (Hk' : 0 <= k + 1 < 50)
        by (rewrite Z.geb_leb in Hlast; apply Z.leb_gt in Hlast; lia).
      cbn [fst snd]. rewrite Hy'.
      assert (Hn : k + n = k + 1
                + Z.min (Z.of_nat (List.length rest)) (50 - (k + 1)))
        by (subst n; cbn [List.length]; lia).
      rewrite Hn.
      destruct (IH (k + 1) (severityRGB (type e))
                  (texts ++ [eventStampText k e; eventMessageText k e])
                  saved Hk') as (IHy & c' & IHpdf).
      split; [exact IHy|].
      exists c'.
      rewrite pdfCalls_app, pdfCalls_app, Hpdf.
      cbn [pdfCalls fold_left]. cbn [pdfCall pdf_pages pdf_page pdf_fontSize
        pdf_color pdf_texts pdf_saved].
      rewrite eventColor_effect.
      cbn [pdfCall pdf_pages pdf_page pdf_fontSize pdf_color pdf_texts pdf_saved].
      rewrite <- Hp in IHpdf. rewrite <- (app_assoc texts).
      etransitivity; [exact IHpdf|].
      rewrite <- app_assoc. reflexivity.
Qed.

Lemma filter_none {A : Type} (f : A -> bool) (l : list A) :
  Forall (fun x => f x = false) l -> filter f l = [].
Proof.
  induction 1 as [|x l Hx _ IH]; [reflexivity|].
  cbn. now rewrite Hx.
Qed.

Lemma filter_all {A : Type} (f : A -> bool) (l : list A) :
  Forall (fun x => f x = true) l -> filter f l = l.
Proof.
  induction 1 as [|x l Hx _ IH]; [reflexivity|].
  cbn. rewrite Hx. now f_equal.
Qed.

Lemma eventTexts_messages (events : list LogEntry) :
  forall k,
    filter (fun t => pt_x t =? 40) (eventTexts k events)
    = eventMessageTexts k events.
Proof.
  induction events as [|e rest IH]; intros k; [reflexivity|].
  cbn. now rewrite IH.
Qed.

Lemma eventMessageTexts_text (events : list LogEntry) :
  forall k, map pt_text (eventMessageTexts k events) = map message events.
Proof.
  induction events as [|e rest IH]; intros k; [reflexivity|].
  cbn. now rewrite IH.
Qed.

Lemma eventTexts_bounds (K : Z) (events : list LogEntry) :
  forall k,
    0 <= k -> k + Z.of_nat (List.length events) <= K -> K <= 50 ->
    Forall (fun t => 20 <= pt_y t <= 250 /\ 1 <= pt_page t <= pageBefore K)
      (eventTexts k events).
Proof.
  induction events as [|e rest IH]; intros k Hk Hlen HK; [constructor|].
  cbn [List.length] in Hlen.
  assert (Hline : 20 <= lineY k <= 250 /\ 1 <= linePage k <= pageBefore K)
    by (split; layout_cases).
  cbn [eventTexts]. constructor; [exact Hline|].
  constructor; [exact Hline|].
  apply IH; lia.
Qed.

Lemma eventMessageTexts_bounds (events : list LogEntry) :
  forall k,
    0 <= k -> k + Z.of_nat (List.length events) <= 50 ->
    Forall (fun t => 20 <= pt_y t <= 250) (eventMessageTexts k events).
Proof.
  induction events as [|e rest IH]; intros k Hk Hlen; [constructor|].
  cbn [List.length] in Hlen.
  cbn [eventMessageTexts]. constructor; [cbn; layout_cases|].
  apply IH; lia.
Qed.

Lemma firstn_50_length (events : list LogEntry) :
  Z.of_nat (List.length (firstn 50 events))
  = Z.min (Z.of_nat (List.length events)) 50.
Proof. rewrite length_firstn. lia. Qed.

Lemma summaryCalls_effect (locale : Locale) (now : Z) (d : ReportData) :
  exists texts,
    pdfCalls newPdf (summaryCalls locale now d)
    = mkPdf 1 1 12 (0, 0, 0) texts None
    /\ filter (fun t => pt_x t =? 40) texts = []
    /\ Forall (fun t => 20 <= pt_y t <= 250 /\ pt_page t = 1) texts.
Proof.
  eexists. split.
  { cbv [pdfCalls fold_left pdfCall summaryCalls newPdf pdf_pages pdf_page
      pdf_fontSize pdf_color pdf_texts pdf_saved app].
    reflexivity. }
  split; [reflexivity|].
  repeat (constructor; [cbv [pt_y pt_page]; lia|]). constructor.
Qed.

Lemma eventSection_effect (events : list LogEntry) (texts : list PdfText)
    (saved : option string) :
  let section := eventSection events 195 in
  let P := pageBefore (Z.of_nat (List.length events)) in
  26 <= snd section <= 254
  /\ exists f c new,
      pdfCalls (mkPdf 1 1 12 (0, 0, 0) texts saved) (fst section)
      = mkPdf P P f c (texts ++ new) saved
      /\ filter (fun t => pt_x t =? 40) new
         = eventMessageTexts 0 (firstn 50 events)
      /\ Forall (fun t => 20 <= pt_y t <= 250 /\ 1 <= pt_page t <= P) new.
Proof.
  intros section P. subst section. unfold eventSection.
  destruct (Z.of_nat (List.length events) >? 0) eqn:Hpos.
  2: { assert (events = []) as ->.
       { destruct events; [reflexivity|]. cbn in Hpos. discriminate. }
       cbn [fst snd]. split; [lia|].
       exists 12, (0, 0, 0), []. cbn. rewrite app_nil_r.
       repeat split. constructor. }
  assert (Hlen : 0 < Z.of_nat (List.length events))
    by (rewrite Z.gtb_ltb in Hpos; now apply Z.ltb_lt in Hpos).
  assert (H0 : 0 <= 0 < 50) by lia.
  destruct (eventCalls_layout events 0 (0, 0, 0)
              (texts ++ [mkPdfText 1 16 (0, 0, 0) "Event Log" 20 195 false])
              saved H0) as (Hy & c' & Hpdf).
  change (yBefore 0) with 205 in Hy, Hpdf.
  change (pageBefore 0) with 1 in Hpdf.
  change (50 - 0) with 50 in Hy, Hpdf.
  change (Z.to_nat 50) with 50%nat in Hpdf.
  rewrite Z.add_0_l in Hy, Hpdf.
  set (n := Z.min (Z.of_nat (List.length events)) 50) in *.
  assert (HP : pageBefore n = P) by (subst n P; layout_cases).
  assert (Hshown : 0 + Z.of_nat (List.length (firstn 50 events)) <= n)
    by (rewrite firstn_50_length; subst n; lia).
  assert (Hb := eventTexts_bounds n (firstn 50 events) 0 ltac:(lia) Hshown
                  ltac:(subst n; lia)).
  rewrite HP in Hb, Hpdf.
  assert (HP1 : 1 <= P <= 3) by (subst P; layout_cases).
  change (195 + 10) with 205.
  destruct (Z.of_nat (List.length events) >? 50) eqn:Hmore.
  - assert (Hn : n = 50)
      by (rewrite Z.gtb_ltb in Hmore; apply Z.ltb_lt in Hmore; subst n; lia).
    cbn [fst snd]. rewrite Hy, Hn. split; [cbn; lia|].
    assert (HP3 : P = 3) by (rewrite <- HP, Hn; reflexivity).
    exists 10, (100, 100, 100).
    eexists.
    rewrite !pdfCalls_app. cbn [pdfCalls fold_left pdfCall pdf_pages pdf_page
      pdf_fontSize pdf_color pdf_texts pdf_saved].
    fold (pdfCalls
            (mkPdf 1 1 10 (0, 0, 0)
               (texts ++ [mkPdfText 1 16 (0, 0, 0) "Event Log" 20 195 false])
               saved)
            (fst (eventCalls events 205 0))).
    rewrite Hpdf.
    cbn [fold_left pdfCall pdf_pages pdf_page pdf_fontSize pdf_color pdf_texts
      pdf_saved].
    split; [rewrite <- !app_assoc; reflexivity|].
    split.
    + cbn [app filter pt_x]. change (20 =? 40) with false. cbv iota.
      rewrite filter_app, eventTexts_messages. cbn. now rewrite app_nil_r.
    + cbn [app]. constructor; [cbn; lia|].
      apply Forall_app. split; [exact Hb|].
      constructor; [|constructor]. cbn. lia.
  - cbn [fst snd]. rewrite Hy.
    split; [subst n; layout_cases|].
    exists 10, c'. eexists.
    rewrite !pdfCalls_app. cbn [pdfCalls fold_left pdfCall pdf_pages pdf_page
      pdf_fontSize pdf_color pdf_texts pdf_saved].
    fold (pdfCalls
            (mkPdf 1 1 10 (0, 0, 0)
               (texts ++ [mkPdfText 1 16 (0, 0, 0) "Event Log" 20 195 false])
               saved)
            (fst (eventCalls events 205 0))).
    rewrite Hpdf.
    split; [rewrite <- !app_assoc; reflexivity|].
    split.
    + cbn [app filter pt_x]. change (20 =? 40) with false. cbv iota.
      apply eventTexts_messages.
    + cbn [app]. constructor; [cbn; lia|]. exact Hb.
Qed.

Lemma footerCalls_effect (generated : string) (pageCount : Z) (l : list Z) :
  forall (p q f : Z) (c : Z * Z * Z) (texts : list PdfText)
         (saved : option string),
  exists q' f' c',
    pdfCalls (mkPdf p q f c texts saved)
      (flat_map
         (fun i =>
            [SetPage i; SetFontSize 10; SetTextColor 100 100 100;
             Text ("Report generated: " ++ generated) 105 287 true;
             Text ("Page " ++ JS.Z_toString i ++ " of "
                     ++ JS.Z_toString pageCount) 105 292 true]) l)
    = mkPdf p q' f' c'
        (texts
         ++ flat_map
              (fun i =>
                 [mkPdfText i 10 (100, 100, 100)
                    ("Report generated: " ++ generated) 105 287 true;
                  mkPdfText i 10 (100, 100, 100)
                    ("Page " ++ JS.Z_toString i ++ " of "
                       ++ JS.Z_toString pageCount) 105 292 true]) l)
        saved.
Proof.
  induction l as [|i l IH]; intros p q f c texts saved.
  - exists q, f, c. cbn. now rewrite app_nil_r.
  - cbn [flat_map]. rewrite pdfCalls_app.
    cbn [pdfCalls fold_left pdfCall pdf_pages pdf_page pdf_fontSize pdf_color
      pdf_texts pdf_saved].
    match goal with
    | |- context [pdfCalls (mkPdf ?p' ?q' ?f' ?c' ?t' ?s') _] =>
        destruct (IH p' q' f' c' t' s') as (q1 & f1 & c1 & H)
    end.
    exists q1, f1, c1. rewrite H.
    rewrite <- !app_assoc. reflexivity.
Qed.

Lemma footerTexts_bounds (generated : string) (P : Z) :
  Forall (fun t => (pt_y t = 287 \/ pt_y t = 292) /\ pt_x t = 105
                   /\ 1 <= pt_page t <= P)
    (footerTexts generated P).
Proof.
  unfold footerTexts.
  assert (Hrange : Forall (fun i => 1 <= i <= P)
                     (map Z.of_nat (seq 1 (Z.to_nat P)))).
  { apply Forall_forall. intros i Hi.
    apply in_map_iff in Hi. destruct Hi as (n & <- & Hn).
    apply in_seq in Hn. lia. }
  induction Hrange as [|i l Hi _ IH]; [constructor|].
  cbn [flat_map app].
  constructor; [cbn; lia|]. constructor; [cbn; lia|]. exact IH.
Qed.

(** The document of [generatePDFReport]: the texts above the footers, the
    two lines of the recommendation, then the footers of every page. *)
Lemma generatePDFReport_texts (locale : Locale) (now : Z) (d : ReportData) :
  let P := pageBefore (Z.of_nat (List.length (data_events d))) in
  exists q f c body y,
    generatePDFReport locale now d
    = mkPdf P q f c
        (body
         ++ [mkPdfText P 14 (0, 0, 0) "Recommendation:" 20 y false;
             mkPdfText P 12 (0, 0, 0)
               (getRecommendation (data_integrityScore d)) 20 (y + 8) false]
         ++ footerTexts (toLocaleString locale now) P)
        (Some ("proctoring-report-" ++ substring 0 10 (JS.toISOString now)
               ++ ".pdf")%string)
    /\ filter (fun t => pt_x t =? 40) body
       = eventMessageTexts 0 (firstn 50 (data_events d))
    /\ Forall (fun t => 20 <= pt_y t <= 250 /\ 1 <= pt_page t <= P) body
    /\ 41 <= y <= 269
    /\ 1 <= P <= 3.
Proof.
  intros P.
  assert (HP : 1 <= P <= 3) by (subst P; layout_cases).
  destruct (summaryCalls_effect locale now d) as (t0 & H0 & Hf0 & Hb0).
  destruct (eventSection_effect (data_events d) t0 None)
    as (Hy & f & c & new & Hsec & Hfn & Hbn).
  fold P in Hsec, Hbn.
  unfold generatePDFReport, bodyCalls. cbv zeta.
  rewrite !pdfCalls_app, H0, Hsec.
  cbn [pdfCalls fold_left pdfCall pdf_pages pdf_page pdf_fontSize pdf_color
    pdf_texts pdf_saved].
  unfold footerCalls.
  match goal with
  | |- context [pdfCalls (mkPdf ?p' ?q' ?f' ?c' ?t' ?s') (flat_map _ ?l)] =>
      destruct (footerCalls_effect (toLocaleString locale now) P l
                  p' q' f' c' t' s') as (q1 & f1 & c1 & H)
  end.
  rewrite H.
  cbn [pdfCalls fold_left pdfCall pdf_pages pdf_page pdf_fontSize pdf_color
    pdf_texts pdf_saved].
  exists q1, f1, c1, (t0 ++ new), (snd (eventSection (data_events d) 195) + 15).
  split.
  { unfold footerTexts. rewrite <- !app_assoc. reflexivity. }
  split.
  { rewrite filter_app, Hf0, Hfn. reflexivity. }
  split.
  { apply Forall_app. split; [|exact Hbn].
    eapply Forall_impl; [|exact Hb0]. cbv beta. intros t [Hty Htp]. lia. }
  split; lia.
Qed.

(** X15. The event log of the PDF report: the messages of the first 50
    events are drawn in order, each in the colour of its type, eight on the
    first page from y = 205 and thirty-nine per page after that in steps of
    6 from y = 20, never below y = 250; the document has one page up to 8
    events, two up to 47, three otherwise. *)
Theorem pdf_report_draws_the_first_50_events
    (locale : Locale) (now : Z) (d : ReportData) :
  let pdf := generatePDFReport locale now d in
  let shown := firstn 50 (data_events d) in
  eventLines pdf = eventMessageTexts 0 shown
  /\ map pt_text (eventLines pdf) = map message shown
  /\ Forall (fun t => 20 <= pt_y t <= 250) (eventLines pdf)
  /\ pdf_pages pdf = pageBefore (Z.of_nat (List.length (data_events d)))
  /\ 1 <= pdf_pages pdf <= 3.
Proof.
  intros pdf shown. subst pdf shown.
  destruct (generatePDFReport_texts locale now d)
    as (q & f & c & body & y & Hpdf & Hf & Hb & Hy & HP).
  rewrite Hpdf. unfold eventLines. cbn [pdf_texts pdf_pages].
  assert (Hlines :
    filter (fun t => pt_x t =? 40)
      (body
       ++ [mkPdfText (pageBefore (Z.of_nat (List.length (data_events d)))) 14
             (0, 0, 0) "Recommendation:" 20 y false;
           mkPdfText (pageBefore (Z.of_nat (List.length (data_events d)))) 12
             (0, 0, 0) (getRecommendation (data_integrityScore d)) 20 (y + 8)
             false]
       ++ footerTexts (toLocaleString locale now)
            (pageBefore (Z.of_nat (List.length (data_events d)))))
    = eventMessageTexts 0 (firstn 50 (data_events d))).
  { rewrite !filter_app, Hf.
    rewrite (filter_none _ (footerTexts _ _)).
    - cbn. now rewrite app_nil_r.
    - eapply Forall_impl; [|apply footerTexts_bounds].
      cbv beta. intros t (_ & Hx & _). now rewrite Hx. }
  rewrite Hlines.
  split; [reflexivity|].
  split; [apply eventMessageTexts_text|].
  split; [|split; [reflexivity|exact HP]].
  apply eventMessageTexts_bounds; [lia|].
  rewrite firstn_50_length. lia.
Qed.

(** X16. The margins of the PDF report: every text is drawn between y = 20
    and y = 292 on an existing page, the only texts below y = 277 are the
    two footer lines of each page from 1 to the page count, the
    recommendation is drawn on the last page at most at y = 277, and the
    document is saved under the ISO day of the download. *)
Theorem pdf_report_keeps_the_footer_clear
    (locale : Locale) (now : Z) (d : ReportData) :
  let pdf := generatePDFReport locale now d in
  filter (fun t => 277 <? pt_y t) (pdf_texts pdf)
  = footerTexts (toLocaleString locale now) (pdf_pages pdf)
  /\ Forall (fun t => 20 <= pt_y t <= 292 /\ 1 <= pt_page t <= pdf_pages pdf)
       (pdf_texts pdf)
  /\ (exists y,
        y <= 277
        /\ In (mkPdfText (pdf_pages pdf) 12 (0, 0, 0)
                 (getRecommendation (data_integrityScore d)) 20 y false)
             (pdf_texts pdf))
  /\ pdf_saved pdf
     = Some ("proctoring-report-" ++ substring 0 10 (JS.toISOString now)
             ++ ".pdf")%string.
Proof.
  intros pdf. subst pdf.
  destruct (generatePDFReport_texts locale now d)
    as (q & f & c & body & y & Hpdf & Hf & Hb & Hy & HP).
  rewrite Hpdf. cbn [pdf_texts pdf_pages pdf_saved].
  set (P := pageBefore (Z.of_nat (List.length (data_events d)))) in *.
  assert (Hfoot := footerTexts_bounds (toLocaleString locale now) P).
  split.
  { rewrite !filter_app.
    rewrite (filter_none _ body).
    2: { eapply Forall_impl; [|exact Hb]. cbv beta. intros t [Hty _].
         apply Z.ltb_ge. lia. }
    rewrite (filter_all _ (footerTexts _ _)).
    2: { eapply Forall_impl; [|exact Hfoot]. cbv beta. intros t (Hty & _).
         apply Z.ltb_lt. lia. }
    cbn [filter pt_y app].
    replace (277 <? y) with false by (symmetry; apply Z.ltb_ge; lia).
    replace (277 <? y + 8) with false by (symmetry; apply Z.ltb_ge; lia).
    reflexivity. }
  split.
  { apply Forall_app. split.
    - eapply Forall_impl; [|exact Hb]. cbv beta. intros t [Hty Htp]. lia.
    - constructor; [cbn; lia|]. constructor; [cbn; lia|].
      eapply Forall_impl; [|exact Hfoot]. cbv beta. intros t (Hty & _ & Htp).
      lia. }
  split; [|reflexivity].
  exists (y + 8). split; [lia|].
  apply in_or_app. right. right. left. reflexivity.
Qed.

Example ten_events_spill_onto_a_second_page :
  let pdf := generatePDFReport isoLocale 0 (reportWithEvents 10) in
  map (fun t => (pt_page t, pt_y t)) (eventLines pdf)
  = [(1, 205); (1, 211); (1, 217); (1, 223); (1, 229); (1, 235); (1, 241);
     (1, 247); (2, 20); (2, 26)]
  /\ pdf_pages pdf = 2.
Proof. vm_compute. split; reflexivity. Qed.

Example sixty_events_draw_fifty_lines_and_a_note :
  let pdf := generatePDFReport isoLocale 0 (reportWithEvents 60) in
  List.length (eventLines pdf) = 50%nat
  /\ pdf_pages pdf = 3
  /\ In (mkPdfText 3 10 (100, 100, 100) "... and 10 more events" 20 43 false)
       (pdf_texts pdf).
Proof.
  vm_compute. split; [reflexivity|]. split; [reflexivity|].
  do 120 right. left. reflexivity.
Qed.

(** ** The score animation, the sub-scores and the timer *)

Lemma updateScore_up (frames : nat) :
  forall target current,
    current < target -> Z.of_nat frames = target - current ->
    updateScore frames 1 target current = Some target
    /\ forall fewer, (fewer < frames)%nat ->
                     updateScore fewer 1 target current = None.
Proof.
  induction frames as [|frames IH]; intros target current Hlt Hn; [lia|].
  cbn [updateScore]. change (1 >? 0) with true. change (1 <? 0) with false.
  cbn [andb orb]. rewrite orb_false_r.
  destruct (Z.ltb_spec (current + 1) target) as [Hmore|Hdone].
  - destruct (IH target (current + 1) Hmore ltac:(lia)) as [Hend Hfewer].
    split; [exact Hend|].
    intros [|fewer] Hf; [reflexivity|].
    cbn [updateScore]. change (1 >? 0) with true. change (1 <? 0) with false.
    cbn [andb orb]. rewrite orb_false_r.
    destruct (Z.ltb_spec (current + 1) target); [|lia].
    apply Hfewer. lia.
  - split; [f_equal; lia|].
    intros fewer Hf. assert (fewer = 0%nat) as -> by lia. reflexivity.
Qed.

Lemma updateScore_down (frames : nat) :
  forall target current,
    target < current -> Z.of_nat frames = current - target ->
    updateScore frames (-1) target current = Some target
    /\ forall fewer, (fewer < frames)%nat ->
                     updateScore fewer (-1) target current = None.
Proof.
  induction frames as [|frames IH]; intros target current Hlt Hn; [lia|].
  cbn [updateScore]. change (-1 >? 0) with false. change (-1 <? 0) with true.
  cbn [andb orb].
  destruct (Z.gtb_spec (current + -1) target) as [Hmore|Hdone].
  - destruct (IH target (current + -1) ltac:(lia) ltac:(lia)) as [Hend Hfewer].
    split; [exact Hend|].
    intros [|fewer] Hf; [reflexivity|].
    cbn [updateScore]. change (-1 >? 0) with false. change (-1 <? 0) with true.
    cbn [andb orb].
    destruct (Z.gtb_spec (current + -1) target); [|lia].
    apply Hfewer. lia.
  - split; [f_equal; lia|].
    intros fewer Hf. assert (fewer = 0%nat) as -> by lia. reflexivity.
Qed.

(** X17. The score animation, run on its own from a numeric text: it stops
    after exactly max(1, |score - text|) frames; it then shows the new score
    when the text differed from it, and one less than the score when the
    text already showed it. *)
Theorem score_animation_ends_one_below_an_unchanged_score (score text : Z) :
  let frames := Z.to_nat (Z.max 1 (Z.abs (score - text))) in
  animateScore frames score text
  = Some (if score =? text then score - 1 else score)
  /\ forall fewer, (fewer < frames)%nat -> animateScore fewer score text = None.
Proof.
  intros frames. subst frames. unfold animateScore.
  destruct (Z.gtb_spec score text) as [Hup|Hdown].
  - destruct (Z.eqb_spec score text); [lia|].
    apply updateScore_up; lia.
  - destruct (Z.eqb_spec score text) as [->|Hne].
    + replace (Z.to_nat (Z.max 1 (Z.abs (text - text)))) with 1%nat by lia.
      cbn [updateScore]. change (-1 >? 0) with false.
      change (-1 <? 0) with true. cbn [andb orb].
      destruct (Z.gtb_spec (text + -1) text); [lia|].
      split; [f_equal; lia|].
      intros fewer Hf. assert (fewer = 0%nat) as -> by lia. reflexivity.
    + apply updateScore_down; lia.
Qed.

Example animation_at_the_start_of_an_interview_shows_99 :
  animateScore 1 100 100 = Some 99 /\ animateScore 1 100 99 = Some 100.
Proof. split; reflexivity. Qed.

Lemma downloadReport_data (now : Z) (duration : string) (s : State)
    (d : ReportData) :
  snd (downloadReport now duration s) = Some d ->
  data_integrityScore d = integrityScore s
  /\ data_focusIssues d
     = mkFocusIssues (lookAwayCount s) (noFaceCount s) (multipleFacesCount s)
  /\ data_prohibitedItems d
     = mkProhibitedItems (phoneCount s) (bookCount s) (deviceCount s).
Proof.
  unfold downloadReport. cbv zeta.
  destruct (startTime
              (logEvent now "Generating and saving proctoring report..." info s));
    [|discriminate].
  cbn [snd]. intros Hd. injection Hd as <-. repeat split.
Qed.

(** X18. For the report of any session, the integrity score is what the
    focus score and the object score leave of 100 together,
    max(0, focus + object - 100); it is at most either of them, and it is
    100 only when both are. *)
Theorem integrity_score_combines_focus_and_object_scores
    (ops : list Op) (now : Z) (duration : string) (d : ReportData) :
  snd (downloadReport now duration (run initialState ops)) = Some d ->
  let focus := calculateFocusScore (data_focusIssues d) in
  let object := calculateObjectScore (data_prohibitedItems d) in
  data_integrityScore d = Z.max 0 (focus + object - 100)
  /\ data_integrityScore d <= Z.min focus object
  /\ (data_integrityScore d = 100 <-> focus = 100 /\ object = 100)
  /\ 0 <= focus <= 100 /\ 0 <= object <= 100.
Proof.
  intros Hd focus object.
  pose proof (run_counters_le ops initialState) as Hc.
  unfold counters_le in Hc. cbn in Hc.
  set (s := run initialState ops) in *.
  destruct (downloadReport_data now duration s d Hd) as (Hi & Hf & Hp).
  subst focus object. rewrite Hi, Hf, Hp.
  unfold calculateFocusScore, calculateObjectScore, integrityScore, deductions.
  cbv beta iota zeta delta
    [fi_lookAwayCount fi_noFaceCount fi_multipleFacesCount phonesDetected
     booksDetected devicesDetected].
  lia.
Qed.

Lemma integrity_score_combines_focus_and_object_scores_witness :
  snd (downloadReport 2000 "00:00:02" (run initialState onePhoneSession))
  = Some onePhoneReport
  /\ data_integrityScore onePhoneReport = 90
  /\ calculateFocusScore (data_focusIssues onePhoneReport) = 100
  /\ calculateObjectScore (data_prohibitedItems onePhoneReport) = 90.
Proof.
  assert (H : snd (downloadReport 2000 "00:00:02"
                     (run initialState onePhoneSession))
              = Some onePhoneReport) by (vm_compute; reflexivity).
  split; [exact H|].
  split; [|split; reflexivity].
  destruct (integrity_score_combines_focus_and_object_scores
              onePhoneSession 2000 "00:00:02" onePhoneReport H) as [Hi _].
  rewrite Hi. reflexivity.
Defined.

(** X19. The duration shown by the timer: its hours, minutes and seconds
    add up to the whole seconds elapsed since the start, counted modulo one
    day, so the display of an interview longer than 24 hours starts again
    from 00:00:00. *)
Theorem timer_shows_elapsed_seconds_modulo_one_day (now start : Z) :
  let elapsed := now - start in
  let shown := getUTCHours elapsed * 3600 + getUTCMinutes elapsed * 60
               + getUTCSeconds elapsed in
  shown = (elapsed / 1000) mod 86400
  /\ 0 <= getUTCHours elapsed < 24
  /\ 0 <= getUTCMinutes elapsed < 60
  /\ 0 <= getUTCSeconds elapsed < 60
  /\ (0 <= elapsed < 86400000 -> shown = elapsed / 1000)
  /\ startTimer_tick (now + 86400000) start = startTimer_tick now start
  /\ startTimer_tick now start = JS.toTimeString elapsed.
Proof.
  intros elapsed shown. subst shown.
  unfold startTimer_tick, JS.toTimeString. cbv zeta.
  replace (now + 86400000 - start) with (elapsed + 86400000)
    by (subst elapsed; lia).
  fold elapsed. generalize elapsed. clear. intros e.
  unfold getUTCHours, getUTCMinutes, getUTCSeconds.
  assert (Hh : ((e + 86400000) / 3600000) mod 24 = (e / 3600000) mod 24).
  { replace (e + 86400000) with (e + 24 * 3600000) by lia.
    rewrite Z.div_add by lia. rewrite Z.add_mod by lia.
    change (24 mod 24) with 0. rewrite Z.add_0_r. apply Z.mod_mod. lia. }
  assert (Hm : ((e + 86400000) / 60000) mod 60 = (e / 60000) mod 60).
  { replace (e + 86400000) with (e + 1440 * 60000) by lia.
    rewrite Z.div_add by lia. rewrite Z.add_mod by lia.
    change (1440 mod 60) with 0. rewrite Z.add_0_r. apply Z.mod_mod. lia. }
  assert (Hs : ((e + 86400000) / 1000) mod 60 = (e / 1000) mod 60).
  { replace (e + 86400000) with (e + 86400 * 1000) by lia.
    rewrite Z.div_add by lia. rewrite Z.add_mod by lia.
    change (86400 mod 60) with 0. rewrite Z.add_0_r. apply Z.mod_mod. lia. }
  assert (He1 : e / 3600000 = e / 1000 / 3600)
    by (rewrite Z.div_div by lia; reflexivity).
  assert (He2 : e / 60000 = e / 1000 / 60)
    by (rewrite Z.div_div by lia; reflexivity).
  set (secs := e / 1000) in *.
  assert (H1 : secs mod 86400 / 3600 = (secs / 3600) mod 24)
    by (Z.div_mod_to_equations; lia).
  assert (H2 : (secs mod 86400 / 60) mod 60 = (secs / 60) mod 60)
    by (Z.div_mod_to_equations; lia).
  assert (H3 : (secs mod 86400) mod 60 = secs mod 60)
    by (Z.div_mod_to_equations; lia).
  rewrite Hh, Hm, Hs, He1, He2, H1, H2, H3.
  split; [Z.div_mod_to_equations; lia|].
  split; [Z.div_mod_to_equations; lia|].
  split; [Z.div_mod_to_equations; lia|].
  split; [Z.div_mod_to_equations; lia|].
  split; [intros He; Z.div_mod_to_equations; lia|].
  split; reflexivity.
Qed.
